(** * Column heuristics of the two analysis scripts

    A shallow embedding of [Task 2/Task2.py] (unemployment series) and
    [Task 3/Task3.py] (car price model): the column detectors, the rate
    cleaner, the monthly aggregation, the feature preprocessing and the two
    command-line drivers, with the properties their description states.

    Conventions.  Python [str] values are Stdlib strings read as ASCII text.
    A pandas table is an ordered list of labelled columns; numbers are exact
    rationals standing for the finite floats of the scripts.  Calls into
    pandas, scikit-learn and argparse whose results depend on parsing,
    printing, averaging or fitting code outside the two scripts are the
    fields of interface classes; calls whose documented behaviour is
    structural ([dropna], [get_dummies], the bins of [resample], item access
    and assignment) are written out. *)

From Stdlib Require Import ZArith QArith Qround Ascii String List Bool Lia Sorted.
From Stdlib Require OrderedTypeEx.
From stdpp Require Import base option list gmap strings pretty.

Open Scope string_scope.
Open Scope list_scope.

(** ** Python string methods used by the scripts *)

Module Py.

Definition lower_ascii (c : ascii) : ascii :=
  let n := nat_of_ascii c in
  if (65 <=? n)%nat && (n <=? 90)%nat then ascii_of_nat (n + 32) else c.

(** [s.lower()] *)
Fixpoint lower (s : string) : string :=
  match s with
  | EmptyString => EmptyString
  | String c s' => String (lower_ascii c) (lower s')
  end.

(** [s.startswith(p)] *)
Definition startswith (s p : string) : bool := String.prefix p s.

(** [key in s] on strings: [key] occurs as a substring of [s]. *)
Fixpoint contains (key s : string) : bool :=
  String.prefix key s ||
  match s with
  | EmptyString => false
  | String _ s' => contains key s'
  end.

(** [s.endswith(p)] *)
Fixpoint endswith (s p : string) : bool :=
  String.eqb s p ||
  match s with
  | EmptyString => false
  | String _ s' => endswith s' p
  end.

(** [s.replace(old, new)]: left to right, occurrences do not overlap.
    [skip] counts the characters of a matched occurrence still to pass. *)
Fixpoint replace_from (old new : string) (skip : nat) (s : string) : string :=
  match s with
  | EmptyString =>
      match old with EmptyString => new | _ => EmptyString end
  | String c s' =>
      match skip with
      | S k => replace_from old new k s'
      | O =>
          if String.prefix old s
          then new +:+ match old with
                       | EmptyString => String c (replace_from old new 0 s')
                       | _ => replace_from old new (String.length old - 1) s'
                       end
          else String c (replace_from old new 0 s')
      end
  end.

Definition replace (s old new : string) : string := replace_from old new 0 s.

(** Characters removed by [s.strip()] (ASCII range). *)
Definition is_space (c : ascii) : bool :=
  let n := nat_of_ascii c in
  ((9 <=? n)%nat && (n <=? 13)%nat) || ((28 <=? n)%nat && (n <=? 32)%nat).

Fixpoint lstrip (s : string) : string :=
  match s with
  | EmptyString => EmptyString
  | String c s' => if is_space c then lstrip s' else s
  end.

Fixpoint rstrip (s : string) : string :=
  match s with
  | EmptyString => EmptyString
  | String c s' =>
      match rstrip s' with
      | EmptyString => if is_space c then EmptyString else String c EmptyString
      | r => String c r
      end
  end.

(** [s.strip()] *)
Definition strip (s : string) : string := rstrip (lstrip s).

(** Truth value of an optional argument: [None] and the empty string are false. *)
Definition truthy (o : option string) : bool :=
  match o with
  | Some s => negb (String.eqb s EmptyString)
  | None => false
  end.

End Py.

(** ** Exceptions *)

Inductive exn : Type :=
| KeyError
| IndexError
| TypeError
| AttributeError
| OSError
| ValueError (msg : string).

Inductive result (A : Type) : Type :=
| Ok (a : A)
| Raise (e : exn).
Arguments Ok {A} a.
Arguments Raise {A} e.

Global Instance result_ret : MRet result := fun A a => Ok a.

Global Instance result_bind : MBind result := fun A B k r =>
  match r with
  | Ok a => k a
  | Raise e => Raise e
  end.

(** ** Tables *)

(** A point in time as [datetime64] holds it: a calendar day and the
    nanoseconds elapsed within it. *)
Record timestamp : Type := Timestamp {
  ts_year : Z;
  ts_month : Z;
  ts_day : Z;
  ts_nanos : Z
}.

(** A column with its dtype.  [None] is the missing value of the dtype
    (NaN, NaT). *)
Inductive column : Type :=
| NumCol (v : list (option Q))
| BoolCol (v : list bool)
| ObjCol (v : list (option string))
| CatCol (categories : list string) (v : list (option string))
| DateCol (v : list (option timestamp)).

Definition table : Type := list (string * column).

(** [df.columns] *)
Definition columns (df : table) : list string := map fst df.

Definition col_length (c : column) : nat :=
  match c with
  | NumCol v => length v
  | BoolCol v => length v
  | ObjCol v => length v
  | CatCol _ v => length v
  | DateCol v => length v
  end.

(** [len(df)] *)
Definition nrows (df : table) : nat :=
  match df with
  | [] => 0
  | (_, c) :: _ => col_length c
  end.

(** [name in df.columns] *)
Definition has_column (df : table) (name : string) : bool :=
  existsb (String.eqb name) (columns df).

(** What [df[name]] evaluates to: a series when the label occurs once, a
    sub-frame of all the columns carrying it when it is repeated. *)
Inductive selection : Type :=
| Series (c : column)
| SubFrame (cs : list column).

Definition getitem (df : table) (name : string) : result selection :=
  match List.filter (fun p => String.eqb name (fst p)) df with
  | [] => Raise KeyError
  | [(_, c)] => Ok (Series c)
  | cs => Ok (SubFrame (map snd cs))
  end.

Definition missing {A : Type} (x : option A) : bool :=
  match x with
  | None => true
  | Some _ => false
  end.

(** [series.isna()] *)
Definition isna (c : column) : list bool :=
  match c with
  | NumCol v => map missing v
  | BoolCol v => map (fun _ => false) v
  | ObjCol v => map missing v
  | CatCol _ v => map missing v
  | DateCol v => map missing v
  end.


(** ** pandas operations written out *)

(** [v[mask]]: the entries at which the mask holds. *)
Fixpoint take_mask {A : Type} (mask : list bool) (v : list A) : list A :=
  match mask, v with
  | b :: mask', x :: v' =>
      if b then x :: take_mask mask' v' else take_mask mask' v'
  | _, _ => []
  end.

Definition col_take (mask : list bool) (c : column) : column :=
  match c with
  | NumCol v => NumCol (take_mask mask v)
  | BoolCol v => BoolCol (take_mask mask v)
  | ObjCol v => ObjCol (take_mask mask v)
  | CatCol cats v => CatCol cats (take_mask mask v)
  | DateCol v => DateCol (take_mask mask v)
  end.

Definition table_take (mask : list bool) (df : table) : table :=
  map (fun p => (fst p, col_take mask (snd p))) df.

Definition in_labels (labels : list string) (name : string) : bool :=
  existsb (String.eqb name) labels.

(** The rows that have a value in every column labelled by [subset]. *)
Definition complete_rows (df : table) (subset : list string) : list bool :=
  foldl (fun keep p =>
           if in_labels subset (fst p)
           then zip_with andb keep (map negb (isna (snd p)))
           else keep)
        (replicate (nrows df) true) df.

(** [df.dropna(subset=subset)] *)
Definition dropna (df : table) (subset : list string) : result table :=
  if forallb (has_column df) subset
  then Ok (table_take (complete_rows df subset) df)
  else Raise KeyError.

(** [df.drop(columns=labels)] for labels present in the table. *)
Definition drop (df : table) (labels : list string) : table :=
  List.filter (fun p => negb (in_labels labels (fst p))) df.

(** [df[name] = c]: every column carrying the label takes the new values;
    a new label is appended. *)
Definition setitem (df : table) (name : string) (c : column) : table :=
  if has_column df name
  then map (fun p => if String.eqb name (fst p) then (fst p, c) else p) df
  else df ++ [(name, c)].

(** Columns that [get_dummies] encodes: object and category dtype. *)
Definition is_text (c : column) : bool :=
  match c with
  | ObjCol _ | CatCol _ _ => true
  | _ => false
  end.

Definition text_values (c : column) : list (option string) :=
  match c with
  | ObjCol v | CatCol _ v => v
  | _ => []
  end.

Fixpoint insert_level (x : string) (l : list string) : list string :=
  match l with
  | [] => [x]
  | y :: r =>
      match String.compare x y with
      | Lt => x :: l
      | Eq => l
      | Gt => y :: insert_level x r
      end
  end.

(** The distinct values present, in increasing order. *)
Definition sorted_unique (v : list (option string)) : list string :=
  fold_right (fun o acc => match o with
                           | Some s => insert_level s acc
                           | None => acc
                           end) [] v.

(** The categories of a column to encode: the sorted distinct values of an
    object column, the declared categories of a categorical one. *)
Definition levels (c : column) : list string :=
  match c with
  | ObjCol v => sorted_unique v
  | CatCol cats _ => cats
  | _ => []
  end.

Definition indicator (l : string) (v : list (option string)) : column :=
  BoolCol (map (fun x => match x with
                         | Some s => String.eqb s l
                         | None => false
                         end) v).

(** The indicator columns of one encoded column under [drop_first=True]:
    one per category but the first, labelled [prefix_category]. *)
Definition dummies_1d (prefix : string) (c : column) : table :=
  map (fun l => (prefix +:+ "_" +:+ l, indicator l (text_values c)))
      (tail (levels c)).

(** [pd.get_dummies(df, drop_first=True)]: the columns left as they are come
    first, in order, then the indicators of each encoded column. *)
Definition get_dummies (df : table) : table :=
  List.filter (fun p => negb (is_text (snd p))) df
  ++ flat_map (fun p => dummies_1d (fst p) (snd p))
              (List.filter (fun p => is_text (snd p)) df).

(** [pd.api.types.is_numeric_dtype(df[name])] *)
Definition is_numeric_dtype (s : selection) : bool :=
  match s with
  | Series (NumCol _) | Series (BoolCol _) => true
  | _ => false
  end.

(** ** Files, output streams and the process *)

(** A series indexed by time: [(label, value)] in index order. *)
Definition series : Type := list (timestamp * option Q).

(** What [plot_monthly] draws. *)
Record figure : Type := Figure {
  fig_title : string;
  fig_xlabel : string;
  fig_ylabel : string;
  fig_data : series
}.

(** A [RandomForestRegressor] and, once fitted, what it was fitted on. *)
Record forest : Type := Forest {
  n_estimators : nat;
  forest_random_state : Z;
  fitted_on : option (table * selection)
}.

(** A file, by what a reader of its format gets from it. *)
Inductive file : Type :=
| CsvFile (df : table)
| SeriesFile (label : string) (s : series)
| PngFile (fig : figure)
| JoblibFile (m : forest)
| TextFile (content : string)
| Directory.

Record world : Type := World {
  fs : gmap string file;
  stdout : list string;
  stderr : list string
}.

(** How a run stops early: [sys.exit(code)] or an exception nobody catches. *)
Inductive halt : Type :=
| SysExit (code : Z)
| Uncaught (e : exn).

Definition io (A : Type) : Type := world -> (A + halt) * world.

Global Instance io_ret : MRet io := fun A a w => (inl a, w).

Global Instance io_bind : MBind io := fun A B k m w =>
  match m w with
  | (inl a, w') => k a w'
  | (inr h, w') => (inr h, w')
  end.

Definition lift {A : Type} (r : result A) : io A := fun w =>
  match r with
  | Ok a => (inl a, w)
  | Raise e => (inr (Uncaught e), w)
  end.

Definition sys_exit {A : Type} (code : Z) : io A := fun w =>
  (inr (SysExit code), w).

(** [print(line)] *)
Definition print (line : string) : io unit := fun w =>
  (inl tt, World (fs w) (stdout w ++ [line]) (stderr w)).

(** [print(line, file=sys.stderr)] *)
Definition eprint (line : string) : io unit := fun w =>
  (inl tt, World (fs w) (stdout w) (stderr w ++ [line])).

Fixpoint print_each (lines : list string) : io unit :=
  match lines with
  | [] => mret tt
  | l :: rest => print l ;; print_each rest
  end.

(** [os.path.exists(path)] *)
Definition path_exists (path : string) : io bool := fun w =>
  (inl (match fs w !! path with Some _ => true | None => false end), w).

(** [pd.read_csv(path)] *)
Definition read_csv (path : string) : io table := fun w =>
  match fs w !! path with
  | Some (CsvFile df) => (inl df, w)
  | Some Directory | None => (inr (Uncaught OSError), w)
  | Some _ => (inr (Uncaught (ValueError "Error tokenizing data")), w)
  end.

(** The directories above [path], outermost first: the prefixes of [path]
    that end before a "/", the empty prefix and those that a "/" closes
    left out. *)
Fixpoint prefixes_from (pre s : string) : list string :=
  match s with
  | EmptyString => []
  | String c s' =>
      (if Ascii.eqb c "/" && negb (String.eqb pre EmptyString)
          && negb (Py.endswith pre "/")
       then [pre] else [])
      ++ prefixes_from (pre +:+ String c EmptyString) s'
  end.

Definition ancestors (path : string) : list string :=
  prefixes_from EmptyString path.

(** What [os.makedirs] does above the leaf: walking up from the innermost
    directory it stops at the first path that exists, fails when that is
    not a directory, and creates the directories it passed. *)
Fixpoint make_above (above : list string) (files : gmap string file)
  : option (gmap string file) :=
  match above with
  | [] => Some files
  | head :: rest =>
      match files !! head with
      | Some Directory => Some files
      | Some _ => None
      | None =>
          files' ← make_above rest files;
          Some (<[head := Directory]> files')
      end
  end.

(** [os.makedirs(path, exist_ok=True)], on a file system in which what lies
    above an existing path exists. *)
Definition makedirs (path : string) : io unit := fun w =>
  match fs w !! path with
  | Some Directory => (inl tt, w)
  | Some _ => (inr (Uncaught OSError), w)
  | None =>
      if String.eqb path EmptyString then (inr (Uncaught OSError), w)
      else
        match make_above (rev (ancestors path)) (fs w) with
        | Some files =>
            (inl tt, World (<[path := Directory]> files) (stdout w) (stderr w))
        | None => (inr (Uncaught OSError), w)
        end
  end.

(** Writing a file at [path], replacing what was there. *)
Definition write_file (path : string) (f : file) : io unit := fun w =>
  match fs w !! path with
  | Some Directory => (inr (Uncaught OSError), w)
  | _ => (inl tt, World (<[path := f]> (fs w)) (stdout w) (stderr w))
  end.

(** [os.path.join(dir, name)] for a relative [name]. *)
Definition path_join (dir name : string) : string :=
  if String.eqb dir EmptyString then name
  else if Py.endswith dir "/" then dir +:+ name
  else dir +:+ "/" +:+ name.

(** The exit status the shell sees. *)
Definition exit_status {A : Type} (r : (A + halt) * world) : Z :=
  match fst r with
  | inl _ => 0
  | inr (SysExit code) => code
  | inr (Uncaught _) => 1
  end.

(** [str(df.shape)]; a table without columns is taken to have no rows. *)
Definition shape_str (df : table) : string :=
  "(" +:+ pretty (nrows df) +:+ ", " +:+ pretty (length df) +:+ ")".

(** [str(labels)] for labels free of quotes and escapes. *)
Definition list_str (labels : list string) : string :=
  "[" +:+ String.concat ", " (map (fun l => "'" +:+ l +:+ "'") labels) +:+ "]".

(** ** Library calls taken as given *)

(** The calls of Task2.py into pandas and Python whose result depends on
    parsing and printing code outside the script. *)
Class Pandas : Type := {
  (** [pd.to_datetime(series, dayfirst=True, errors="coerce")]: a timestamp
      or NaT for every row. *)
  to_datetime_coerce : column -> list (option timestamp);
  (** [pd.to_numeric(x, errors="ignore")] *)
  to_numeric_ignore : selection -> result selection;
  (** [pd.to_numeric] under [errors="coerce"] on one string: the number it
      reads, or NaN. *)
  to_numeric_str : string -> option Q;
  (** [str(x)] of a number and of a timestamp, as [astype(str)] applies it. *)
  str_of_num : Q -> string;
  str_of_timestamp : timestamp -> string;
  (** [pd.to_numeric] under [errors="raise"] on one string: the number it
      reads, NaN, or the error. *)
  to_numeric_raise_str : string -> result (option Q);
  (** The integer that [pd.to_numeric] takes a date for: its nanoseconds
      since 1970-01-01. *)
  datetime_value : timestamp -> Z;
  (** [.mean()] of one bin of a resampled series, from the values of the
      bin in the order of their rows; [None] is NaN. *)
  series_mean : list Q -> option Q
}.

(** The calls of Task3.py into scikit-learn, and float formatting. *)
Class Sklearn : Type := {
  (** [train_test_split(X, y, test_size=.., random_state=..)], as
      [(X_train, X_test, y_train, y_test)]. *)
  train_test_split :
    table -> selection -> Q -> Z ->
    result (table * table * selection * selection);
  (** The input validation of [model.fit(X, y)]. *)
  fit_check : table -> selection -> result unit;
  (** [model.predict(X)] *)
  predict : forest -> table -> result (list Q);
  mean_squared_error : selection -> list Q -> result Q;
  r2_score : selection -> list Q -> result Q;
  (** [f"{x:.4f}"] and [f"{x}"] *)
  format_4f : Q -> string;
  format_float : Q -> string
}.

(** How [parser.parse_args()] ends when it does not return the arguments:
    [argparse] prints the help and exits with status 0, or prints the usage
    and an error and exits with status 2. *)
Record parse_exit : Type := ParseExit {
  exit_code : Z;
  exit_stdout : list string;
  exit_stderr : list string
}.

(** [parser.parse_args()] for the arguments that a script declares, on the
    words of its command line. *)
Class Argparse (namespace : Type) : Type := {
  parse_args : list string -> namespace + parse_exit
}.

(** The call [args = parser.parse_args()] in a script. *)
Definition run_parser {namespace : Type} `{Argparse namespace}
  (argv : list string) : io namespace := fun w =>
  match parse_args argv with
  | inl args => (inl args, w)
  | inr e =>
      (inr (SysExit (exit_code e)),
       World (fs w) (stdout w ++ exit_stdout e) (stderr w ++ exit_stderr e))
  end.

(** ** Task3.py *)

Module Task3.

Definition COMMON_TARGET_ALIASES : list string :=
  [ "price"; "Price"; "selling_price"; "Selling_Price"; "selling price";
    "Selling Price"; "target"; "y"; "label" ].

(** [c.lower().replace(" ", "_")] *)
Definition normalise (c : string) : string :=
  Py.replace (Py.lower c) " " "_".

(** [{c.lower().replace(" ", "_"): c for c in df.columns}]: the comprehension
    stores the columns in order, a later column replacing an earlier one
    under the same key. *)
Definition candidates (cols : list string) : gmap string string :=
  foldl (fun m c => <[normalise c := c]> m) ∅ cols.

(** The loop over the aliases. *)
Fixpoint first_alias (cands : gmap string string) (aliases : list string)
  : option string :=
  match aliases with
  | [] => None
  | alias :: rest =>
      match cands !! normalise alias with
      | Some c => Some c
      | None => first_alias cands rest
      end
  end.

(** The branch taken when a name was requested. *)
Definition requested_match (df : table) (requested : option string)
  : option string :=
  match requested with
  | Some r =>
      if Py.truthy requested then
        match candidates (columns df) !! normalise r with
        | Some c => Some c
        | None => if has_column df r then Some r else None
        end
      else None
  | None => None
  end.

Definition find_target_column (df : table) (requested : option string)
  : option string :=
  match requested_match df requested with
  | Some c => Some c
  | None => first_alias (candidates (columns df)) COMMON_TARGET_ALIASES
  end.

Definition ID_NAMES : list string := [ "car_name"; "name"; "id" ].

(** The loop that fills [drop_cols]. *)
Fixpoint drop_cols_loop (df : table) (target_col : string) (names : list string)
  : result (list string) :=
  match names with
  | [] => Ok []
  | c :: rest =>
      if String.eqb c target_col then drop_cols_loop df target_col rest
      else
        sel ← getitem df c;
        match sel with
        | Series col =>
            more ← drop_cols_loop df target_col rest;
            if is_text col && in_labels ID_NAMES (Py.lower c)
            then Ok (c :: more)
            else Ok more
        | SubFrame _ => Raise AttributeError
        end
  end.

Definition basic_preprocess (df : table) (target_col : string) : result table :=
  df1 ← dropna df [target_col];
  drop_cols ← drop_cols_loop df1 target_col (columns df1);
  let df2 := match drop_cols with
             | [] => df1
             | _ => drop df1 drop_cols
             end in
  Ok (get_dummies df2).

Record namespace : Type := Namespace {
  input : string;
  outdir : string;
  target : option string;
  test_size : Q;
  random_state : Z
}.

(** The columns that the re-match after preprocessing accepts. *)
Definition possible (df_proc : table) (target_col : string) : list string :=
  List.filter (fun c => Py.startswith (Py.lower c) (normalise target_col))
              (columns df_proc).

Section Main.
Context `{Sklearn}.

(** The part of [main] after the target column is settled, lines 104 to
    133. *)
Definition train_and_save (args : namespace) (df_proc : table)
  (target_col : string) : io unit :=
  let X := drop df_proc [target_col] in
  y ← lift (getitem df_proc target_col);
  '(X_train, X_test, y_train, y_test) ←
    lift (train_test_split X y (test_size args) (random_state args));
  print ("Train/test sizes: " +:+ pretty (nrows X_train) +:+ " "
         +:+ pretty (nrows X_test));;
  print "Training RandomForestRegressor...";;
  lift (fit_check X_train y_train);;
  let model := Forest 100 (random_state args) (Some (X_train, y_train)) in
  preds ← lift (predict model X_test);
  mse ← lift (mean_squared_error y_test preds);
  r2 ← lift (r2_score y_test preds);
  print ("Test MSE: " +:+ format_4f mse +:+ ", R2: " +:+ format_4f r2);;
  makedirs (outdir args);;
  let model_path := path_join (outdir args) "rf_model.joblib" in
  write_file model_path (JoblibFile model);;
  print ("Saved model to: " +:+ model_path);;
  let metrics_path := path_join (outdir args) "metrics.txt" in
  write_file metrics_path
    (TextFile ("mse: " +:+ format_float mse +:+ String "010" EmptyString
               +:+ "r2: " +:+ format_float r2 +:+ String "010" EmptyString));;
  print ("Saved metrics to: " +:+ metrics_path).

(** The body of [main] once [args = parser.parse_args()] has returned,
    lines 71 to 133. *)
Definition main (args : namespace) : io unit :=
  found ← path_exists (input args);
  if negb found then
    eprint ("Error: input file not found: " +:+ input args);;
    sys_exit 1
  else
    print ("Loading data... " +:+ input args);;
    df ← read_csv (input args);
    print ("Rows/cols: " +:+ shape_str df);;
    match find_target_column df (target args) with
    | None =>
        print_each
          ([ EmptyString;
             "Could not find a target column. Available columns are:";
             EmptyString ]
           ++ map (fun c => "  - " +:+ c) (columns df)
           ++ [ EmptyString;
                "Please specify --target using one of the above names (case-insensitive)." ]);;
        sys_exit 2
    | Some target_col =>
        print ("Using target column: " +:+ target_col);;
        df_proc ← lift (basic_preprocess df target_col);
        if has_column df_proc target_col then
          train_and_save args df_proc target_col
        else
          match possible df_proc target_col with
          | adjusted :: _ =>
              print ("Adjusted target column after preprocessing to: "
                     +:+ adjusted);;
              train_and_save args df_proc adjusted
          | [] =>
              eprint ("Error: target column missing after preprocessing. Columns now: "
                      +:+ list_str (columns df_proc));;
              sys_exit 3
          end
    end.

(** [main()] on the words of the command line: the arguments are parsed
    (lines 63 to 69), then the body runs. *)
Definition run `{Argparse namespace} (argv : list string) : io unit :=
  args ← run_parser argv;
  main args.

End Main.

End Task3.

(** ** Task2.py *)

Module Task2.

Section Helpers.
Context `{Pandas}.

(** [s.astype(str)], cell by cell. *)
Definition astype_str (c : column) : list string :=
  match c with
  | NumCol v =>
      map (fun x => match x with Some q => str_of_num q | None => "nan" end) v
  | BoolCol v => map (fun b : bool => if b then "True" else "False") v
  | ObjCol v | CatCol _ v =>
      map (fun x => match x with Some s => s | None => "nan" end) v
  | DateCol v =>
      map (fun x => match x with Some t => str_of_timestamp t | None => "NaT" end) v
  end.

(** The string operations applied to one cell. *)
Definition clean_cell (x : string) : string :=
  Py.strip (Py.replace (Py.replace x "%" EmptyString) "," EmptyString).

Definition clean_rate_series (s : selection) : result column :=
  match s with
  | Series c => Ok (NumCol (map (fun x => to_numeric_str (clean_cell x)) (astype_str c)))
  | SubFrame _ => Raise AttributeError
  end.

(** [pd.to_datetime(x, dayfirst=True, errors="coerce")]: on a sub-frame
    pandas tries to assemble dates from columns labelled year, month and
    day, which columns sharing one label cannot provide. *)
Definition to_datetime (s : selection) : result column :=
  match s with
  | Series c => Ok (DateCol (to_datetime_coerce c))
  | SubFrame _ =>
      Raise (ValueError "to assemble mappings requires at least that [year, month, day] be specified")
  end.

(** [parsed.notna().sum()] *)
Definition notna_sum (c : column) : nat :=
  length (List.filter negb (isna c)).

Definition DATE_CANDIDATES : list string :=
  [ "Date"; "date"; "DATE"; "Period"; "Month" ].

(** The loop over the candidate names; [count > len(df) / 4] is a
    comparison of reals, so it reads [len(df) < 4 * count]. *)
Fixpoint scan_candidates (df : table) (cands : list string) : option string :=
  match cands with
  | [] => None
  | c :: rest =>
      if has_column df c then
        match sel ← getitem df c; to_datetime sel with
        | Ok parsed =>
            if (nrows df <? 4 * notna_sum parsed)%nat then Some c
            else scan_candidates df rest
        | Raise _ => scan_candidates df rest
        end
      else scan_candidates df rest
  end.

(** The fallback loop over all columns, ending in the [raise]. *)
Fixpoint scan_fallback (df : table) (names : list string) : result string :=
  match names with
  | [] => Raise (ValueError "No usable date column found. Use --date-col DATE.")
  | col :: rest =>
      sel ← getitem df col;
      if is_numeric_dtype sel then scan_fallback df rest
      else
        parsed ← to_datetime sel;
        if (nrows df <? 2 * notna_sum parsed)%nat then Ok col
        else scan_fallback df rest
  end.

(** [provided and provided in df.columns] *)
Definition provided_present (df : table) (provided : option string) : bool :=
  match provided with
  | Some p => Py.truthy provided && has_column df p
  | None => false
  end.

(** What follows the test of the provided name. *)
Definition detect_date_auto (df : table) : result string :=
  match scan_candidates df DATE_CANDIDATES with
  | Some c => Ok c
  | None => scan_fallback df (columns df)
  end.

Definition detect_date_column (df : table) (provided : option string)
  : result string :=
  match provided with
  | Some p =>
      if provided_present df provided then Ok p else detect_date_auto df
  | None => detect_date_auto df
  end.

Definition RATE_KEYWORDS : list string :=
  [ "unemployment"; "rate"; "estimated unemployment" ].

(** The inner loop: the first column whose lowered name contains [key]. *)
Fixpoint first_containing (key : string) (cols : list string) : option string :=
  match cols with
  | [] => None
  | c :: rest =>
      if Py.contains key (Py.lower c) then Some c
      else first_containing key rest
  end.

(** The outer loop over the keywords. *)
Fixpoint scan_keywords (keys cols : list string) : option string :=
  match keys with
  | [] => None
  | key :: rest =>
      match first_containing key cols with
      | Some c => Some c
      | None => scan_keywords rest cols
      end
  end.

(** The numeric fallback loop, ending in the [raise]. *)
Fixpoint scan_numeric (df : table) (names : list string) : result string :=
  match names with
  | [] => Raise (ValueError "Could not detect rate column. Use --rate-col.")
  | c :: rest =>
      match sel ← getitem df c; to_numeric_ignore sel with
      | Ok _ => Ok c
      | Raise _ => scan_numeric df rest
      end
  end.

(** What follows the test of the provided name. *)
Definition detect_rate_auto (df : table) : result string :=
  match scan_keywords RATE_KEYWORDS (columns df) with
  | Some c => Ok c
  | None => scan_numeric df (columns df)
  end.

Definition detect_rate_column (df : table) (provided : option string)
  : result string :=
  match provided with
  | Some p =>
      if provided_present df provided then Ok p else detect_rate_auto df
  | None => detect_rate_auto df
  end.

(** [df.columns = [c.strip() for c in df.columns]] *)
Definition strip_columns (df : table) : table :=
  map (fun p => (Py.strip (fst p), snd p)) df.

(** [name in df.columns] for an argument that may be [None]. *)
Definition opt_in_columns (df : table) (name : option string) : bool :=
  match name with
  | Some n => has_column df n
  | None => false
  end.

(** [df[dcol].dt.year] and [df[dcol].dt.month] *)
Definition dt_field (field : timestamp -> Z) (s : selection) : result column :=
  match s with
  | Series (DateCol v) =>
      Ok (NumCol (map (fun x => match x with
                                | Some t => Some (inject_Z (field t))
                                | None => None
                                end) v))
  | _ => Raise AttributeError
  end.

(** [df[rate_col + "_clean"] = clean_rate_series(df[rate_col])] *)
Definition add_clean_column (df : table) (rate_col : string) : result table :=
  sel ← getitem df rate_col;
  cleaned ← clean_rate_series sel;
  Ok (setitem df (rate_col +:+ "_clean") cleaned).

Definition prepare_dataframe (path : string)
  (date_col year_col month_col rate_col : option string) : io table :=
  df0 ← read_csv path;
  let df := strip_columns df0 in
  if opt_in_columns df year_col && opt_in_columns df month_col then
    match rate_col with
    | Some r =>
        if provided_present df rate_col then lift (add_clean_column df r)
        else mret df
    | None => mret df
    end
  else
    dcol ← lift (detect_date_column df date_col);
    parsed ← lift (sel ← getitem df dcol; to_datetime sel);
    let df1 := setitem df dcol parsed in
    year ← lift (sel ← getitem df1 dcol; dt_field ts_year sel);
    let df2 := setitem df1 "Year" year in
    month ← lift (sel ← getitem df2 dcol; dt_field ts_month sel);
    let df3 := setitem df2 "Month" month in
    rcol ← lift (detect_rate_column df3 rate_col);
    lift (add_clean_column df3 rcol).

(** Calendar checks of a date. *)
Definition is_leap (y : Z) : bool :=
  ((y mod 4 =? 0) && negb (y mod 100 =? 0) || (y mod 400 =? 0))%Z.

Definition days_in_month (y m : Z) : Z :=
  (if m =? 2 then (if is_leap y then 29 else 28)
   else if (m =? 4) || (m =? 6) || (m =? 9) || (m =? 11) then 30
   else 31)%Z.

(** One row of [pd.to_datetime(frame[["Year", "Month", "day"]])]: pandas
    forms the number [year * 10000 + month * 100 + day] and reads it back as
    the digits YYYYMMDD; the date has to exist and to fit [datetime64[ns]]
    (1677-09-22 to 2262-04-11 for a midnight). *)
Definition assemble_ymd (y m d : Q) : result timestamp :=
  let v := Qred (y * inject_Z 10000 + m * inject_Z 100 + d)%Q in
  let n := Qnum v in
  let Y := (n / 10000)%Z in
  let M := ((n / 100) mod 100)%Z in
  let D := (n mod 100)%Z in
  if (Qden v =? 1)%positive
     && (16770922 <=? n)%Z && (n <=? 22620411)%Z
     && (1 <=? M)%Z && (M <=? 12)%Z
     && (1 <=? D)%Z && (D <=? days_in_month Y M)%Z
  then Ok (Timestamp Y M D 0)
  else Raise (ValueError "cannot assemble the datetimes").

(** All rows; a row with a missing part yields NaT. *)
Fixpoint assemble_rows (ys ms ds : list (option Q))
  : result (list (option timestamp)) :=
  match ys, ms, ds with
  | y :: ys', m :: ms', d :: ds' =>
      t ← match y, m, d with
          | Some y, Some m, Some d =>
              t ← assemble_ymd y m d; Ok (Some t)
          | _, _, _ => Ok None
          end;
      rest ← assemble_rows ys' ms' ds';
      Ok (t :: rest)
  | _, _, _ => Ok []
  end.

(** The texts of a column as [pd.to_numeric] reads them, one after the
    other, up to the first that it refuses. *)
Fixpoint coerce_texts (v : list (option string)) : result (list (option Q)) :=
  match v with
  | [] => Ok []
  | x :: rest =>
      y ← match x with
          | Some s => to_numeric_raise_str s
          | None => Ok None
          end;
      ys ← coerce_texts rest;
      Ok (y :: ys)
  end.

(** [to_numeric(series)], which the assembly of dates applies to each of
    its three columns: numbers stay, booleans count as 1 and 0, texts are
    read, dates are taken as integers, NaT as the least of them. *)
Definition to_numeric (c : column) : result (list (option Q)) :=
  match c with
  | NumCol v => Ok v
  | BoolCol v => Ok (map (fun b : bool => Some (if b then 1%Q else 0%Q)) v)
  | ObjCol v | CatCol _ v => coerce_texts v
  | DateCol v =>
      Ok (map (fun x => match x with
                        | Some t => Some (inject_Z (datetime_value t))
                        | None => Some (inject_Z (- 2 ^ 63))
                        end) v)
  end.

(** One of the columns [Year], [Month] and [day] as the assembly reads
    it. *)
Definition numeric_values (df : table) (name : string)
  : result (list (option Q)) :=
  sel ← getitem df name;
  match sel with
  | Series c => to_numeric c
  | SubFrame _ => Raise (ValueError "cannot assemble with duplicate keys")
  end.

(** The month a timestamp falls in, counted from year 0, and back. *)
Definition month_index (t : timestamp) : Z :=
  (ts_year t * 12 + (ts_month t - 1))%Z.

Definition month_start (i : Z) : timestamp :=
  Timestamp (i / 12) (i mod 12 + 1) 1 0.

(** The values of the rows stamped within month [i]; missing values and
    rows without a stamp are skipped. *)
Definition bin_values (i : Z) (rows : list (option timestamp * option Q))
  : list Q :=
  omap (fun r => match fst r with
                 | Some t => if (month_index t =? i)%Z then snd r else None
                 | None => None
                 end) rows.

(** [.resample("MS").mean()]: one entry per month from the earliest to the
    latest stamp, labelled by the first day of the month and holding the
    mean of the values of that month. *)
Definition resample_MS_mean (rows : list (option timestamp * option Q))
  : series :=
  match omap (fun r => month_index <$> fst r) rows with
  | [] => []
  | i0 :: rest =>
      let lo := fold_right Z.min i0 rest in
      let hi := fold_right Z.max i0 rest in
      map (fun i => (month_start i, series_mean (bin_values i rows)))
          (seqZ lo (hi - lo + 1))
  end.

Definition monthly_timeseries (df : table) (rate_clean_col : string)
  : result series :=
  temp ← dropna df [ "Year"; "Month"; rate_clean_col ];
  let temp1 := setitem temp "day" (NumCol (replicate (nrows temp) (Some 1%Q))) in
  ys ← numeric_values temp1 "Year";
  ms ← numeric_values temp1 "Month";
  ds ← numeric_values temp1 "day";
  dt ← assemble_rows ys ms ds;
  let temp2 := setitem temp1 "dt" (DateCol dt) in
  let temp3 := drop temp2 [ "dt" ] in
  sel ← getitem temp3 rate_clean_col;
  match sel with
  | Series (NumCol v) => Ok (resample_MS_mean (zip dt v))
  | Series (BoolCol v) =>
      Ok (resample_MS_mean
            (zip dt (map (fun b : bool => Some (if b then 1%Q else 0%Q)) v)))
  | Series _ => Raise TypeError
  | SubFrame _ => Raise AttributeError
  end.

Definition plot_monthly (s : series) (outdir : string) : io unit :=
  write_file (path_join outdir "monthly_timeseries.png")
    (PngFile (Figure "Monthly Unemployment Rate (aggregated)" "Date"
                     "Unemployment rate" s)).

Record namespace : Type := Namespace {
  input : string;
  outdir : string;
  date_col : option string;
  rate_col : option string;
  freq : Z
}.

(** The body under [if __name__ == "__main__"], after the arguments are
    parsed. *)
Definition main (args : namespace) : io unit :=
  makedirs (outdir args);;
  df ← prepare_dataframe (input args) (date_col args) None None (rate_col args);
  let rate_clean_cols :=
    List.filter (fun c => Py.endswith c "_clean") (columns df) in
  rate_clean ← lift (match rate_clean_cols with
                     | c :: _ => Ok c
                     | [] => Raise IndexError
                     end);
  let preproc_path := path_join (outdir args) "preprocessed_input.csv" in
  write_file preproc_path (CsvFile df);;
  print ("Saved preprocessed CSV to: " +:+ preproc_path);;
  monthly ← lift (monthly_timeseries df rate_clean);
  let monthly_csv := path_join (outdir args) "monthly_timeseries.csv" in
  write_file monthly_csv (SeriesFile "rate" monthly);;
  print ("Saved monthly timeseries CSV to: " +:+ monthly_csv);;
  plot_monthly monthly (outdir args);;
  print "Done.".

(** The script on the words of the command line: the arguments are parsed
    (lines 117 to 123), then the body runs. *)
Definition run `{Argparse namespace} (argv : list string) : io unit :=
  args ← run_parser argv;
  main args.

End Helpers.

End Task2.

(** ** A small instance of the library interface

    Enough of pandas, scikit-learn and argparse to run the scripts on
    concrete tables: plain decimal numbers, dates written day-month-year or
    year-month-day, an unshuffled split, a forest that predicts the training
    mean, and options written as a flag followed by its value. *)

Module Reference.

Definition digit_of (c : ascii) : option Z :=
  let n := nat_of_ascii c in
  if (48 <=? n)%nat && (n <=? 57)%nat then Some (Z.of_nat (n - 48)) else None.

Fixpoint digits_from (acc : Z) (s : string) : option Z :=
  match s with
  | EmptyString => Some acc
  | String c s' =>
      match digit_of c with
      | Some d => digits_from (acc * 10 + d)%Z s'
      | None => None
      end
  end.

(** A non-empty run of decimal digits. *)
Definition parse_nat (s : string) : option Z :=
  match s with
  | EmptyString => None
  | _ => digits_from 0 s
  end.

(** The text before the first [sep] and, if there is one, the text after. *)
Fixpoint split_at (sep : ascii) (s : string) : string * option string :=
  match s with
  | EmptyString => (EmptyString, None)
  | String c s' =>
      if Ascii.eqb c sep then (EmptyString, Some s')
      else let (a, b) := split_at sep s' in (String c a, b)
  end.

(** [-12], [3.35], [.5], [7.]: an optional sign, digits, an optional
    fraction. *)
Definition parse_decimal (s : string) : option Q :=
  let (negative, body) :=
    match s with
    | String "-" r => (true, r)
    | String "+" r => (false, r)
    | _ => (false, s)
    end in
  let (ip, fp) := split_at "." body in
  let signed (q : Q) := Qred (if negative : bool then (- q)%Q else q) in
  match fp with
  | None => match parse_nat ip with
            | Some n => Some (signed (inject_Z n))
            | None => None
            end
  | Some f =>
      match String.eqb ip EmptyString, String.eqb f EmptyString with
      | true, true => None
      | _, _ =>
          match digits_from 0 ip, digits_from 0 f with
          | Some i, Some fr =>
              Some (signed (inject_Z i
                            + inject_Z fr
                              / inject_Z (10 ^ Z.of_nat (String.length f)))%Q)
          | _, _ => None
          end
      end
  end.

Definition valid_date (y m d : Z) : bool :=
  ((1 <=? m) && (m <=? 12) && (1 <=? d) && (d <=? Task2.days_in_month y m))%Z.

(** [DD-MM-YYYY] (day first) or [YYYY-MM-DD]. *)
Definition parse_date (s : string) : option timestamp :=
  let (a, rest) := split_at "-" s in
  match rest with
  | None => None
  | Some r =>
      let (b, rest') := split_at "-" r in
      match rest', parse_nat a, parse_nat b with
      | Some c, Some x, Some m =>
          match parse_nat c with
          | Some z =>
              let (y, d) := if (String.length a =? 4)%nat then (x, z) else (z, x) in
              if valid_date y m d then Some (Timestamp y m d 0) else None
          | None => None
          end
      | _, _, _ => None
      end
  end.

(** Numbers are nanoseconds since 1970-01-01; this instance reads those
    that stay within that day and gives NaT for the others. *)
Definition date_of_number (q : Q) : option timestamp :=
  let r := Qred q in
  if (Qden r =? 1)%positive && (0 <=? Qnum r)%Z && (Qnum r <? 86400000000000)%Z
  then Some (Timestamp 1970 1 1 (Qnum r)) else None.

Definition to_datetime_cells (c : column) : list (option timestamp) :=
  match c with
  | NumCol v => map (fun x => x ≫= date_of_number) v
  | BoolCol v => map (fun _ => None) v
  | ObjCol v | CatCol _ v => map (fun x => x ≫= parse_date) v
  | DateCol v => v
  end.

Definition pad2 (z : Z) : string :=
  if (z <? 10)%Z then "0" +:+ pretty z else pretty z.

Definition timestamp_str (t : timestamp) : string :=
  pretty (ts_year t) +:+ "-" +:+ pad2 (ts_month t) +:+ "-" +:+ pad2 (ts_day t).

(** Up to [n] digits of the fraction [num / den] with [0 <= num < den]. *)
Fixpoint fraction_digits (n : nat) (num den : Z) : string :=
  match n with
  | O => EmptyString
  | S n' =>
      if (num =? 0)%Z then EmptyString
      else pretty (num * 10 / den)%Z
           +:+ fraction_digits n' ((num * 10) mod den)%Z den
  end.

(** [3.35], [-0.5], [12.0] *)
Definition num_str (q : Q) : string :=
  let r := Qred q in
  let n := Z.abs (Qnum r) in
  let d := Z.pos (Qden r) in
  let frac := fraction_digits 17 (n mod d) d in
  (if (Qnum r <? 0)%Z then "-" else EmptyString)
  +:+ pretty (n / d)%Z +:+ "."
  +:+ (if String.eqb frac EmptyString then "0" else frac).

(** A text that is no number is the text of NaN or an error. *)
Definition parse_or_raise (s : string) : result (option Q) :=
  match parse_decimal s with
  | Some q => Ok (Some q)
  | None =>
      if String.eqb s "nan" || String.eqb s "NaN" || String.eqb s EmptyString
      then Ok None
      else Raise (ValueError "Unable to parse string")
  end.

(** The days from 1970-01-01 to a date of the Gregorian calendar. *)
Definition days_from_epoch (y m d : Z) : Z :=
  let y' := (if m <=? 2 then y - 1 else y)%Z in
  let era := (y' / 400)%Z in
  let yoe := (y' - era * 400)%Z in
  let doy := ((153 * ((m + 9) mod 12) + 2) / 5 + d - 1)%Z in
  (era * 146097 + (yoe * 365 + yoe / 4 - yoe / 100 + doy) - 719468)%Z.

Definition nanoseconds (t : timestamp) : Z :=
  (days_from_epoch (ts_year t) (ts_month t) (ts_day t) * 86400000000000
   + ts_nanos t)%Z.

(** The exact mean. *)
Definition mean (xs : list Q) : option Q :=
  match xs with
  | [] => None
  | _ => Some (Qred (fold_right Qplus 0 xs / inject_Z (Z.of_nat (length xs)))%Q)
  end.

Global Instance pandas : Pandas := {
  to_datetime_coerce := to_datetime_cells;
  to_numeric_ignore := fun s => Ok s;
  to_numeric_str := parse_decimal;
  str_of_num := num_str;
  str_of_timestamp := timestamp_str;
  to_numeric_raise_str := parse_or_raise;
  datetime_value := nanoseconds;
  series_mean := mean
}.

(** The numbers of a target series; a missing or non-numeric target is
    refused. *)
Definition target_values (y : selection) : result (list Q) :=
  match y with
  | Series (NumCol v) =>
      if forallb (fun x => negb (missing x)) v
      then Ok (omap id v) else Raise (ValueError "Input y contains NaN.")
  | _ => Raise (ValueError "Unknown label type")
  end.

Definition select_rows (mask : list bool) (y : selection) : selection :=
  match y with
  | Series c => Series (col_take mask c)
  | SubFrame cs => SubFrame (map (col_take mask) cs)
  end.

(** The last [ceil(test_size * n)] rows are the test set. *)
Definition split_rows (X : table) (y : selection) (test_size : Q) (seed : Z)
  : result (table * table * selection * selection) :=
  let n := nrows X in
  let k := Z.to_nat (Qceiling (test_size * inject_Z (Z.of_nat n))%Q) in
  if (n <=? k)%nat then Raise (ValueError "the resulting train set will be empty")
  else
    let train := repeat true (n - k) ++ repeat false k in
    let test := repeat false (n - k) ++ repeat true k in
    Ok (table_take train X, table_take test X,
        select_rows train y, select_rows test y).

Definition average (xs : list Q) : Q :=
  Qred (fold_right Qplus 0 xs / inject_Z (Z.of_nat (length xs)))%Q.

(** Every tree predicts the mean of the training target. *)
Definition predict_mean (m : forest) (X : table) : result (list Q) :=
  match fitted_on m with
  | Some (_, y) => ys ← target_values y; Ok (repeat (average ys) (nrows X))
  | None => Raise (ValueError "This RandomForestRegressor instance is not fitted yet.")
  end.

Definition squared_errors (ys preds : list Q) : list Q :=
  zip_with (fun a b => ((a - b) * (a - b))%Q) ys preds.

Definition mse (y : selection) (preds : list Q) : result Q :=
  ys ← target_values y; Ok (average (squared_errors ys preds)).

Definition r2 (y : selection) (preds : list Q) : result Q :=
  ys ← target_values y;
  let total := squared_errors ys (repeat (average ys) (length ys)) in
  Ok (Qred (1 - fold_right Qplus 0 (squared_errors ys preds)
                / fold_right Qplus 0 total)%Q).

Global Instance sklearn : Sklearn := {
  train_test_split := split_rows;
  fit_check := fun X y => _ ← target_values y; Ok tt;
  predict := predict_mean;
  mean_squared_error := mse;
  r2_score := r2;
  format_4f := num_str;
  format_float := num_str
}.

(** Enough of [argparse]: options written as a flag followed by its value,
    [-h] or [--help] for the help. *)
Inductive words : Type :=
| Help
| Unknown
| Options (given : list (string * string)).

Fixpoint read_words (known : list (list string)) (argv : list string) : words :=
  match argv with
  | [] => Options []
  | word :: rest =>
      if String.eqb word "-h" || String.eqb word "--help" then Help
      else
        match List.find (fun names => existsb (String.eqb word) names) known,
              rest with
        | Some names, value :: rest' =>
            match read_words known rest' with
            | Options given => Options ((List.last names word, value) :: given)
            | other => other
            end
        | _, _ => Unknown
        end
  end.

(** The value given last for an option. *)
Definition given_value (name : string) (given : list (string * string))
  : option string :=
  snd <$> List.find (fun p => String.eqb name (fst p)) (rev given).

Definition parse_int (s : string) : option Z :=
  match s with
  | String "-" r => Z.opp <$> parse_nat r
  | _ => parse_nat s
  end.

Definition usage_error (prog : string) : parse_exit :=
  ParseExit 2 [] ["usage: " +:+ prog +:+ " [-h] ..."; prog +:+ ": error"].

Definition help (prog : string) : parse_exit :=
  ParseExit 0 ["usage: " +:+ prog +:+ " [-h] ..."] [].

Definition task3_args (argv : list string) : Task3.namespace + parse_exit :=
  match read_words [["-i"; "--input"]; ["-o"; "--outdir"]; ["--target"];
                    ["--test-size"]; ["--random-state"]] argv with
  | Help => inr (help "Task3.py")
  | Unknown => inr (usage_error "Task3.py")
  | Options given =>
      match given_value "--input" given, given_value "--outdir" given,
            from_option parse_decimal (Some 0.2%Q)
                        (given_value "--test-size" given),
            from_option parse_int (Some 42%Z)
                        (given_value "--random-state" given) with
      | Some i, Some o, Some size, Some seed =>
          inl (Task3.Namespace i o (given_value "--target" given) size seed)
      | _, _, _, _ => inr (usage_error "Task3.py")
      end
  end.

Definition task2_args (argv : list string) : Task2.namespace + parse_exit :=
  match read_words [["-i"; "--input"]; ["-o"; "--outdir"]; ["--date-col"];
                    ["--rate-col"]; ["--freq"]] argv with
  | Help => inr (help "Task2.py")
  | Unknown => inr (usage_error "Task2.py")
  | Options given =>
      match given_value "--input" given, given_value "--outdir" given,
            from_option parse_int (Some 12%Z) (given_value "--freq" given) with
      | Some i, Some o, Some freq =>
          inl (Task2.Namespace i o (given_value "--date-col" given)
                               (given_value "--rate-col" given) freq)
      | _, _, _ => inr (usage_error "Task2.py")
      end
  end.

Global Instance task3_parser : Argparse Task3.namespace := {
  parse_args := task3_args
}.

Global Instance task2_parser : Argparse Task2.namespace := {
  parse_args := task2_args
}.

End Reference.

(** ** Notions used in the statements *)

(** Every column has as many rows as the table. *)
Definition rectangular (df : table) : Prop :=
  forall c col, In (c, col) df -> col_length col = nrows df.

Module Task2_spec.
Import Task2.

(** A name was provided, is not empty and labels a column. *)
Definition override_applies (provided : option string) (cols : list string)
  : Prop :=
  exists p, provided = Some p /\ p <> EmptyString /\ In p cols.

(** No column name contains [key] once lowered. *)
Definition keyword_absent (key : string) (cols : list string) : Prop :=
  forall c, In c cols -> Py.contains key (Py.lower c) = false.

(** [s] with every character of [cs] taken out. *)
Fixpoint remove_chars (cs : list ascii) (s : string) : string :=
  match s with
  | EmptyString => EmptyString
  | String c s' =>
      if existsb (Ascii.eqb c) cs then remove_chars cs s'
      else String c (remove_chars cs s')
  end.

Fixpoint all_space (s : string) : Prop :=
  match s with
  | EmptyString => True
  | String c s' => Py.is_space c = true /\ all_space s'
  end.

(** [y] neither starts nor ends with whitespace. *)
Definition tight (y : string) : Prop :=
  (forall c s, y = String c s -> Py.is_space c = false)
  /\ (forall s c, y = s +:+ String c EmptyString -> Py.is_space c = false).

(** [y] is [x] without its "%" and "," characters and without the
    whitespace that then surrounds it. *)
Definition stripped_of (x y : string) : Prop :=
  exists l r,
    remove_chars ["%"; ","]%char x = l +:+ y +:+ r
    /\ all_space l /\ all_space r /\ tight y.

(** [y] and [m] are the calendar year [Y] and month [M], from October 1677
    to April 2262: the months whose first day [datetime64[ns]] holds. *)
Definition calendar_month (y m : Q) (Y M : Z) : Prop :=
  Qred y = inject_Z Y /\ Qred m = inject_Z M
  /\ (167710 <= Y * 100 + M <= 226204)%Z /\ (1 <= M <= 12)%Z.

(** The Year, Month and rate of each row, side by side. *)
Definition rows3 (ys ms rs : list (option Q))
  : list (option Q * (option Q * option Q)) :=
  zip ys (zip ms rs).

(** All three values of the row are present. *)
Definition qualifies (row : option Q * (option Q * option Q)) : bool :=
  negb (missing (fst row)) && negb (missing (fst (snd row)))
  && negb (missing (snd (snd row))).

(** The presence of a value at row [i], when the column reaches that far. *)
Definition present_at (i : nat) (col : column) : option bool :=
  map negb (isna col) !! i.

(** The first day of the month named by the Year and Month of a row. *)
Definition stamp_of (row : option Q * (option Q * option Q))
  : option timestamp :=
  match row with
  | (Some y, (Some m, _)) =>
      Some (Timestamp (Qnum (Qred y)) (Qnum (Qred m)) 1 0)
  | _ => None
  end.

(** The rates, in table order, of the rows that have all three values and
    whose Year and Month are [Y] and [M]. *)
Definition month_rates (ys ms rs : list (option Q)) (Y M : Z) : list Q :=
  omap (fun row =>
          match row with
          | (Some y, (Some m, Some r)) =>
              if Qeq_bool y (inject_Z Y) && Qeq_bool m (inject_Z M)
              then Some r else None
          | _ => None
          end) (rows3 ys ms rs).

(** How many entries of a list are present. *)
Fixpoint count_present {A : Type} (l : list (option A)) : nat :=
  match l with
  | [] => 0
  | Some _ :: rest => S (count_present rest)
  | None :: rest => count_present rest
  end.

Section WithPandas.
Context `{Pandas}.

(** The text of the cell at row [i] of a column, as [astype(str)] has it:
    a text is itself, a number, a boolean and a date are printed, a missing
    value reads [nan] and a missing date [NaT]. *)
Definition cell_text (col : column) (i : nat) : option string :=
  match col with
  | NumCol v =>
      match v !! i with
      | Some (Some q) => Some (str_of_num q)
      | Some None => Some "nan"
      | None => None
      end
  | BoolCol v =>
      match v !! i with
      | Some true => Some "True"
      | Some false => Some "False"
      | None => None
      end
  | ObjCol v | CatCol _ v =>
      match v !! i with
      | Some (Some s) => Some s
      | Some None => Some "nan"
      | None => None
      end
  | DateCol v =>
      match v !! i with
      | Some (Some t) => Some (str_of_timestamp t)
      | Some None => Some "NaT"
      | None => None
      end
  end.

(** The coercion attempt on the column labelled [c] does not raise. *)
Definition survives (df : table) (c : string) : Prop :=
  exists s, (sel ← getitem df c; to_numeric_ignore sel) = Ok s.

(** Which cells of a column hold a value. *)
Definition holds_value {A : Type} (x : option A) : bool :=
  match x with
  | Some _ => true
  | None => false
  end.

Definition filled (col : column) : list bool :=
  match col with
  | NumCol v => map holds_value v
  | BoolCol v => map (fun _ => true) v
  | ObjCol v | CatCol _ v => map holds_value v
  | DateCol v => map holds_value v
  end.

(** What the cells of a Year or Month column count as when the dates are
    assembled: a number as it is, a boolean as 1 or 0, a text as the number
    [to_numeric] reads in it, a date as its integer; nothing where the cell
    is missing or its text is not read as a number. *)
Definition text_reading (x : option string) : option Q :=
  match x with
  | Some s => match to_numeric_raise_str s with
              | Ok q => q
              | Raise _ => None
              end
  | None => None
  end.

Definition date_reading (x : option timestamp) : option Q :=
  match x with
  | Some t => Some (inject_Z (datetime_value t))
  | None => None
  end.

Definition readings (col : column) : list (option Q) :=
  match col with
  | NumCol v => v
  | BoolCol v => map (fun b : bool => Some (if b then 1%Q else 0%Q)) v
  | ObjCol v | CatCol _ v => map text_reading v
  | DateCol v => map date_reading v
  end.

(** [c] labels a column of which more than one in [k] rows parse as dates:
    [k] times the number of dates that the day-first parser returns for its
    cells is more than the number of rows of the table. *)
Definition exceeds (df : table) (k : nat) (c : string) : Prop :=
  exists col, In (c, col) df /\
    (nrows df < k * count_present (to_datetime_coerce col))%nat.

End WithPandas.

(** [c] labels a column of numeric dtype: numbers or booleans. *)
Definition numeric (df : table) (c : string) : Prop :=
  exists col, In (c, col) df /\
    ((exists v, col = NumCol v) \/ (exists v, col = BoolCol v)).

End Task2_spec.

Module Task3_spec.
Import Task3.

(** [c] is the last column, in table order, whose normalised name is [k]. *)
Definition last_with_key (k : string) (cols : list string) (c : string) : Prop :=
  exists pre post,
    cols = pre ++ c :: post /\ normalise c = k /\
    forall c', In c' post -> normalise c' <> k.

(** No column has the normalised name [k]. *)
Definition no_key (k : string) (cols : list string) : Prop :=
  forall c, In c cols -> normalise c <> k.

(** The requested name decides nothing: none was given, it is empty, or no
    column has its normalised name. *)
Definition unusable (requested : option string) (cols : list string) : Prop :=
  requested = None \/ requested = Some EmptyString \/
  exists r, requested = Some r /\ no_key (normalise r) cols.

(** A text column, other than the target, named like an identifier: what
    the loop of [basic_preprocess] puts in [drop_cols]. *)
Definition identifier_like (target_col : string) (p : string * column) : bool :=
  negb (String.eqb (fst p) target_col)
  && is_text (snd p) && in_labels ID_NAMES (Py.lower (fst p)).

End Task3_spec.

(** ** Sample tables *)

(** A table whose only price-like column is text with a single value, so
    that its encoding leaves no column. *)
Definition lone_price : table :=
  [("price", ObjCol [Some "cheap"; Some "cheap"]);
   ("Year", NumCol [Some 2014%Q; Some 2013%Q])].

(** A table without any price-like column. *)
Definition lone_year : table :=
  [("Year", NumCol [Some 2014%Q; Some 2013%Q])].


(** Unemployment observations with a day-first date column. *)
Definition labour : table :=
  [("Date", ObjCol [Some "01-01-2020"; Some "15-01-2020"; Some "01-03-2020";
                    Some "unknown"]);
   (" Estimated Unemployment Rate (%)",
    ObjCol [Some "5.5%"; Some " 6.5 "; Some "7.1%"; Some "8"])].

(** A prepared table: two observations in January 2020, one in March, and
    a row without date. *)
Definition prepared : table :=
  [("Year", NumCol [Some 2020%Q; Some 2020%Q; Some 2020%Q; None]);
   ("Month", NumCol [Some 1%Q; Some 1%Q; Some 3%Q; None]);
   ("rate_clean", NumCol [Some (11 # 2)%Q; Some (13 # 2)%Q; Some (71 # 10)%Q;
                          Some 8%Q])].

(** A table read from a file whose headers [Date] and [ Date] differ by a
    space only: stripped, the two labels are the same. *)
Definition two_dates : table :=
  [("Date", ObjCol [Some "01-01-2020"; Some "01-02-2020"]);
   ("Date", ObjCol [Some "01-01-2020"; Some "01-02-2020"]);
   ("Rate", NumCol [Some (11 # 2)%Q; Some (71 # 10)%Q])].

(** A prepared table whose years are text. *)
Definition prepared_text : table :=
  [("Year", ObjCol [Some "2020"; Some "2020"; Some "2020"; None]);
   ("Month", NumCol [Some 1%Q; Some 1%Q; Some 3%Q; None]);
   ("rate_clean", NumCol [Some (11 # 2)%Q; Some (13 # 2)%Q; Some (71 # 10)%Q;
                          Some 8%Q])].


(** The table prepared from [labour]: the dates parsed, Year and Month
    derived, the rates cleaned. *)
Definition labour_prepared : table :=
  [("Date", DateCol [Some (Timestamp 2020 1 1 0); Some (Timestamp 2020 1 15 0);
                     Some (Timestamp 2020 3 1 0); None]);
   ("Estimated Unemployment Rate (%)",
    ObjCol [Some "5.5%"; Some " 6.5 "; Some "7.1%"; Some "8"]);
   ("Year", NumCol [Some 2020%Q; Some 2020%Q; Some 2020%Q; None]);
   ("Month", NumCol [Some 1%Q; Some 1%Q; Some 3%Q; None]);
   ("Estimated Unemployment Rate (%)_clean",
    NumCol [Some (11 # 2)%Q; Some (13 # 2)%Q; Some (71 # 10)%Q; Some 8%Q])].

(** Rates as a file may hold them. *)
Definition raw_rates : column :=
  ObjCol [Some "5.5%"; Some " 1,200 "; Some "n/a"; None].

(** Car listings with one listing without price. *)
Definition cars : table :=
  [("Car_Name", ObjCol [Some "ritz"; Some "sx4"; Some "ciaz"; Some "swift"]);
   ("Year", NumCol [Some 2014%Q; Some 2013%Q; Some 2017%Q; Some 2011%Q]);
   ("Selling_Price", NumCol [Some 3.35%Q; Some 4.75%Q; Some 7.25%Q; None]);
   ("Fuel_Type",
    ObjCol [Some "Petrol"; Some "Diesel"; Some "Petrol"; Some "Diesel"])].

(** ** Notions about runs *)

(** Whatever the outcome, a run of [m] leaves every path outside [paths] as
    it was. *)
Definition writes_within {A : Type} (paths : list string) (m : io A) : Prop :=
  forall w p, ~ In p paths -> fs (snd (m w)) !! p = fs w !! p.

(** A run of [m] never stops through [sys.exit]. *)
Definition never_exits {A : Type} (m : io A) : Prop :=
  forall w code, fst (m w) <> inr (SysExit code).
(** * Properties *)

(** ** String helpers *)

Example replace_space : Py.replace "Selling Price" " " "_" = "Selling_Price".
Proof. reflexivity. Qed.

Example replace_empty_pattern : Py.replace "abc" EmptyString "-" = "-a-b-c-".
Proof. reflexivity. Qed.

Example replace_long_pattern : Py.replace "aaab" "aa" "x" = "xab".
Proof. reflexivity. Qed.

Example strip_both : Py.strip "  5.5  " = "5.5".
Proof. reflexivity. Qed.

Example lower_mixed : Py.lower "Car_Name" = "car_name".
Proof. reflexivity. Qed.

Example parse_decimal_plain : Reference.parse_decimal "5.5" = Some (11 # 2)%Q.
Proof. reflexivity. Qed.

Example parse_decimal_negative : Reference.parse_decimal "-12" = Some (-12 # 1)%Q.
Proof. reflexivity. Qed.

Example parse_decimal_text : Reference.parse_decimal "n/a" = None.
Proof. reflexivity. Qed.

Example parse_date_day_first :
  Reference.parse_date "01-12-2020" = Some (Timestamp 2020 12 1 0).
Proof. reflexivity. Qed.

Example parse_date_iso :
  Reference.parse_date "2020-12-01" = Some (Timestamp 2020 12 1 0).
Proof. reflexivity. Qed.

Example num_str_fraction : Reference.num_str 3.35%Q = "3.35".
Proof. reflexivity. Qed.

Example num_str_whole : Reference.num_str (-12)%Q = "-12.0".
Proof. reflexivity. Qed.

(** ** Strings *)

Local Arguments String.append !s1 s2 : simpl nomatch.

Lemma append_empty_r (s : string) : s +:+ EmptyString = s.
Proof. induction s as [|c s IH]; simpl; [reflexivity | now rewrite IH]. Qed.

Lemma append_assoc (a b c : string) : (a +:+ b) +:+ c = a +:+ (b +:+ c).
Proof. induction a as [|x a IH]; simpl; [reflexivity | now rewrite IH]. Qed.

Lemma prefix_single (a c : ascii) (s : string) :
  String.prefix (String a EmptyString) (String c s) = Ascii.eqb a c.
Proof.
  simpl. destruct (Ascii.ascii_dec a c) as [->|Hne].
  - rewrite Ascii.eqb_refl. now destruct s.
  - symmetry. now apply Ascii.eqb_neq.
Qed.

(** Replacing a single character by nothing removes its occurrences. *)
Lemma replace_char_removes (a : ascii) (s : string) :
  Py.replace s (String a EmptyString) EmptyString
  = Task2_spec.remove_chars [a] s.
Proof.
  unfold Py.replace. induction s as [|c s IH]; [reflexivity|].
  cbn [Py.replace_from Task2_spec.remove_chars existsb].
  rewrite prefix_single, orb_false_r, (Ascii.eqb_sym c a).
  destruct (Ascii.eqb a c); simpl; now rewrite IH.
Qed.

Lemma remove_chars_twice (a b : ascii) (s : string) :
  Task2_spec.remove_chars [b] (Task2_spec.remove_chars [a] s)
  = Task2_spec.remove_chars [a; b] s.
Proof.
  induction s as [|c s IH]; [reflexivity|].
  cbn [Task2_spec.remove_chars existsb]. rewrite !orb_false_r.
  destruct (Ascii.eqb c a); simpl; [exact IH|].
  rewrite orb_false_r. destruct (Ascii.eqb c b); simpl; now rewrite IH.
Qed.

(** [lstrip] takes off a run of whitespace and leaves no whitespace in
    front. *)
Lemma lstrip_spec (s : string) :
  exists l, s = l +:+ Py.lstrip s /\ Task2_spec.all_space l
            /\ (forall c s', Py.lstrip s = String c s' -> Py.is_space c = false).
Proof.
  induction s as [|c s (l & Heq & Hl & Hhead)].
  - exists EmptyString. repeat split. intros c s' Hc. discriminate Hc.
  - simpl. destruct (Py.is_space c) eqn:Hc.
    + exists (String c l). repeat split; try assumption.
      simpl. now rewrite <- Heq.
    + exists EmptyString. repeat split. intros c' s' [= <- <-]. exact Hc.
Qed.

(** [rstrip] takes off a run of whitespace at the end, leaves none there
    and keeps the first character of what remains. *)
Lemma rstrip_spec (s : string) :
  exists r, s = Py.rstrip s +:+ r /\ Task2_spec.all_space r
            /\ (forall s' c, Py.rstrip s = s' +:+ String c EmptyString ->
                             Py.is_space c = false)
            /\ (forall c s', Py.rstrip s = String c s' ->
                             exists s'', s = String c s'').
Proof.
  induction s as [|c s (r & Heq & Hr & Hlast & Hhead)].
  - exists EmptyString. split; [reflexivity|]. split; [exact I|]. split.
    + intros [|? ?] c Hc; discriminate Hc.
    + intros c s' Hc. discriminate Hc.
  - simpl. destruct (Py.rstrip s) as [|c' t] eqn:Ht.
    + simpl in Heq. subst s. destruct (Py.is_space c) eqn:Hc.
      * exists (String c r). split; [reflexivity|]. split; [now split|]. split.
        -- intros [|? ?] c0 Hc0; discriminate Hc0.
        -- intros c0 s' Hc0. discriminate Hc0.
      * exists r. split; [reflexivity|]. split; [assumption|]. split.
        -- intros [|? [|? ?]] c0 Hc0; try discriminate Hc0.
           injection Hc0 as <-. exact Hc.
        -- intros c0 s' [= <- <-]. now exists r.
    + exists r. split; [simpl; f_equal; exact Heq|]. split; [assumption|]. split.
      * intros [|x s'] c0 Hc0.
        -- simpl in Hc0. discriminate Hc0.
        -- simpl in Hc0. injection Hc0 as <- Hc0. now apply (Hlast s' c0).
      * intros c0 s' [= <- <-]. now exists s.
Qed.

(** [strip] takes whitespace off both ends and leaves none there. *)
Lemma strip_spec (s : string) :
  exists l r, s = l +:+ Py.strip s +:+ r
              /\ Task2_spec.all_space l /\ Task2_spec.all_space r
              /\ Task2_spec.tight (Py.strip s).
Proof.
  destruct (lstrip_spec s) as (l & Hl & Hsl & Hhead).
  destruct (rstrip_spec (Py.lstrip s)) as (r & Hr & Hsr & Hlast & Hkeep).
  exists l, r. unfold Py.strip. repeat split; try assumption.
  - now rewrite <- Hr.
  - intros c s' Hc. destruct (Hkeep c s' Hc) as [s'' Hs''].
    now apply (Hhead c s'').
Qed.

Lemma lstrip_all_space (l : string) :
  Task2_spec.all_space l -> Py.lstrip l = EmptyString.
Proof.
  induction l as [|c l IH]; simpl; [reflexivity|].
  intros [Hc Hl]. rewrite Hc. now apply IH.
Qed.

Lemma rstrip_all_space (r : string) :
  Task2_spec.all_space r -> Py.rstrip r = EmptyString.
Proof.
  induction r as [|c r IH]; simpl; [reflexivity|].
  intros [Hc Hr]. now rewrite (IH Hr), Hc.
Qed.

Lemma lstrip_unique (l t : string) :
  Task2_spec.all_space l ->
  (forall c s, t = String c s -> Py.is_space c = false) ->
  Py.lstrip (l +:+ t) = t.
Proof.
  intros Hl Ht. induction l as [|c l IH]; simpl.
  - destruct t as [|c s]; [reflexivity|]. simpl. now rewrite (Ht c s eq_refl).
  - destruct Hl as [Hc Hl]. rewrite Hc. now apply IH.
Qed.

Lemma rstrip_unique (y r : string) :
  Task2_spec.all_space r ->
  (forall s c, y = s +:+ String c EmptyString -> Py.is_space c = false) ->
  Py.rstrip (y +:+ r) = y.
Proof.
  intros Hr. induction y as [|c y IH]; intros Hy; simpl.
  - now apply rstrip_all_space.
  - rewrite IH.
    + destruct y as [|c' y']; [|reflexivity].
      now rewrite (Hy EmptyString c eq_refl).
    + intros s c0 ->. apply (Hy (String c s) c0). reflexivity.
Qed.

(** What [strip] returns is the only way to take whitespace off both ends. *)
Lemma strip_unique (s l y r : string) :
  s = l +:+ y +:+ r ->
  Task2_spec.all_space l -> Task2_spec.all_space r -> Task2_spec.tight y ->
  Py.strip s = y.
Proof.
  intros -> Hl Hr [Hhead Hlast]. unfold Py.strip.
  destruct y as [|c y'].
  - simpl. assert (Hlr : Task2_spec.all_space (l +:+ r)).
    { clear -Hl Hr. induction l as [|c l IH]; simpl; [assumption|].
      destruct Hl as [Hc Hl]. split; [assumption | now apply IH]. }
    now rewrite (lstrip_all_space _ Hlr).
  - rewrite lstrip_unique; [now apply rstrip_unique | assumption |].
    intros c0 s0 Heq. simpl in Heq. injection Heq as <- _.
    now apply (Hhead c y').
Qed.

(** ** Lists *)

(** The first element with a decidable property. *)
Lemma first_such {A : Type} (P : A -> Prop) (l : list A) :
  (forall x, P x \/ ~ P x) ->
  (exists x, In x l /\ P x) ->
  exists pre y post,
    l = pre ++ y :: post /\ (forall z, In z pre -> ~ P z) /\ P y.
Proof.
  intros Hdec. induction l as [|a l IH]; intros (x & Hin & Hx); [destruct Hin|].
  destruct (Hdec a) as [Ha|Hna].
  - exists [], a, l. repeat split; [intros ? [] | assumption].
  - destruct Hin as [->|Hin]; [contradiction|].
    destruct IH as (pre & y & post & -> & Hpre & Hy); [now exists x|].
    exists (a :: pre), y, post. repeat split; [|assumption].
    intros z [<-|Hz]; [assumption | now apply Hpre].
Qed.

(** ** Tables *)

Lemma has_column_In (df : table) (name : string) :
  has_column df name = true <-> In name (columns df).
Proof.
  unfold has_column. rewrite existsb_exists. split.
  - intros (x & Hx & Heq). apply String.eqb_eq in Heq. now subst.
  - intros Hin. exists name. split; [assumption | apply String.eqb_refl].
Qed.

Lemma has_column_false (df : table) (name : string) :
  ~ In name (columns df) -> has_column df name = false.
Proof.
  intros Hn. apply not_true_is_false. intros Hc. now apply has_column_In in Hc.
Qed.

Lemma label_filter_absent (df : table) (c : string) :
  ~ In c (columns df) ->
  List.filter (fun p => String.eqb c (fst p)) df = [].
Proof.
  induction df as [|[n x] df IH]; simpl; intros Hn; [reflexivity|].
  destruct (String.eqb_spec c n) as [->|Hne].
  - exfalso. apply Hn. now left.
  - apply IH. intros Hin. apply Hn. now right.
Qed.

Lemma label_filter_unique (df : table) (c : string) (col : column) :
  List.NoDup (columns df) -> In (c, col) df ->
  List.filter (fun p => String.eqb c (fst p)) df = [(c, col)].
Proof.
  induction df as [|[n x] df IH]; simpl; intros Hnd Hin; [destruct Hin|].
  apply List.NoDup_cons_iff in Hnd as [Hfresh Hnd].
  destruct Hin as [Heq|Hin].
  - injection Heq as -> ->. rewrite String.eqb_refl.
    now rewrite (label_filter_absent df c Hfresh).
  - destruct (String.eqb_spec c n) as [->|Hne].
    + exfalso. apply Hfresh. apply (in_map fst) in Hin. exact Hin.
    + now apply IH.
Qed.

(** With labels that do not repeat, [df[c]] is the series under [c]. *)
Lemma getitem_unique (df : table) (c : string) (col : column) :
  List.NoDup (columns df) -> In (c, col) df ->
  getitem df c = Ok (Series col).
Proof.
  intros Hnd Hin. unfold getitem.
  now rewrite (label_filter_unique df c col Hnd Hin).
Qed.

Lemma column_of_label (df : table) (c : string) :
  In c (columns df) -> exists col, In (c, col) df.
Proof.
  intros Hin. apply in_map_iff in Hin as ([n x] & Heq & Hin).
  simpl in Heq. subst. now exists x.
Qed.

(** ** Target column resolution (Task3.py) *)

Module Task3_facts.
Import Task3 Task3_spec.

Lemma candidates_snoc (cols : list string) (c : string) :
  candidates (cols ++ [c]) = <[normalise c := c]> (candidates cols).
Proof. unfold candidates. now rewrite foldl_app. Qed.

Lemma candidates_last (k : string) (cols : list string) (c : string) :
  last_with_key k cols c -> candidates cols !! k = Some c.
Proof.
  intros (pre & post & -> & Hk & Hpost).
  induction post as [|x post IH] using rev_ind.
  - rewrite candidates_snoc, Hk. apply lookup_insert_eq.
  - replace (pre ++ c :: post ++ [x]) with ((pre ++ c :: post) ++ [x])
      by now rewrite <- app_assoc.
    rewrite candidates_snoc, lookup_insert_ne.
    + apply IH. intros c' Hc'. apply Hpost, in_or_app. now left.
    + apply Hpost, in_or_app. right. now left.
Qed.

Lemma candidates_no_key (k : string) (cols : list string) :
  no_key k cols -> candidates cols !! k = None.
Proof.
  induction cols as [|x cols IH] using rev_ind; intros Hno.
  - apply lookup_empty.
  - rewrite candidates_snoc, lookup_insert_ne.
    + apply IH. intros c Hc. apply Hno, in_or_app. now left.
    + apply Hno, in_or_app. right. now left.
Qed.

Lemma candidates_some (k : string) (cols : list string) (c : string) :
  candidates cols !! k = Some c -> last_with_key k cols c.
Proof.
  induction cols as [|x cols IH] using rev_ind.
  - unfold candidates. simpl. rewrite lookup_empty. discriminate.
  - rewrite candidates_snoc. intros Hl.
    destruct (decide (normalise x = k)) as [Heq|Hne].
    + rewrite Heq, lookup_insert_eq in Hl. injection Hl as <-.
      exists cols, []. repeat split; [assumption | intros ? []].
    + rewrite lookup_insert_ne in Hl by assumption.
      destruct (IH Hl) as (pre & post & -> & Hk & Hpost).
      exists pre, (post ++ [x]). repeat split.
      * now rewrite <- app_assoc.
      * assumption.
      * intros c' Hc'. apply in_app_or in Hc' as [Hc'|[<-|[]]]; auto.
Qed.

Lemma candidates_none (k : string) (cols : list string) :
  candidates cols !! k = None -> no_key k cols.
Proof.
  intros Hl c Hc Hk.
  assert (exists c', last_with_key k cols c') as [c' Hc'].
  { clear Hl. induction cols as [|x cols IH] using rev_ind; [destruct Hc|].
    destruct (decide (normalise x = k)) as [Heq|Hne].
    - exists x, cols, []. repeat split; [assumption | intros ? []].
    - apply in_app_or in Hc as [Hc|[<-|[]]]; [|contradiction].
      destruct (IH Hc) as (c' & pre & post & -> & Hk' & Hpost).
      exists c', pre, (post ++ [x]). repeat split.
      + now rewrite <- app_assoc.
      + assumption.
      + intros c0 Hc0. apply in_app_or in Hc0 as [Hc0|[<-|[]]]; auto. }
  apply candidates_last in Hc'. congruence.
Qed.

Lemma normalise_has_key (df : table) (r : string) :
  no_key (normalise r) (columns df) -> has_column df r = false.
Proof.
  intros Hno. apply not_true_is_false. intros Hin.
  apply has_column_In in Hin. now apply (Hno r).
Qed.

Lemma first_alias_found (cands : gmap string string)
  (pre : list string) (alias : string) (post : list string) (c : string) :
  (forall a, In a pre -> cands !! normalise a = None) ->
  cands !! normalise alias = Some c ->
  first_alias cands (pre ++ alias :: post) = Some c.
Proof.
  intros Hpre Hc. induction pre as [|a pre IH]; simpl.
  - now rewrite Hc.
  - rewrite (Hpre a) by now left. apply IH. intros a' Ha'. apply Hpre. now right.
Qed.

Lemma first_alias_none (cands : gmap string string) (aliases : list string) :
  (forall a, In a aliases -> cands !! normalise a = None) ->
  first_alias cands aliases = None.
Proof.
  intros Hall. induction aliases as [|a aliases IH]; simpl; [reflexivity|].
  rewrite (Hall a) by now left. apply IH. intros a' Ha'. apply Hall. now right.
Qed.

Lemma requested_match_unusable (df : table) (requested : option string) :
  unusable requested (columns df) -> requested_match df requested = None.
Proof.
  intros [->|[->|(r & -> & Hno)]]; try reflexivity.
  unfold requested_match.
  destruct (Py.truthy (Some r)); [|reflexivity].
  now rewrite (candidates_no_key _ _ Hno), (normalise_has_key _ _ Hno).
Qed.

Lemma truthy_of_nonempty (r : string) :
  r <> EmptyString -> Py.truthy (Some r) = true.
Proof.
  intros Hr. unfold Py.truthy. apply negb_true_iff, String.eqb_neq, Hr.
Qed.

(** C6 (amended): a requested, non-empty name resolves to the last column
    whose lowercased, space-to-underscore name equals that of the request;
    when the request decides nothing, the first alias of the fixed list that
    some column matches resolves in the same way; otherwise the result is
    [None].  A request for "Selling Price" resolves to the column
    "Selling_Price" when no later column has the same normalised name. *)
Theorem find_target_column_resolution (df : table) (requested : option string) :
  (forall r c,
      requested = Some r -> r <> EmptyString ->
      last_with_key (normalise r) (columns df) c ->
      find_target_column df requested = Some c)
  /\ (forall pre alias post c,
        unusable requested (columns df) ->
        COMMON_TARGET_ALIASES = pre ++ alias :: post ->
        (forall a, In a pre -> no_key (normalise a) (columns df)) ->
        last_with_key (normalise alias) (columns df) c ->
        find_target_column df requested = Some c)
  /\ (unusable requested (columns df) ->
      (forall a, In a COMMON_TARGET_ALIASES -> no_key (normalise a) (columns df)) ->
      find_target_column df requested = None)
  /\ (forall pre post,
        requested = Some "Selling Price" ->
        columns df = pre ++ "Selling_Price" :: post ->
        (forall c, In c post -> normalise c <> "selling_price") ->
        find_target_column df requested = Some "Selling_Price").
Proof.
  assert (Hreq : forall r c,
             requested = Some r -> r <> EmptyString ->
             last_with_key (normalise r) (columns df) c ->
             find_target_column df requested = Some c).
  { intros r c -> Hr Hlast. unfold find_target_column, requested_match.
    now rewrite (truthy_of_nonempty r Hr), (candidates_last _ _ _ Hlast). }
  repeat split.
  - exact Hreq.
  - intros pre alias post c Hun Hal Hpre Hlast.
    unfold find_target_column.
    rewrite (requested_match_unusable _ _ Hun), Hal.
    apply first_alias_found.
    + intros a Ha. apply candidates_no_key, Hpre, Ha.
    + apply candidates_last, Hlast.
  - intros Hun Hall. unfold find_target_column.
    rewrite (requested_match_unusable _ _ Hun).
    apply first_alias_none. intros a Ha. apply candidates_no_key, Hall, Ha.
  - intros pre post Hr Hcols Hpost.
    apply (Hreq "Selling Price" "Selling_Price" Hr); [discriminate|].
    exists pre, post. repeat split; assumption.
Qed.

Lemma find_target_column_resolution_witness :
  find_target_column
    [("Car_Name", ObjCol [Some "ritz"]); ("Selling_Price", NumCol [Some 3.35%Q]);
     ("Fuel_Type", ObjCol [Some "Petrol"])]
    (Some "Selling Price") = Some "Selling_Price".
Proof.
  apply (proj2 (proj2 (proj2
           (find_target_column_resolution _ (Some "Selling Price"))))
           ["Car_Name"] ["Fuel_Type"]).
  - reflexivity.
  - reflexivity.
  - intros c [<-|[]]. vm_compute. discriminate.
Defined.

(** C6 as stated fails: with a later column of the same normalised name the
    request for "Selling Price" resolves to that later column. *)
Lemma find_target_column_later_column_wins :
  ~ (forall df : table,
        In "Selling_Price" (columns df) ->
        find_target_column df (Some "Selling Price") = Some "Selling_Price").
Proof.
  intros Hclaim.
  specialize (Hclaim [("Selling_Price", NumCol [Some 3.35%Q]);
                      ("selling_price", NumCol [Some 4.75%Q])]).
  vm_compute in Hclaim. specialize (Hclaim (or_introl eq_refl)).
  discriminate Hclaim.
Qed.

End Task3_facts.

(** ** Column detection (Task2.py) *)

Module Task2_facts.
Import Task2 Task2_spec.

Lemma truthy_nonempty (p : string) :
  Py.truthy (Some p) = true <-> p <> EmptyString.
Proof.
  unfold Py.truthy. rewrite negb_true_iff. apply String.eqb_neq.
Qed.

Lemma provided_present_iff (df : table) (provided : option string) :
  provided_present df provided = true <-> override_applies provided (columns df).
Proof.
  unfold provided_present, override_applies. destruct provided as [p|].
  - rewrite andb_true_iff, truthy_nonempty, has_column_In. split.
    + intros [Hp Hin]. now exists p.
    + intros (q & [= <-] & Hq & Hin). now split.
  - split; [discriminate | intros (q & Hq & _); discriminate].
Qed.

Lemma provided_present_not (df : table) (provided : option string) :
  ~ override_applies provided (columns df) ->
  provided_present df provided = false.
Proof.
  intros Hn. apply not_true_is_false. intros Hp.
  now apply provided_present_iff in Hp.
Qed.

Lemma first_containing_found (key : string) (pre : list string) (c : string)
  (post : list string) :
  keyword_absent key pre ->
  Py.contains key (Py.lower c) = true ->
  first_containing key (pre ++ c :: post) = Some c.
Proof.
  intros Hpre Hc. induction pre as [|x pre IH]; simpl.
  - now rewrite Hc.
  - rewrite (Hpre x) by now left. apply IH. intros c' Hc'. apply Hpre. now right.
Qed.

Lemma first_containing_none (key : string) (cols : list string) :
  keyword_absent key cols <-> first_containing key cols = None.
Proof.
  induction cols as [|x cols IH]; simpl.
  - split; [reflexivity | intros _ c []].
  - destruct (Py.contains key (Py.lower x)) eqn:Hx.
    + split; [|discriminate]. intros Habs.
      rewrite (Habs x) in Hx by now left. discriminate.
    + rewrite <- IH. split.
      * intros Habs c Hc. apply Habs. now right.
      * intros Habs c [<-|Hc]; [assumption | now apply Habs].
Qed.

Lemma scan_keywords_found (kpre : list string) (key : string)
  (kpost cols : list string) (c : string) :
  (forall k, In k kpre -> keyword_absent k cols) ->
  first_containing key cols = Some c ->
  scan_keywords (kpre ++ key :: kpost) cols = Some c.
Proof.
  intros Hpre Hc. induction kpre as [|k kpre IH]; simpl.
  - now rewrite Hc.
  - rewrite (proj1 (first_containing_none k cols)) by (apply Hpre; now left).
    apply IH. intros k' Hk'. apply Hpre. now right.
Qed.

Lemma scan_keywords_none (keys cols : list string) :
  (forall k, In k keys -> keyword_absent k cols) <->
  scan_keywords keys cols = None.
Proof.
  induction keys as [|k keys IH]; simpl.
  - split; [reflexivity | intros _ k []].
  - destruct (first_containing k cols) eqn:Hk.
    + split; [|discriminate]. intros Habs.
      rewrite (proj1 (first_containing_none k cols)) in Hk
        by (apply Habs; now left).
      discriminate.
    + rewrite <- IH. split.
      * intros Habs k' Hk'. apply Habs. now right.
      * intros Habs k' [<-|Hk']; [now apply first_containing_none | now apply Habs].
Qed.

Section WithPandas.
Context `{Pandas}.

Lemma survives_dec (df : table) (c : string) :
  survives df c \/ exists e, (sel ← getitem df c; to_numeric_ignore sel) = Raise e.
Proof.
  unfold survives. destruct (sel ← getitem df c; to_numeric_ignore sel) as [s|e].
  - left. now exists s.
  - right. now exists e.
Qed.

Lemma scan_numeric_found (df : table) (pre : list string) (c : string)
  (post : list string) :
  (forall c', In c' pre -> ~ survives df c') ->
  survives df c ->
  scan_numeric df (pre ++ c :: post) = Ok c.
Proof.
  intros Hpre [s Hs]. induction pre as [|x pre IH]; simpl.
  - fold (@mbind result _ selection selection). now rewrite Hs.
  - destruct (survives_dec df x) as [Hx|[e He]].
    + exfalso. apply (Hpre x); [now left | assumption].
    + rewrite He. apply IH. intros c' Hc'. apply Hpre. now right.
Qed.

Lemma scan_numeric_fails (df : table) (names : list string) :
  (forall c, In c names -> ~ survives df c) <->
  scan_numeric df names =
    Raise (ValueError "Could not detect rate column. Use --rate-col.").
Proof.
  induction names as [|x names IH]; simpl.
  - split; [reflexivity | intros _ c []].
  - destruct (survives_dec df x) as [[s Hs]|[e He]].
    + rewrite Hs. split; [|discriminate]. intros Hn. exfalso.
      apply (Hn x); [now left | now exists s].
    + rewrite He, <- IH. split.
      * intros Hn c Hc. apply Hn. now right.
      * intros Hn c [<-|Hc]; [|now apply Hn].
        intros [s Hs]. congruence.
Qed.

(** C2 (amended): the override is returned when it is non-empty and labels
    a column; otherwise the keywords are tried in list order and, for the
    first keyword that occurs in some lowered column name, the first column
    containing it is returned (so "Unemployment Rate" is selected over
    columns without a keyword); otherwise the first column on which the
    numeric coercion attempt does not raise is returned; the detector fails
    exactly when none of the three applies. *)
Theorem detect_rate_column_policy (df : table) (provided : option string) :
  (forall p, provided = Some p -> p <> EmptyString -> In p (columns df) ->
     detect_rate_column df provided = Ok p)
  /\ (forall kpre key kpost cpre c cpost,
        ~ override_applies provided (columns df) ->
        RATE_KEYWORDS = kpre ++ key :: kpost ->
        (forall k, In k kpre -> keyword_absent k (columns df)) ->
        columns df = cpre ++ c :: cpost ->
        keyword_absent key cpre ->
        Py.contains key (Py.lower c) = true ->
        detect_rate_column df provided = Ok c)
  /\ (~ override_applies provided (columns df) ->
      In "Unemployment Rate" (columns df) ->
      (forall c, In c (columns df) -> c <> "Unemployment Rate" ->
         forall k, In k RATE_KEYWORDS -> Py.contains k (Py.lower c) = false) ->
      detect_rate_column df provided = Ok "Unemployment Rate")
  /\ (forall cpre c cpost,
        ~ override_applies provided (columns df) ->
        (forall k, In k RATE_KEYWORDS -> keyword_absent k (columns df)) ->
        columns df = cpre ++ c :: cpost ->
        (forall c', In c' cpre -> ~ survives df c') ->
        survives df c ->
        detect_rate_column df provided = Ok c)
  /\ ((exists e, detect_rate_column df provided = Raise e) <->
      ~ override_applies provided (columns df)
      /\ (forall k, In k RATE_KEYWORDS -> keyword_absent k (columns df))
      /\ (forall c, In c (columns df) -> ~ survives df c)).
Proof.
  assert (Hauto : ~ override_applies provided (columns df) ->
                  detect_rate_column df provided = detect_rate_auto df).
  { intros Hno. unfold detect_rate_column.
    destruct provided as [p|]; [|reflexivity].
    now rewrite (provided_present_not df (Some p) Hno). }
  assert (Hkey : forall kpre key kpost cpre c cpost,
             ~ override_applies provided (columns df) ->
             RATE_KEYWORDS = kpre ++ key :: kpost ->
             (forall k, In k kpre -> keyword_absent k (columns df)) ->
             columns df = cpre ++ c :: cpost ->
             keyword_absent key cpre ->
             Py.contains key (Py.lower c) = true ->
             detect_rate_column df provided = Ok c).
  { intros kpre key kpost cpre c cpost Hno Hkeys Hkpre Hcols Hcpre Hc.
    rewrite (Hauto Hno). unfold detect_rate_auto. rewrite Hkeys.
    rewrite (scan_keywords_found kpre key kpost (columns df) c Hkpre);
      [reflexivity|].
    rewrite Hcols. now apply first_containing_found. }
  split; [|split; [exact Hkey|split; [|split]]].
  - intros p -> Hp Hin. unfold detect_rate_column.
    assert (Hpp : provided_present df (Some p) = true).
    { apply provided_present_iff. now exists p. }
    now rewrite Hpp.
  - intros Hno Hin Hother.
    destruct (first_such (fun c => c = "Unemployment Rate") (columns df))
      as (cpre & y & cpost & Hcols & Hpre & ->).
    { intros x. destruct (string_dec x "Unemployment Rate"); [now left|now right]. }
    { now exists "Unemployment Rate". }
    apply (Hkey [] "unemployment" ["rate"; "estimated unemployment"]
                cpre "Unemployment Rate" cpost Hno eq_refl);
      [intros k [] | exact Hcols | | reflexivity].
    intros c Hc. apply Hother.
    + rewrite Hcols. apply in_or_app. now left.
    + now apply Hpre.
    + now left.
  - intros cpre c cpost Hno Hkeys Hcols Hpre Hc.
    rewrite (Hauto Hno). unfold detect_rate_auto.
    rewrite (proj1 (scan_keywords_none RATE_KEYWORDS (columns df)) Hkeys).
    rewrite Hcols. now apply scan_numeric_found.
  - split.
    + intros [e He]. unfold detect_rate_column in He.
      assert (Hno : ~ override_applies provided (columns df)).
      { intros Hov. apply provided_present_iff in Hov.
        destruct provided as [p|]; [|discriminate Hov].
        rewrite Hov in He. discriminate He. }
      split; [exact Hno|].
      rewrite (Hauto Hno) in *.
      assert (He' : detect_rate_auto df = Raise e).
      { destruct provided as [p|]; [|exact He].
        now rewrite (provided_present_not df (Some p) Hno) in He. }
      unfold detect_rate_auto in He'.
      destruct (scan_keywords RATE_KEYWORDS (columns df)) eqn:Hk;
        [discriminate He'|].
      split; [now apply scan_keywords_none|].
      intros c Hc [s Hs].
      destruct (first_such (survives df) (columns df))
        as (pre & x & post & Heq & Hpre & Hx).
      { intros y. destruct (survives_dec df y) as [Hy|[e' He'']]; [now left|].
        right. intros [s' Hs']. congruence. }
      { exists c. split; [assumption | now exists s]. }
      rewrite Heq, (scan_numeric_found df pre x post Hpre Hx) in He'.
      discriminate He'.
    + intros (Hno & Hkeys & Hnone).
      exists (ValueError "Could not detect rate column. Use --rate-col.").
      rewrite (Hauto Hno). unfold detect_rate_auto.
      rewrite (proj1 (scan_keywords_none RATE_KEYWORDS (columns df)) Hkeys).
      now apply scan_numeric_fails.
Qed.

(** C10: a provided name that labels no column is ignored by both
    detectors, which then behave as if no name had been given. *)
Theorem invalid_override_ignored (df : table) (p : string) :
  ~ In p (columns df) ->
  detect_date_column df (Some p) = detect_date_column df None
  /\ detect_rate_column df (Some p) = detect_rate_column df None.
Proof.
  intros Hn. unfold detect_date_column, detect_rate_column, provided_present.
  rewrite (has_column_false df p Hn), andb_false_r. now split.
Qed.

Lemma label_unique (df : table) (c : string) (col col' : column) :
  List.NoDup (columns df) -> In (c, col) df -> In (c, col') df -> col = col'.
Proof.
  intros Hnd Hin Hin'.
  pose proof (label_filter_unique df c col Hnd Hin) as Hf.
  rewrite (label_filter_unique df c col' Hnd Hin') in Hf. congruence.
Qed.

(** [parsed.notna().sum()] counts the dates that the parser returned. *)
Lemma notna_sum_dates (l : list (option timestamp)) :
  notna_sum (DateCol l) = count_present l.
Proof.
  unfold notna_sum. cbn [isna].
  induction l as [|[t|] l IH]; cbn [map missing List.filter negb count_present];
    [reflexivity | cbn [length]; now f_equal | exact IH].
Qed.

Lemma exceeds_test (df : table) (k : nat) (c : string) (col : column) :
  List.NoDup (columns df) -> In (c, col) df ->
  (nrows df <? k * notna_sum (DateCol (to_datetime_coerce col)))%nat = true
  <-> exceeds df k c.
Proof.
  intros Hnd Hin. rewrite Nat.ltb_lt, notna_sum_dates. split.
  - intros Hlt. now exists col.
  - intros (col' & Hin' & Hlt).
    now rewrite (label_unique df c col col' Hnd Hin Hin').
Qed.

Lemma exceeds_test_false (df : table) (k : nat) (c : string) (col : column) :
  List.NoDup (columns df) -> In (c, col) df -> ~ exceeds df k c ->
  (nrows df <? k * notna_sum (DateCol (to_datetime_coerce col)))%nat = false.
Proof.
  intros Hnd Hin Hn. apply not_true_is_false. intros Ht.
  now apply (exceeds_test df k c col Hnd Hin) in Ht.
Qed.

Lemma numeric_test (df : table) (c : string) (col : column) :
  List.NoDup (columns df) -> In (c, col) df ->
  is_numeric_dtype (Series col) = true <-> numeric df c.
Proof.
  intros Hnd Hin. split.
  - intros Hnum. exists col. split; [exact Hin|].
    destruct col as [v|v|v|cats v|v]; try discriminate Hnum;
      [left | right]; now exists v.
  - intros (col' & Hin' & Hnum).
    rewrite (label_unique df c col col' Hnd Hin Hin').
    now destruct Hnum as [[v ->]|[v ->]].
Qed.

Lemma scan_candidates_step (df : table) (c : string) (col : column)
  (rest : list string) :
  List.NoDup (columns df) -> In (c, col) df ->
  scan_candidates df (c :: rest) =
    if (nrows df <? 4 * notna_sum (DateCol (to_datetime_coerce col)))%nat
    then Some c else scan_candidates df rest.
Proof.
  intros Hnd Hin. simpl.
  assert (Hc : has_column df c = true).
  { apply has_column_In. apply (in_map fst) in Hin. exact Hin. }
  now rewrite Hc, (getitem_unique df c col Hnd Hin).
Qed.

Lemma scan_candidates_skip (df : table) (c : string) (rest : list string) :
  List.NoDup (columns df) -> ~ exceeds df 4 c ->
  scan_candidates df (c :: rest) = scan_candidates df rest.
Proof.
  intros Hnd Hn. destruct (has_column df c) eqn:Hc.
  - apply has_column_In, column_of_label in Hc as [col Hin].
    rewrite (scan_candidates_step df c col rest Hnd Hin).
    now rewrite (exceeds_test_false df 4 c col Hnd Hin Hn).
  - simpl. now rewrite Hc.
Qed.

Lemma scan_candidates_found (df : table) (pre : list string) (c : string)
  (post : list string) :
  List.NoDup (columns df) ->
  (forall c', In c' pre -> ~ exceeds df 4 c') ->
  exceeds df 4 c ->
  scan_candidates df (pre ++ c :: post) = Some c.
Proof.
  intros Hnd Hpre Hc. induction pre as [|x pre IH].
  - destruct Hc as (col & Hin & Hlt). simpl app.
    rewrite (scan_candidates_step df c col post Hnd Hin).
    rewrite <- notna_sum_dates in Hlt.
    apply Nat.ltb_lt in Hlt. now rewrite Hlt.
  - simpl app. rewrite scan_candidates_skip; [|assumption|apply Hpre; now left].
    apply IH. intros c' Hc'. apply Hpre. now right.
Qed.

Lemma scan_candidates_none (df : table) (cands : list string) :
  List.NoDup (columns df) ->
  (forall c, In c cands -> ~ exceeds df 4 c) ->
  scan_candidates df cands = None.
Proof.
  intros Hnd Hall. induction cands as [|x cands IH]; [reflexivity|].
  rewrite scan_candidates_skip; [|assumption|apply Hall; now left].
  apply IH. intros c Hc. apply Hall. now right.
Qed.

Lemma scan_fallback_step (df : table) (c : string) (col : column)
  (rest : list string) :
  List.NoDup (columns df) -> In (c, col) df ->
  scan_fallback df (c :: rest) =
    if is_numeric_dtype (Series col) then scan_fallback df rest
    else if (nrows df <? 2 * notna_sum (DateCol (to_datetime_coerce col)))%nat
         then Ok c else scan_fallback df rest.
Proof.
  intros Hnd Hin. simpl. rewrite (getitem_unique df c col Hnd Hin). simpl.
  now destruct (is_numeric_dtype (Series col)).
Qed.

Lemma scan_fallback_skip (df : table) (c : string) (rest : list string) :
  List.NoDup (columns df) -> In c (columns df) ->
  numeric df c \/ ~ exceeds df 2 c ->
  scan_fallback df (c :: rest) = scan_fallback df rest.
Proof.
  intros Hnd Hc Hskip. apply column_of_label in Hc as [col Hin].
  rewrite (scan_fallback_step df c col rest Hnd Hin).
  destruct (is_numeric_dtype (Series col)) eqn:Hnum; [reflexivity|].
  destruct Hskip as [Hn|Hn].
  - apply (numeric_test df c col Hnd Hin) in Hn. congruence.
  - now rewrite (exceeds_test_false df 2 c col Hnd Hin Hn).
Qed.

Lemma scan_fallback_found (df : table) (pre : list string) (c : string)
  (post : list string) :
  List.NoDup (columns df) ->
  (forall c', In c' pre -> In c' (columns df)) ->
  (forall c', In c' pre -> numeric df c' \/ ~ exceeds df 2 c') ->
  ~ numeric df c -> exceeds df 2 c ->
  scan_fallback df (pre ++ c :: post) = Ok c.
Proof.
  intros Hnd Hcols Hpre Hnn Hc. induction pre as [|x pre IH].
  - destruct Hc as (col & Hin & Hlt). simpl app.
    rewrite (scan_fallback_step df c col post Hnd Hin).
    destruct (is_numeric_dtype (Series col)) eqn:Hnum.
    + exfalso. apply Hnn. now apply (numeric_test df c col Hnd Hin).
    + rewrite <- notna_sum_dates in Hlt.
      apply Nat.ltb_lt in Hlt. now rewrite Hlt.
  - simpl app. rewrite scan_fallback_skip;
      [|assumption|apply Hcols; now left|apply Hpre; now left].
    apply IH; intros c' Hc'; [apply Hcols|apply Hpre]; now right.
Qed.

Lemma scan_fallback_fails (df : table) (names : list string) :
  List.NoDup (columns df) ->
  (forall c, In c names -> In c (columns df)) ->
  (forall c, In c names -> numeric df c \/ ~ exceeds df 2 c) ->
  scan_fallback df names =
    Raise (ValueError "No usable date column found. Use --date-col DATE.").
Proof.
  intros Hnd Hcols Hall. induction names as [|x names IH]; [reflexivity|].
  rewrite scan_fallback_skip;
    [|assumption|apply Hcols; now left|apply Hall; now left].
  apply IH; intros c Hc; [apply Hcols|apply Hall]; now right.
Qed.

(** C3 (amended): on a table whose labels do not repeat, the date detector
    returns the provided name when it is non-empty and labels a column;
    otherwise the first name of the candidate list labelling a column of
    which more than a quarter of the rows parse as dates (so such a column
    named "Date" is selected whatever the other columns hold); otherwise
    the first column, in table order, that is not numeric and of which more
    than half of the rows parse; otherwise it fails with the "no usable date
    column" error. *)
Theorem detect_date_column_policy (df : table) (provided : option string) :
  List.NoDup (columns df) ->
  (forall p, provided = Some p -> p <> EmptyString -> In p (columns df) ->
     detect_date_column df provided = Ok p)
  /\ (forall pre c post,
        ~ override_applies provided (columns df) ->
        DATE_CANDIDATES = pre ++ c :: post ->
        (forall c', In c' pre -> ~ exceeds df 4 c') ->
        exceeds df 4 c ->
        detect_date_column df provided = Ok c)
  /\ (~ override_applies provided (columns df) ->
      exceeds df 4 "Date" ->
      detect_date_column df provided = Ok "Date")
  /\ (forall pre c post,
        ~ override_applies provided (columns df) ->
        (forall c', In c' DATE_CANDIDATES -> ~ exceeds df 4 c') ->
        columns df = pre ++ c :: post ->
        (forall c', In c' pre -> numeric df c' \/ ~ exceeds df 2 c') ->
        ~ numeric df c -> exceeds df 2 c ->
        detect_date_column df provided = Ok c)
  /\ (~ override_applies provided (columns df) ->
      (forall c, In c DATE_CANDIDATES -> ~ exceeds df 4 c) ->
      (forall c, In c (columns df) -> numeric df c \/ ~ exceeds df 2 c) ->
      detect_date_column df provided =
        Raise (ValueError "No usable date column found. Use --date-col DATE.")).
Proof.
  intros Hnd.
  assert (Hauto : ~ override_applies provided (columns df) ->
                  detect_date_column df provided = detect_date_auto df).
  { intros Hno. unfold detect_date_column.
    destruct provided as [p|]; [|reflexivity].
    now rewrite (provided_present_not df (Some p) Hno). }
  assert (Hcand : forall pre c post,
             ~ override_applies provided (columns df) ->
             DATE_CANDIDATES = pre ++ c :: post ->
             (forall c', In c' pre -> ~ exceeds df 4 c') ->
             exceeds df 4 c ->
             detect_date_column df provided = Ok c).
  { intros pre c post Hno Hcands Hpre Hc. rewrite (Hauto Hno).
    unfold detect_date_auto. rewrite Hcands.
    now rewrite (scan_candidates_found df pre c post Hnd Hpre Hc). }
  split; [|split; [exact Hcand|split; [|split]]].
  - intros p -> Hp Hin. unfold detect_date_column.
    assert (Hpp : provided_present df (Some p) = true).
    { apply provided_present_iff. now exists p. }
    now rewrite Hpp.
  - intros Hno Hdate.
    apply (Hcand [] "Date" ["date"; "DATE"; "Period"; "Month"] Hno eq_refl);
      [intros ? [] | exact Hdate].
  - intros pre c post Hno Hcands Hcols Hpre Hnn Hc. rewrite (Hauto Hno).
    unfold detect_date_auto.
    rewrite (scan_candidates_none df DATE_CANDIDATES Hnd Hcands), Hcols.
    apply scan_fallback_found; try assumption.
    intros c' Hc'. rewrite Hcols. apply in_or_app. now left.
  - intros Hno Hcands Hall. rewrite (Hauto Hno). unfold detect_date_auto.
    rewrite (scan_candidates_none df DATE_CANDIDATES Hnd Hcands).
    now apply scan_fallback_fails.
Qed.

(** ** Rate cleaning (Task2.py) *)

Lemma clean_cell_stripped (x : string) : stripped_of x (clean_cell x).
Proof.
  unfold stripped_of, clean_cell.
  rewrite !replace_char_removes, remove_chars_twice.
  apply strip_spec.
Qed.

Lemma stripped_of_unique (x y : string) : stripped_of x y -> y = clean_cell x.
Proof.
  intros (l & r & Heq & Hl & Hr & Hy). unfold clean_cell.
  rewrite !replace_char_removes, remove_chars_twice.
  symmetry. now apply (strip_unique _ l y r).
Qed.

Lemma astype_str_length (c : column) : length (astype_str c) = col_length c.
Proof. destruct c; simpl; apply length_map. Qed.

(** The texts that the cleaner works on are those of the cells. *)
Lemma astype_str_cell (c : column) (i : nat) :
  astype_str c !! i = cell_text c i.
Proof.
  destruct c as [v|v|v|cats v|v]; cbn [astype_str cell_text];
    change (map ?f ?l) with (f <$> l); rewrite list_lookup_fmap;
    destruct (v !! i) as [x|]; try reflexivity; now destruct x.
Qed.

(** C4: on every series the cleaner returns, without raising, a numeric
    column of the same length; at each position its entry is the number
    that the parser reads in the text of the input cell at that position
    once the "%" and "," characters and then the surrounding whitespace are
    removed, and is missing when that text does not read as a number. *)
Theorem clean_rate_series_cells (c : column) :
  exists v,
    clean_rate_series (Series c) = Ok (NumCol v)
    /\ length v = col_length c
    /\ forall i x,
         cell_text c i = Some x ->
         exists y, stripped_of x y /\ v !! i = Some (to_numeric_str y).
Proof.
  eexists. split; [reflexivity|]. split.
  - now rewrite length_map, astype_str_length.
  - intros i x Hx. exists (clean_cell x). split.
    + apply clean_cell_stripped.
    + change (map ?f ?l) with (f <$> l).
      now rewrite list_lookup_fmap, astype_str_cell, Hx.
Qed.

(** Cleaning an already cleaned column returns it unchanged exactly when
    the library reads back what it prints: every number that the parser
    yields is read again from its own text, and the text of NaN reads as
    NaN.  Both are properties of the float printer and parser of the
    library, not of the script. *)
Lemma clean_rate_series_again :
  (forall x q, to_numeric_str (clean_cell x) = Some q ->
               to_numeric_str (clean_cell (str_of_num q)) = Some q)
  /\ (forall x, to_numeric_str (clean_cell x) = None ->
                to_numeric_str (clean_cell "nan") = None)
  <-> (forall c v, clean_rate_series (Series c) = Ok (NumCol v) ->
                   clean_rate_series (Series (NumCol v)) = Ok (NumCol v)).
Proof.
  split.
  - intros [Hnum Hnan] c v [= <-]. unfold clean_rate_series. do 2 f_equal.
    cbn [astype_str]. rewrite !map_map.
    induction (astype_str c) as [|x l IH]; [reflexivity|].
    cbn [map]. rewrite IH. f_equal.
    destruct (to_numeric_str (clean_cell x)) as [q|] eqn:Hx.
    + now apply (Hnum x).
    + now apply (Hnan x).
  - intros Hfix. split.
    + intros x q Hx.
      specialize (Hfix (ObjCol [Some x]) [Some q]).
      unfold clean_rate_series in Hfix. cbn [astype_str map] in Hfix.
      rewrite Hx in Hfix. specialize (Hfix eq_refl). now injection Hfix.
    + intros x Hx.
      specialize (Hfix (ObjCol [Some x]) [None]).
      unfold clean_rate_series in Hfix. cbn [astype_str map] in Hfix.
      rewrite Hx in Hfix. specialize (Hfix eq_refl). now injection Hfix.
Qed.

End WithPandas.

(** Tables used below to run the detectors. *)

Lemma detect_rate_column_policy_witness :
  detect_rate_column
    [("Region", ObjCol [Some "North"; Some "South"]);
     ("Growth Rate", NumCol [Some 1.5%Q; Some 2.5%Q]);
     ("Unemployment", ObjCol [Some "5.5%"; Some "7.1%"])]
    None = Ok "Unemployment".
Proof.
  apply (proj1 (proj2 (detect_rate_column_policy _ None))
           [] "unemployment" ["rate"; "estimated unemployment"]
           ["Region"; "Growth Rate"] "Unemployment" []).
  - intros (p & Hp & _). discriminate Hp.
  - reflexivity.
  - intros k [].
  - reflexivity.
  - intros c [<-|[<-|[]]]; reflexivity.
  - reflexivity.
Defined.

(** C2 as stated fails: the first column containing some keyword is not
    returned when a later column contains an earlier keyword. *)
Lemma detect_rate_column_not_first_keyword_column :
  ~ (forall (P : Pandas) (df : table) (cpre : list string) (c : string)
            (cpost : list string),
        columns df = cpre ++ c :: cpost ->
        (exists k, In k RATE_KEYWORDS /\ Py.contains k (Py.lower c) = true) ->
        (forall c' k, In c' cpre -> In k RATE_KEYWORDS ->
                      Py.contains k (Py.lower c') = false) ->
        detect_rate_column df None = Ok c).
Proof.
  intros Hclaim.
  specialize (Hclaim Reference.pandas
                [("Growth Rate", NumCol [Some 1.5%Q; Some 2.5%Q]);
                 ("Unemployment", ObjCol [Some "5.5%"; Some "7.1%"])]
                [] "Growth Rate" ["Unemployment"] eq_refl).
  assert (Hrun : detect_rate_column
                   [("Growth Rate", NumCol [Some 1.5%Q; Some 2.5%Q]);
                    ("Unemployment", ObjCol [Some "5.5%"; Some "7.1%"])]
                   None = Ok "Unemployment") by reflexivity.
  rewrite Hrun in Hclaim.
  assert (Hbad : Ok "Unemployment" = Ok "Growth Rate"); [|discriminate Hbad].
  apply Hclaim.
  - exists "rate". split; [right; now left | reflexivity].
  - intros c' k [].
Qed.

Lemma invalid_override_ignored_witness :
  detect_date_column
    [("Date", ObjCol [Some "01-01-2020"; Some "01-02-2020"]);
     ("Unemployment Rate", ObjCol [Some "5.5%"; Some "7.1%"])]
    (Some "When")
  = detect_date_column
      [("Date", ObjCol [Some "01-01-2020"; Some "01-02-2020"]);
       ("Unemployment Rate", ObjCol [Some "5.5%"; Some "7.1%"])]
      None
  /\ detect_rate_column
       [("Date", ObjCol [Some "01-01-2020"; Some "01-02-2020"]);
        ("Unemployment Rate", ObjCol [Some "5.5%"; Some "7.1%"])]
       (Some "When")
     = detect_rate_column
         [("Date", ObjCol [Some "01-01-2020"; Some "01-02-2020"]);
          ("Unemployment Rate", ObjCol [Some "5.5%"; Some "7.1%"])]
         None.
Proof.
  apply invalid_override_ignored.
  intros [H|[H|[]]]; discriminate H.
Defined.

Lemma detect_date_column_policy_witness :
  detect_date_column
    [("Region", ObjCol [Some "North"; Some "South"; Some "East"]);
     ("Date", ObjCol [Some "2020-01-31"; Some "n/a"; Some "n/a"]);
     ("Unemployment Rate", ObjCol [Some "5.5%"; Some "7.1%"; Some "6.0%"])]
    None = Ok "Date".
Proof.
  refine (proj1 (proj2 (proj2 (detect_date_column_policy _ None _))) _ _).
  - repeat constructor; simpl; intuition discriminate.
  - intros (p & Hp & _). discriminate Hp.
  - eexists. split; [right; left; reflexivity|]. vm_compute. lia.
Defined.

Lemma clean_rate_series_cells_witness :
  exists v,
    clean_rate_series (Series raw_rates) = Ok (NumCol v)
    /\ length v = 4%nat
    /\ v !! 0%nat = Some (Some (11 # 2)%Q)
    /\ v !! 1%nat = Some (Some (1200 # 1)%Q)
    /\ v !! 2%nat = Some None
    /\ v !! 3%nat = Some None.
Proof.
  destruct (clean_rate_series_cells (H := Reference.pandas) raw_rates)
    as (v & Hrun & Hlen & Hcells).
  exists v. split; [exact Hrun|]. split; [exact Hlen|].
  assert (Hat : forall i x q,
             cell_text raw_rates i = Some x ->
             to_numeric_str (clean_cell x) = q -> v !! i = Some q).
  { intros i x q Hx Hq. destruct (Hcells i x Hx) as (y & Hy & Hv).
    apply stripped_of_unique in Hy. now rewrite Hv, Hy, Hq. }
  split; [|split; [|split]].
  - now apply (Hat 0%nat "5.5%").
  - now apply (Hat 1%nat " 1,200 ").
  - now apply (Hat 2%nat "n/a").
  - now apply (Hat 3%nat "nan").
Defined.

(** C3 as stated fails on a table in which a label repeats: both columns
    labelled [Date] parse in full, yet the selection of that label is a
    frame, which the parser refuses; the candidate loop passes over the
    error and the scan of all columns ends on it. *)
Lemma detect_date_column_repeated_label :
  ~ (forall (P : Pandas) (df : table) (provided : option string)
            (pre : list string) (c : string) (post : list string),
        ~ override_applies provided (columns df) ->
        DATE_CANDIDATES = pre ++ c :: post ->
        (forall c', In c' pre -> ~ exceeds df 4 c') ->
        exceeds df 4 c ->
        detect_date_column df provided = Ok c).
Proof.
  intros Hclaim.
  assert (Hbad : detect_date_column two_dates None = Ok "Date");
    [|vm_compute in Hbad; discriminate Hbad].
  apply (Hclaim Reference.pandas two_dates None [] "Date"
                ["date"; "DATE"; "Period"; "Month"]).
  - intros (p & Hp & _). discriminate Hp.
  - reflexivity.
  - intros c' [].
  - eexists. split; [left; reflexivity|]. vm_compute. lia.
Qed.

End Task2_facts.

(** ** Running a script *)

Local Arguments String.append : simpl never.

Lemma print_bind {B : Type} (line : string) (k : unit -> io B) (w : world) :
  (print line ≫= k) w = k tt (World (fs w) (stdout w ++ [line]) (stderr w)).
Proof. reflexivity. Qed.

Lemma eprint_bind {B : Type} (line : string) (k : unit -> io B) (w : world) :
  (eprint line ≫= k) w = k tt (World (fs w) (stdout w) (stderr w ++ [line])).
Proof. reflexivity. Qed.

Lemma print_each_bind {B : Type} (lines : list string) (k : unit -> io B)
  (w : world) :
  (print_each lines ≫= k) w
  = k tt (World (fs w) (stdout w ++ lines) (stderr w)).
Proof.
  revert w. induction lines as [|l lines IH]; intros w.
  - destruct w. unfold mbind, io_bind. simpl. now rewrite app_nil_r.
  - change ((print_each (l :: lines) ≫= k) w)
      with ((print_each lines ≫= k) (World (fs w) (stdout w ++ [l]) (stderr w))).
    rewrite IH. simpl. now rewrite <- app_assoc.
Qed.

Lemma path_exists_bind {B : Type} (path : string) (k : bool -> io B)
  (w : world) :
  (path_exists path ≫= k) w
  = k (match fs w !! path with Some _ => true | None => false end) w.
Proof. reflexivity. Qed.

Lemma read_csv_bind {B : Type} (path : string) (df : table)
  (k : table -> io B) (w : world) :
  fs w !! path = Some (CsvFile df) -> (read_csv path ≫= k) w = k df w.
Proof. intros Hf. unfold mbind, io_bind, read_csv. now rewrite Hf. Qed.

Lemma lift_bind {A B : Type} (r : result A) (a : A) (k : A -> io B)
  (w : world) :
  r = Ok a -> (lift r ≫= k) w = k a w.
Proof. now intros ->. Qed.

Lemma lift_bind_raise {A B : Type} (r : result A) (e : exn) (k : A -> io B)
  (w : world) :
  r = Raise e -> (lift r ≫= k) w = (inr (Uncaught e), w).
Proof. now intros ->. Qed.

(** ** Exit codes of the price-model script (Task3.py) *)

Module Task3_run.
Import Task3.

Lemma possible_empty (df_proc : table) (target_col : string) :
  (forall c, In c (columns df_proc) ->
     Py.startswith (Py.lower c) (normalise target_col) = false) ->
  possible df_proc target_col = [].
Proof.
  unfold possible. induction (columns df_proc) as [|c cols IH]; intros Hall.
  - reflexivity.
  - simpl. rewrite (Hall c) by now left. apply IH.
    intros c' Hc'. apply Hall. now right.
Qed.

Section WithSklearn.
Context `{Sklearn}.

(** C7: the run ends with exit code 1, the files untouched, when the input
    path does not exist; with exit code 2, after a line for every available
    column, when no target column is found; with exit code 3 when the target
    label is not among the preprocessed columns and no preprocessed label
    starts with its normalised form. *)
Theorem main_exit_codes (args : namespace) (w : world) :
  (fs w !! input args = None ->
     exists w', main args w = (inr (SysExit 1), w') /\ fs w' = fs w)
  /\ (forall df,
        fs w !! input args = Some (CsvFile df) ->
        find_target_column df (target args) = None ->
        exists w', main args w = (inr (SysExit 2), w') /\ fs w' = fs w
                   /\ forall c, In c (columns df) -> In ("  - " +:+ c) (stdout w'))
  /\ (forall df target_col df_proc,
        fs w !! input args = Some (CsvFile df) ->
        find_target_column df (target args) = Some target_col ->
        basic_preprocess df target_col = Ok df_proc ->
        ~ In target_col (columns df_proc) ->
        (forall c, In c (columns df_proc) ->
           Py.startswith (Py.lower c) (normalise target_col) = false) ->
        exists w', main args w = (inr (SysExit 3), w') /\ fs w' = fs w).
Proof.
  split; [|split].
  - intros Hnone. unfold main.
    rewrite path_exists_bind, Hnone. cbn [negb].
    rewrite eprint_bind. eexists. split; reflexivity.
  - intros df Hfile Hfind. unfold main.
    rewrite path_exists_bind, Hfile. cbn [negb].
    rewrite print_bind, (read_csv_bind _ df) by exact Hfile.
    rewrite print_bind, Hfind, print_each_bind.
    eexists. split; [reflexivity|]. split; [reflexivity|].
    intros c Hc. cbn [stdout]. rewrite !in_app_iff.
    right. right. left. now apply (in_map (fun c => "  - " +:+ c)).
  - intros df target_col df_proc Hfile Hfind Hpre Hlost Hnone. unfold main.
    rewrite path_exists_bind, Hfile. cbn [negb].
    rewrite print_bind, (read_csv_bind _ df) by exact Hfile.
    rewrite print_bind, Hfind, print_bind.
    rewrite (lift_bind _ df_proc) by exact Hpre.
    rewrite (has_column_false df_proc target_col Hlost).
    rewrite (possible_empty df_proc target_col Hnone), eprint_bind.
    eexists. split; reflexivity.
Qed.

End WithSklearn.

Lemma main_exit_codes_witness :
  (exists w',
      main (Namespace "cars.csv" "out" None 0.2%Q 42) (World ∅ [] [])
      = (inr (SysExit 1), w') /\ fs w' = ∅)
  /\ (exists w',
        main (Namespace "cars.csv" "out" None 0.2%Q 42)
             (World {["cars.csv" := CsvFile lone_year]} [] [])
        = (inr (SysExit 2), w')
        /\ fs w' = {["cars.csv" := CsvFile lone_year]}
        /\ forall c, In c (columns lone_year) -> In ("  - " +:+ c) (stdout w'))
  /\ (exists w',
        main (Namespace "cars.csv" "out" None 0.2%Q 42)
             (World {["cars.csv" := CsvFile lone_price]} [] [])
        = (inr (SysExit 3), w')
        /\ fs w' = {["cars.csv" := CsvFile lone_price]}).
Proof.
  split; [|split].
  - refine (proj1 (main_exit_codes (Namespace "cars.csv" "out" None 0.2%Q 42)
                                   (World ∅ [] [])) _).
    reflexivity.
  - refine (proj1 (proj2 (main_exit_codes
                            (Namespace "cars.csv" "out" None 0.2%Q 42)
                            (World {["cars.csv" := CsvFile lone_year]} [] [])))
                  lone_year _ _).
    + reflexivity.
    + vm_compute. reflexivity.
  - refine (proj2 (proj2 (main_exit_codes
                            (Namespace "cars.csv" "out" None 0.2%Q 42)
                            (World {["cars.csv" := CsvFile lone_price]} [] [])))
                  lone_price "price" lone_year _ _ _ _ _).
    + reflexivity.
    + vm_compute. reflexivity.
    + reflexivity.
    + intros [Hc|[]]. discriminate Hc.
    + intros c [<-|[]]. reflexivity.
Defined.

End Task3_run.

(** ** The frequency flag of the unemployment script (Task2.py) *)

Module Task2_run.
Import Task2.

(** C9: two runs whose arguments differ at most in the frequency integer end
    in the same way and leave the same files (preprocessed table, monthly
    series, plot) and the same output. *)
Theorem main_ignores_freq `{Pandas} (args1 args2 : namespace) (w : world) :
  input args1 = input args2 ->
  outdir args1 = outdir args2 ->
  date_col args1 = date_col args2 ->
  rate_col args1 = rate_col args2 ->
  main args1 w = main args2 w.
Proof.
  intros Hin Hout Hdate Hrate. unfold main.
  now rewrite Hin, Hout, Hdate, Hrate.
Qed.

Lemma main_ignores_freq_witness :
  main (Namespace "u.csv" "out" None None 12)
       (World {["u.csv" := CsvFile labour]} [] [])
  = main (Namespace "u.csv" "out" None None 4)
         (World {["u.csv" := CsvFile labour]} [] []).
Proof.
  apply main_ignores_freq; reflexivity.
Defined.

(** The run above completes and writes the three files. *)
Example main_writes_outputs :
  let r := main (Namespace "u.csv" "out" None None 12)
                (World {["u.csv" := CsvFile labour]} [] []) in
  fst r = inl tt
  /\ fs (snd r) !! "out/monthly_timeseries.csv"
     = Some (SeriesFile "rate"
               [(Timestamp 2020 1 1 0, Some (6 # 1)%Q);
                (Timestamp 2020 2 1 0, None);
                (Timestamp 2020 3 1 0, Some (71 # 10)%Q)])
  /\ is_Some (fs (snd r) !! "out/preprocessed_input.csv")
  /\ is_Some (fs (snd r) !! "out/monthly_timeseries.png").
Proof.
  vm_compute. repeat split; eauto.
Qed.

End Task2_run.

(** ** Feature preprocessing (Task3.py) *)

Module Task3_prep.
Import Task3 Task3_spec.

Lemma isna_length (c : column) : length (isna c) = col_length c.
Proof. destruct c; simpl; apply length_map. Qed.

Lemma zip_with_true (l : list bool) :
  zip_with andb (replicate (length l) true) l = l.
Proof. induction l as [|b l IH]; simpl; [reflexivity | now rewrite IH]. Qed.

Lemma complete_rows_skip (subset : list string) (keep : list bool) (df : table) :
  (forall c, In c (columns df) -> in_labels subset c = false) ->
  foldl (fun keep p =>
           if in_labels subset (fst p)
           then zip_with andb keep (map negb (isna (snd p)))
           else keep) keep df = keep.
Proof.
  revert keep. induction df as [|[c col] df IH]; intros keep Hno; [reflexivity|].
  simpl. rewrite (Hno c) by now left. apply IH.
  intros c' Hc'. apply Hno. now right.
Qed.

Lemma in_labels_single (a c : string) : in_labels [a] c = String.eqb c a.
Proof. unfold in_labels. simpl. now rewrite orb_false_r. Qed.

(** With a single target column, the rows kept by [dropna] are those where
    the target is present. *)
Lemma complete_rows_target (df : table) (target_col : string) (tcol : column) :
  List.NoDup (columns df) -> rectangular df -> In (target_col, tcol) df ->
  complete_rows df [target_col] = map negb (isna tcol).
Proof.
  intros Hnd Hrect Hin. unfold complete_rows.
  pose proof (Hrect _ _ Hin) as Hlen.
  apply in_split in Hin as (pre & post & Hdf).
  assert (Hnd' := Hnd). rewrite Hdf in Hnd'. unfold columns in Hnd'.
  rewrite map_app in Hnd'. simpl in Hnd'.
  apply List.NoDup_remove in Hnd' as [_ Hfresh].
  rewrite <- Hlen, Hdf, foldl_app. cbn [foldl fst snd].
  rewrite in_labels_single, String.eqb_refl.
  rewrite complete_rows_skip.
  - rewrite complete_rows_skip.
    + rewrite <- isna_length, <- (length_map negb). apply zip_with_true.
    + intros c Hc. rewrite in_labels_single. apply String.eqb_neq. intros ->.
      apply Hfresh, in_or_app. now left.
  - intros c Hc. rewrite in_labels_single. apply String.eqb_neq. intros ->.
    apply Hfresh, in_or_app. now right.
Qed.

Lemma table_take_columns (mask : list bool) (df : table) :
  columns (table_take mask df) = columns df.
Proof. unfold columns, table_take. rewrite map_map. reflexivity. Qed.

Lemma table_take_In (mask : list bool) (df : table) (c : string) (x : column) :
  In (c, x) (table_take mask df)
  <-> exists col, In (c, col) df /\ x = col_take mask col.
Proof.
  unfold table_take. rewrite in_map_iff. split.
  - intros ([c' col] & [= <- <-] & Hin). now exists col.
  - intros (col & Hin & ->). now exists (c, col).
Qed.

Lemma is_text_take (mask : list bool) (col : column) :
  is_text (col_take mask col) = is_text col.
Proof. now destruct col. Qed.

Lemma dropna_target (df : table) (target_col : string) :
  In target_col (columns df) ->
  dropna df [target_col]
  = Ok (table_take (complete_rows df [target_col]) df).
Proof.
  intros Hin. unfold dropna. simpl.
  now rewrite (proj2 (has_column_In df target_col) Hin).
Qed.

(** The loop collects the labels of the identifier-like columns. *)
Lemma drop_cols_loop_spec (df : table) (target_col : string) (sub : table) :
  List.NoDup (columns df) ->
  (forall p, In p sub -> In p df) ->
  drop_cols_loop df target_col (columns sub)
  = Ok (columns (List.filter (identifier_like target_col) sub)).
Proof.
  intros Hnd. induction sub as [|[c col] sub IH]; intros Hsub; [reflexivity|].
  simpl. unfold identifier_like at 1. simpl.
  destruct (String.eqb c target_col) eqn:Hc; simpl.
  - apply IH. intros p Hp. apply Hsub. now right.
  - rewrite (getitem_unique df c col Hnd) by (apply Hsub; now left). simpl.
    rewrite IH by (intros p Hp; apply Hsub; now right). simpl.
    match goal with
    | |- context [if ?b then _ else _] => destruct b
    end; reflexivity.
Qed.

Lemma drop_identifier_like (df : table) (target_col : string) :
  List.NoDup (columns df) ->
  drop df (columns (List.filter (identifier_like target_col) df))
  = List.filter (fun p => negb (identifier_like target_col p)) df.
Proof.
  intros Hnd. unfold drop. apply filter_ext_in. intros [c col] Hin. f_equal.
  unfold in_labels. destruct (identifier_like target_col (c, col)) eqn:Hid.
  - apply existsb_exists. exists c. split; [|apply String.eqb_refl].
    apply (in_map fst _ (c, col)), filter_In. now split.
  - apply not_true_is_false. intros Hex.
    apply existsb_exists in Hex as (c' & Hc' & Heq).
    apply String.eqb_eq in Heq. subst c'.
    apply in_map_iff in Hc' as ([c' col'] & Heq & Hin').
    simpl in Heq. subst c'. apply filter_In in Hin' as [Hin' Hid'].
    assert (col' = col) as ->.
    { pose proof (label_filter_unique df c col Hnd Hin) as Hf.
      rewrite (label_filter_unique df c col' Hnd Hin') in Hf. congruence. }
    congruence.
Qed.

Lemma drop_nil (df : table) : drop df [] = df.
Proof.
  unfold drop. induction df as [|p df IH]; [reflexivity|].
  simpl in *. now rewrite IH.
Qed.

(** What [basic_preprocess] computes on a table whose labels do not repeat. *)
Lemma basic_preprocess_unfold (df : table) (target_col : string) :
  List.NoDup (columns df) -> In target_col (columns df) ->
  basic_preprocess df target_col
  = Ok (get_dummies
          (List.filter (fun p => negb (identifier_like target_col p))
                       (table_take (complete_rows df [target_col]) df))).
Proof.
  intros Hnd Hin. unfold basic_preprocess.
  rewrite (dropna_target df target_col Hin). simpl.
  set (df1 := table_take (complete_rows df [target_col]) df).
  assert (Hnd1 : List.NoDup (columns df1)).
  { unfold df1. now rewrite table_take_columns. }
  rewrite (drop_cols_loop_spec df1 target_col df1 Hnd1) by auto. simpl.
  rewrite <- (drop_identifier_like df1 target_col Hnd1).
  destruct (columns (List.filter (identifier_like target_col) df1)) eqn:Hd;
    [|reflexivity].
  now rewrite drop_nil.
Qed.

Lemma in_labels_In (labels : list string) (c : string) :
  in_labels labels c = true <-> In c labels.
Proof.
  unfold in_labels. rewrite existsb_exists. split.
  - intros (x & Hx & Heq). apply String.eqb_eq in Heq. now subst.
  - intros Hin. exists c. split; [assumption | apply String.eqb_refl].
Qed.

Lemma identifier_like_take (target_col : string) (mask : list bool)
  (c : string) (col : column) :
  identifier_like target_col (c, col_take mask col)
  = identifier_like target_col (c, col).
Proof. unfold identifier_like. simpl. now rewrite is_text_take. Qed.

(** A text column escapes [drop_cols] when it is the target or is not named
    like an identifier. *)
Lemma identifier_like_text (target_col c : string) (col : column) :
  is_text col = true ->
  identifier_like target_col (c, col) = false
  <-> c = target_col \/ ~ In (Py.lower c) ID_NAMES.
Proof.
  intros Htext. unfold identifier_like. cbn [fst snd].
  rewrite Htext, andb_true_r, andb_false_iff, negb_false_iff, String.eqb_eq.
  pose proof (in_labels_In ID_NAMES (Py.lower c)) as Hl.
  destruct (in_labels ID_NAMES (Py.lower c)).
  - split; intros [Hc|Hn]; try discriminate; [now left | now left |].
    exfalso. now apply Hn, Hl.
  - split; intros _; right; [|reflexivity].
    intros Hin. apply Hl in Hin. discriminate.
Qed.

Lemma identifier_like_plain (target_col c : string) (col : column) :
  is_text col = false -> identifier_like target_col (c, col) = false.
Proof.
  intros Htext. unfold identifier_like. simpl.
  now rewrite Htext, andb_false_r.
Qed.

Lemma dummies_1d_In (prefix : string) (col : column) (label : string)
  (x : column) :
  In (label, x) (dummies_1d prefix col)
  <-> exists l, In l (tail (levels col))
                /\ label = prefix +:+ "_" +:+ l
                /\ x = indicator l (text_values col).
Proof.
  unfold dummies_1d. rewrite in_map_iff. split.
  - intros (l & [= <- <-] & Hl). now exists l.
  - intros (l & Hl & -> & ->). now exists l.
Qed.

Lemma get_dummies_In (df : table) (label : string) (x : column) :
  In (label, x) (get_dummies df)
  <-> (In (label, x) df /\ is_text x = false)
      \/ (exists c col, In (c, col) df /\ is_text col = true
                        /\ In (label, x) (dummies_1d c col)).
Proof.
  unfold get_dummies. rewrite in_app_iff, filter_In, in_flat_map. simpl.
  rewrite negb_true_iff. split.
  - intros [H|([c col] & Hin & Hd)]; [now left|]. right.
    apply filter_In in Hin as [Hin Htext]. now exists c, col.
  - intros [H|(c & col & Hin & Htext & Hd)]; [now left|]. right.
    exists (c, col). split; [|exact Hd]. apply filter_In. now split.
Qed.

(** *** The categories of a text column *)

Lemma compare_lt (a b : string) :
  String.compare a b = Lt <-> OrderedTypeEx.String_as_OT.lt a b.
Proof. apply OrderedTypeEx.String_as_OT.cmp_lt. Qed.

Lemma compare_gt (a b : string) :
  String.compare a b = Gt -> OrderedTypeEx.String_as_OT.lt b a.
Proof.
  intros Hgt. apply compare_lt. rewrite String.compare_antisym, Hgt. reflexivity.
Qed.

Lemma insert_level_In (x y : string) (l : list string) :
  In y (insert_level x l) <-> y = x \/ In y l.
Proof.
  induction l as [|z l IH]; simpl.
  - intuition.
  - destruct (String.compare x z) eqn:Hc; simpl.
    + apply String.compare_eq_iff in Hc. subst z. intuition.
    + intuition.
    + rewrite IH. intuition.
Qed.

Lemma sorted_unique_In (v : list (option string)) (x : string) :
  In x (sorted_unique v) <-> In (Some x) v.
Proof.
  induction v as [|[s|] v IH]; simpl.
  - reflexivity.
  - rewrite insert_level_In, IH. split.
    + intros [->|H]; [now left | now right].
    + intros [[= ->]|H]; [now left | now right].
  - rewrite IH. split; [now right | intros [H|H]; [discriminate H | exact H]].
Qed.

Lemma insert_level_sorted (x : string) (l : list string) :
  StronglySorted OrderedTypeEx.String_as_OT.lt l ->
  StronglySorted OrderedTypeEx.String_as_OT.lt (insert_level x l).
Proof.
  induction 1 as [|z l Hs IH Hz]; simpl.
  - constructor; constructor.
  - destruct (String.compare x z) eqn:Hc.
    + now constructor.
    + apply compare_lt in Hc. constructor; [now constructor|].
      constructor; [exact Hc|].
      apply List.Forall_forall. intros y Hy.
      apply (OrderedTypeEx.String_as_OT.lt_trans _ z); [exact Hc|].
      now apply (proj1 (List.Forall_forall _ _) Hz).
    + apply compare_gt in Hc. constructor; [exact IH|].
      apply List.Forall_forall. intros y Hy. apply insert_level_In in Hy as [->|Hy].
      * exact Hc.
      * now apply (proj1 (List.Forall_forall _ _) Hz).
Qed.

Lemma sorted_unique_sorted (v : list (option string)) :
  StronglySorted OrderedTypeEx.String_as_OT.lt (sorted_unique v).
Proof.
  induction v as [|[s|] v IH]; simpl.
  - constructor.
  - now apply insert_level_sorted.
  - exact IH.
Qed.

Lemma lt_irrefl (a : string) : ~ OrderedTypeEx.String_as_OT.lt a a.
Proof. intros Hlt. now apply (OrderedTypeEx.String_as_OT.lt_not_eq a a Hlt). Qed.

(** Two strictly increasing lists with the same elements are equal. *)
Lemma sorted_ext (l1 l2 : list string) :
  StronglySorted OrderedTypeEx.String_as_OT.lt l1 ->
  StronglySorted OrderedTypeEx.String_as_OT.lt l2 ->
  (forall x, In x l1 <-> In x l2) ->
  l1 = l2.
Proof.
  intros H1. revert l2. induction H1 as [|a r1 Hs1 IH Ha]; intros l2 H2 Hext.
  - destruct l2 as [|b r2]; [reflexivity|].
    exfalso. apply (Hext b). now left.
  - destruct H2 as [|b r2 Hs2 Hb].
    + exfalso. apply (Hext a). now left.
    + rewrite List.Forall_forall in Ha, Hb.
      assert (a = b) as <-.
      { destruct (proj1 (Hext a) (or_introl eq_refl)) as [Hab|Hab]; [now symmetry|].
        destruct (proj2 (Hext b) (or_introl eq_refl)) as [Hba|Hba]; [assumption|].
        exfalso. apply (lt_irrefl a).
        apply (OrderedTypeEx.String_as_OT.lt_trans _ b); [now apply Ha | now apply Hb]. }
      f_equal. apply IH; [exact Hs2|]. intros x. split; intros Hx.
      * destruct (proj1 (Hext x) (or_intror Hx)) as [<-|Hx2]; [|exact Hx2].
        exfalso. apply (lt_irrefl a). now apply Ha.
      * destruct (proj2 (Hext x) (or_intror Hx)) as [<-|Hx1]; [|exact Hx1].
        exfalso. apply (lt_irrefl a). now apply Hb.
Qed.

(** A column in which exactly the two values [a < b] occur has the
    categories [a; b]. *)
Lemma sorted_unique_two (v : list (option string)) (a b : string) :
  String.ltb a b = true ->
  (forall x, In (Some x) v <-> x = a \/ x = b) ->
  sorted_unique v = [a; b].
Proof.
  intros Hab Hv. apply sorted_ext.
  - apply sorted_unique_sorted.
  - unfold String.ltb in Hab. destruct (String.compare a b) eqn:Hc;
      try discriminate Hab. apply compare_lt in Hc.
    repeat constructor. exact Hc.
  - intros x. rewrite sorted_unique_In, Hv. simpl. intuition.
Qed.

(** *** The contract *)

(** C8 (amended): on a rectangular table whose labels do not repeat, the
    preprocessing keeps the rows whose target is present and returns exactly
    these columns: every non-text column, restricted to the kept rows, and,
    for every text or categorical column that is the target or is not named
    "car_name", "name" or "id" (lowercased), one indicator column per
    category of that column in the kept rows except the first.  For text
    columns Car_Name and Fuel_Type, numeric columns Year and Selling_Price
    (the target), and two categories [a < b] of Fuel_Type among the kept
    rows, the result is Year, Selling_Price and the single indicator
    Fuel_Type_b. *)
Theorem basic_preprocess_contract :
  (forall (df : table) (target_col : string) (tcol : column),
      List.NoDup (columns df) -> rectangular df -> In (target_col, tcol) df ->
      let kept := map negb (isna tcol) in
      exists df',
        basic_preprocess df target_col = Ok df'
        /\ forall label x,
             In (label, x) df' <->
             (exists col,
                 In (label, col) df /\ is_text col = false
                 /\ x = col_take kept col)
             \/ (exists c col l,
                    In (c, col) df /\ is_text col = true
                    /\ (c = target_col \/ ~ In (Py.lower c) ID_NAMES)
                    /\ In l (tail (levels (col_take kept col)))
                    /\ label = c +:+ "_" +:+ l
                    /\ x = indicator l (text_values (col_take kept col))))
  /\ (forall (names : list (option string)) (ys ps : list (option Q))
             (fuels : list (option string)) (a b : string),
        let df := [("Car_Name", ObjCol names); ("Year", NumCol ys);
                   ("Selling_Price", NumCol ps); ("Fuel_Type", ObjCol fuels)] in
        let kept := map negb (isna (NumCol ps)) in
        rectangular df ->
        String.ltb a b = true ->
        (forall x, In (Some x) (take_mask kept fuels) <-> x = a \/ x = b) ->
        basic_preprocess df "Selling_Price"
        = Ok [("Year", NumCol (take_mask kept ys));
              ("Selling_Price", NumCol (take_mask kept ps));
              ("Fuel_Type_" +:+ b, indicator b (take_mask kept fuels))]).
Proof.
  split.
  - intros df target_col tcol Hnd Hrect Hin kept.
    assert (Hcol : In target_col (columns df)).
    { apply (in_map fst) in Hin. exact Hin. }
    rewrite (basic_preprocess_unfold df target_col Hnd Hcol).
    rewrite (complete_rows_target df target_col tcol Hnd Hrect Hin).
    fold kept. eexists. split; [reflexivity|].
    intros label x. rewrite get_dummies_In. split.
    + intros [[Hx Htext]|(c & y & Hy & Htext & Hd)].
      * left. apply filter_In in Hx as [Hx _].
        apply table_take_In in Hx as (col & Hcolin & ->).
        exists col. rewrite is_text_take in Htext. now repeat split.
      * right. apply filter_In in Hy as [Hy Hid].
        apply table_take_In in Hy as (col & Hcolin & ->).
        rewrite is_text_take in Htext.
        rewrite negb_true_iff, identifier_like_take in Hid.
        apply (identifier_like_text target_col c col Htext) in Hid.
        apply dummies_1d_In in Hd as (l & Hl & -> & ->).
        exists c, col, l. now repeat split.
    + intros [(col & Hcolin & Htext & ->)|(c & col & l & Hcolin & Htext & Hkeep & Hl & -> & ->)].
      * left. rewrite is_text_take. split; [|exact Htext].
        apply filter_In. split.
        -- apply table_take_In. now exists col.
        -- rewrite negb_true_iff, identifier_like_take.
           now apply identifier_like_plain.
      * right. exists c, (col_take kept col). rewrite is_text_take.
        split; [|split; [exact Htext|]].
        -- apply filter_In. split.
           ++ apply table_take_In. now exists col.
           ++ rewrite negb_true_iff, identifier_like_take.
              now apply identifier_like_text.
        -- apply dummies_1d_In. now exists l.
  - intros names ys ps fuels a b df kept Hrect Hab Hfuels.
    assert (Hnd : List.NoDup (columns df)).
    { repeat constructor; simpl; intuition discriminate. }
    rewrite (basic_preprocess_unfold df "Selling_Price" Hnd)
      by (right; right; now left).
    rewrite (complete_rows_target df "Selling_Price" (NumCol ps) Hnd Hrect)
      by (right; right; now left).
    fold kept. unfold df, table_take.
    cbn [map fst snd col_take List.filter].
    replace (identifier_like "Selling_Price" ("Car_Name", ObjCol (take_mask kept names)))
      with true by reflexivity.
    replace (identifier_like "Selling_Price" ("Fuel_Type", ObjCol (take_mask kept fuels)))
      with false by reflexivity.
    rewrite !identifier_like_plain by reflexivity.
    unfold get_dummies.
    cbn [negb List.filter flat_map is_text snd fst app].
    unfold dummies_1d. cbn [levels text_values].
    rewrite (sorted_unique_two _ a b Hab Hfuels). reflexivity.
Qed.

Lemma basic_preprocess_contract_witness :
  (exists df',
      basic_preprocess
        [("id", ObjCol [Some "a"; Some "b"]);
         ("Year", NumCol [Some 2014%Q; None]);
         ("price", NumCol [Some 3.35%Q; Some 4.75%Q])] "price" = Ok df'
      /\ In ("Year", NumCol [Some 2014%Q; None]) df')
  /\ basic_preprocess
       [("Car_Name", ObjCol [Some "ritz"; Some "sx4"; Some "ciaz"]);
        ("Year", NumCol [Some 2014%Q; Some 2013%Q; Some 2017%Q]);
        ("Selling_Price", NumCol [Some 3.35%Q; None; Some 7.25%Q]);
        ("Fuel_Type", ObjCol [Some "Petrol"; Some "CNG"; Some "Diesel"])]
       "Selling_Price"
     = Ok [("Year", NumCol [Some 2014%Q; Some 2017%Q]);
           ("Selling_Price", NumCol [Some 3.35%Q; Some 7.25%Q]);
           ("Fuel_Type_Petrol", BoolCol [true; false])].
Proof.
  split.
  - destruct (proj1 basic_preprocess_contract
                [("id", ObjCol [Some "a"; Some "b"]);
                 ("Year", NumCol [Some 2014%Q; None]);
                 ("price", NumCol [Some 3.35%Q; Some 4.75%Q])]
                "price" (NumCol [Some 3.35%Q; Some 4.75%Q]))
      as (df' & Hrun & Hcols).
    + repeat constructor; simpl; intuition discriminate.
    + intros c col [[= <- <-]|[[= <- <-]|[[= <- <-]|[]]]]; reflexivity.
    + right. right. now left.
    + exists df'. split; [exact Hrun|]. apply Hcols. left.
      exists (NumCol [Some 2014%Q; None]).
      split; [right; now left|]. split; reflexivity.
  - refine (proj2 basic_preprocess_contract
              [Some "ritz"; Some "sx4"; Some "ciaz"]
              [Some 2014%Q; Some 2013%Q; Some 2017%Q]
              [Some 3.35%Q; None; Some 7.25%Q]
              [Some "Petrol"; Some "CNG"; Some "Diesel"]
              "Diesel" "Petrol" _ _ _).
    + intros c col [[= <- <-]|[[= <- <-]|[[= <- <-]|[[= <- <-]|[]]]]]; reflexivity.
    + reflexivity.
    + intros x. simpl. split.
      * intros [[= <-]|[[= <-]|[]]]; [now right | now left].
      * intros [->| ->]; [right; now left | now left].
Defined.

(** C8 as stated fails: a text column named like an identifier is encoded,
    not dropped, when it is the target. *)
Lemma basic_preprocess_encodes_text_target :
  ~ (forall (df : table) (target_col : string) (df' : table)
            (c : string) (col : column),
        basic_preprocess df target_col = Ok df' ->
        In (c, col) df -> is_text col = true ->
        In (Py.lower c) ID_NAMES ->
        forall l, ~ In (c +:+ "_" +:+ l) (columns df')).
Proof.
  intros Hclaim.
  apply (Hclaim [("id", ObjCol [Some "a"; Some "b"]);
                 ("Year", NumCol [Some 2014%Q; Some 2013%Q])]
                "id"
                [("Year", NumCol [Some 2014%Q; Some 2013%Q]);
                 ("id_b", BoolCol [false; true])]
                "id" (ObjCol [Some "a"; Some "b"]) eq_refl
                (or_introl eq_refl) eq_refl
                (or_intror (or_intror (or_introl eq_refl))) "b").
  right. now left.
Qed.

End Task3_prep.

(** ** Monthly aggregation (Task2.py) *)

Module Task2_series.
Import Task2 Task2_spec.

Section WithPandas.
Context `{Pandas}.

(** *** Masks and rows *)

Lemma take_mask_map_filter {A B : Type} (P : A -> bool) (f : A -> B)
  (rows : list A) :
  take_mask (map P rows) (map f rows) = map f (List.filter P rows).
Proof.
  induction rows as [|x rows IH]; simpl; [reflexivity|].
  destruct (P x); simpl; now rewrite IH.
Qed.

(** A mask commutes with a change of the cells that agrees on the rows
    kept. *)
Lemma take_mask_map_agree {A B : Type} (f g : A -> B) (mask : list bool)
  (v : list A) :
  (forall i x, mask !! i = Some true -> v !! i = Some x -> f x = g x) ->
  map f (take_mask mask v) = take_mask mask (map g v).
Proof.
  revert v. induction mask as [|b mask IH]; intros [|x v] Hagree;
    try reflexivity.
  cbn [take_mask map]. destruct b.
  - cbn [map]. rewrite (Hagree 0%nat x eq_refl eq_refl). f_equal.
    apply IH. intros i y. apply (Hagree (S i) y).
  - apply IH. intros i y. apply (Hagree (S i) y).
Qed.

Lemma rows3_length (ys ms rs : list (option Q)) (n : nat) :
  length ys = n -> length ms = n -> length rs = n ->
  length (rows3 ys ms rs) = n.
Proof.
  intros Hy Hm Hr. unfold rows3. rewrite !length_zip_with. lia.
Qed.

Lemma rows3_columns (ys ms rs : list (option Q)) :
  length ys = length ms -> length ms = length rs ->
  map fst (rows3 ys ms rs) = ys
  /\ map (fun row => fst (snd row)) (rows3 ys ms rs) = ms
  /\ map (fun row => snd (snd row)) (rows3 ys ms rs) = rs.
Proof.
  unfold rows3. revert ms rs.
  induction ys as [|y ys IH]; intros [|m ms] [|r rs] Hym Hmr;
    try discriminate; simpl; [now repeat split|].
  destruct (IH ms rs) as (Hy & Hm & Hr); [simpl in *; lia..|].
  repeat split; f_equal; assumption.
Qed.

Lemma rows3_lookup (ys ms rs : list (option Q)) (i : nat) :
  rows3 ys ms rs !! i
  = (y ← ys !! i; m ← ms !! i; r ← rs !! i; Some (y, (m, r))).
Proof.
  unfold rows3. rewrite lookup_zip_with.
  destruct (ys !! i) as [y|]; [|reflexivity].
  cbn [mbind option_bind]. rewrite lookup_zip_with.
  now destruct (ms !! i), (rs !! i).
Qed.

Lemma qualifies_present (y m r : option Q) :
  qualifies (y, (m, r)) = true ->
  exists y' m' r', y = Some y' /\ m = Some m' /\ r = Some r'.
Proof.
  unfold qualifies. cbn [fst snd].
  destruct y as [y'|], m as [m'|], r as [r'|]; try discriminate.
  intros _. now exists y', m', r'.
Qed.

(** The rows that the mask of the qualifying rows keeps have all three
    values. *)
Lemma mask_lookup (ys ms rs : list (option Q)) (i : nat) :
  map qualifies (rows3 ys ms rs) !! i = Some true ->
  exists y m r,
    ys !! i = Some (Some y) /\ ms !! i = Some (Some m)
    /\ rs !! i = Some (Some r).
Proof.
  change (map qualifies (rows3 ys ms rs)) with (qualifies <$> rows3 ys ms rs).
  rewrite list_lookup_fmap, rows3_lookup.
  destruct (ys !! i) as [y|]; [|discriminate].
  destruct (ms !! i) as [m|]; [|discriminate].
  destruct (rs !! i) as [r|]; [|discriminate].
  cbn [mbind option_bind fmap option_fmap option_map]. intros [= Hq].
  destruct (qualifies_present y m r Hq) as (y' & m' & r' & -> & -> & ->).
  now exists y', m', r'.
Qed.

(** *** The cells of the Year and Month columns *)

Lemma present_at_filled (i : nat) (col : column) :
  present_at i col = filled col !! i.
Proof.
  unfold present_at. f_equal.
  destruct col; cbn [isna filled]; rewrite map_map; apply map_ext;
    intros x; now destruct x.
Qed.

Lemma filled_length (col : column) : length (filled col) = col_length col.
Proof. destruct col; cbn [filled col_length]; apply length_map. Qed.

Lemma readings_length (col : column) :
  length (readings col) = col_length col.
Proof.
  destruct col; cbn [readings col_length]; try apply length_map.
  reflexivity.
Qed.

(** A cell that reads as a number holds a value. *)
Lemma readings_filled (col : column) (i : nat) (q : Q) :
  readings col !! i = Some (Some q) -> filled col !! i = Some true.
Proof.
  destruct col as [v|v|v|cats v|v]; cbn [readings filled];
    change (map ?f ?l) with (f <$> l); rewrite ?list_lookup_fmap;
    destruct (v !! i) as [x|]; try discriminate;
    cbn [fmap option_fmap option_map]; try reflexivity;
    destruct x as [x|]; try discriminate; reflexivity.
Qed.

(** The texts of the rows kept read without an error when each of them
    reads as a number. *)
Lemma coerce_texts_take (mask : list bool) (v : list (option string)) :
  (forall i, mask !! i = Some true ->
     exists q, map text_reading v !! i = Some (Some q)) ->
  coerce_texts (take_mask mask v) = Ok (take_mask mask (map text_reading v)).
Proof.
  revert v. induction mask as [|b mask IH]; intros [|x v] Hread;
    try reflexivity.
  cbn [take_mask map]. destruct b.
  - cbn [coerce_texts]. destruct (Hread 0%nat eq_refl) as [q Hq].
    injection Hq as Hq. rewrite Hq.
    unfold text_reading in Hq. destruct x as [s|]; [|discriminate Hq].
    destruct (to_numeric_raise_str s) as [q'|e]; [|discriminate Hq].
    subst q'. cbn [mbind result_bind].
    rewrite IH by (intros i Hi; apply (Hread (S i) Hi)). reflexivity.
  - apply IH. intros i Hi. apply (Hread (S i) Hi).
Qed.

(** [to_numeric] on the rows kept gives the readings of those rows, when
    each of them reads as a number. *)
Lemma to_numeric_take (mask : list bool) (c : column) :
  (forall i, mask !! i = Some true ->
     exists q, readings c !! i = Some (Some q)) ->
  to_numeric (col_take mask c) = Ok (take_mask mask (readings c)).
Proof.
  intros Hread.
  destruct c as [v|v|v|cats v|v]; cbn [col_take to_numeric readings].
  - reflexivity.
  - f_equal. now apply take_mask_map_agree.
  - now apply coerce_texts_take.
  - now apply coerce_texts_take.
  - f_equal. apply take_mask_map_agree. intros i [t|] Hi Hx; [reflexivity|].
    destruct (Hread i Hi) as [q Hq]. cbn [readings] in Hq.
    change (map ?f ?l) with (f <$> l) in Hq.
    rewrite list_lookup_fmap, Hx in Hq. discriminate Hq.
Qed.

(** Row [i] of the mask built by [complete_rows], column after column. *)
Lemma complete_rows_fold_lookup (subset : list string) (df : table)
  (keep : list bool) (i : nat) :
  foldl (fun keep p =>
           if in_labels subset (fst p)
           then zip_with andb keep (map negb (isna (snd p)))
           else keep) keep df !! i
  = foldl (fun o p =>
             if in_labels subset (fst p)
             then x ← o; y ← present_at i (snd p); Some (x && y)
             else o) (keep !! i) df.
Proof.
  revert keep. induction df as [|p df IH]; intros keep; [reflexivity|].
  simpl. rewrite IH. f_equal.
  destruct (in_labels subset (fst p)); [|reflexivity].
  now rewrite lookup_zip_with.
Qed.

Lemma complete_rows_fold_none (subset : list string) (df : table) (i : nat) :
  foldl (fun o p =>
           if in_labels subset (fst p)
           then x ← o; y ← present_at i (snd p); Some (x && y)
           else o) None df = None.
Proof.
  induction df as [|p df IH]; [reflexivity|].
  simpl. now destruct (in_labels subset (fst p)).
Qed.

Lemma complete_rows_fold_some (subset : list string) (df : table) (i : nat)
  (b : bool) :
  (forall p, In p df -> in_labels subset (fst p) = true ->
             is_Some (present_at i (snd p))) ->
  foldl (fun o p =>
           if in_labels subset (fst p)
           then x ← o; y ← present_at i (snd p); Some (x && y)
           else o) (Some b) df
  = Some (b && forallb (fun p => negb (in_labels subset (fst p))
                                 || default true (present_at i (snd p))) df).
Proof.
  revert b. induction df as [|p df IH]; intros b Hall.
  - simpl. now rewrite andb_true_r.
  - simpl. destruct (in_labels subset (fst p)) eqn:Hp; simpl.
    + destruct (Hall p (or_introl eq_refl) Hp) as [v Hv]. rewrite Hv. simpl.
      rewrite IH by (intros q Hq; apply Hall; now right).
      now rewrite andb_assoc.
    + apply IH. intros q Hq. apply Hall. now right.
Qed.

Lemma num_col_length (df : table) (c : string) (v : list (option Q)) :
  rectangular df -> In (c, NumCol v) df -> length v = nrows df.
Proof. intros Hrect Hin. exact (Hrect c (NumCol v) Hin). Qed.

(** On the three columns the mask of [dropna] marks the qualifying rows,
    when the Year and Month of every row with all three cells filled read
    as numbers. *)
Lemma complete_rows_three (df : table) (col : string) (ycol mcol : column)
  (rs : list (option Q)) :
  List.NoDup (columns df) -> rectangular df ->
  In ("Year", ycol) df -> In ("Month", mcol) df -> In (col, NumCol rs) df ->
  (forall i r,
     filled ycol !! i = Some true -> filled mcol !! i = Some true ->
     rs !! i = Some (Some r) ->
     exists y m,
       readings ycol !! i = Some (Some y)
       /\ readings mcol !! i = Some (Some m)) ->
  complete_rows df ["Year"; "Month"; col]
  = map qualifies (rows3 (readings ycol) (readings mcol) rs).
Proof.
  intros Hnd Hrect Hy Hm Hr Hread.
  pose proof (Hrect _ _ Hy) as Hly. pose proof (Hrect _ _ Hm) as Hlm.
  pose proof (num_col_length df _ rs Hrect Hr) as Hlr.
  apply list_eq. intros i. unfold complete_rows.
  rewrite complete_rows_fold_lookup.
  change (map qualifies (rows3 (readings ycol) (readings mcol) rs))
    with (qualifies <$> rows3 (readings ycol) (readings mcol) rs).
  rewrite list_lookup_fmap, rows3_lookup.
  destruct (decide (i < nrows df)%nat) as [Hi|Hi].
  - rewrite lookup_replicate_2 by exact Hi.
    destruct (lookup_lt_is_Some_2 (readings ycol) i) as [y Hyi];
      [rewrite readings_length; lia|].
    destruct (lookup_lt_is_Some_2 (readings mcol) i) as [m Hmi];
      [rewrite readings_length; lia|].
    destruct (lookup_lt_is_Some_2 rs i) as [r Hri]; [lia|].
    destruct (lookup_lt_is_Some_2 (filled ycol) i) as [fy Hfy];
      [rewrite filled_length; lia|].
    destruct (lookup_lt_is_Some_2 (filled mcol) i) as [fm Hfm];
      [rewrite filled_length; lia|].
    rewrite Hyi, Hmi, Hri. cbn [mbind option_bind fmap option_fmap option_map].
    assert (Hpy : present_at i ycol = Some fy)
      by now rewrite present_at_filled.
    assert (Hpm : present_at i mcol = Some fm)
      by now rewrite present_at_filled.
    assert (Hpr : present_at i (NumCol rs) = Some (holds_value r)).
    { rewrite present_at_filled. cbn [filled].
      change (map ?f ?l) with (f <$> l). now rewrite list_lookup_fmap, Hri. }
    assert (Hcase : forall p, In p df ->
               in_labels ["Year"; "Month"; col] (fst p) = true ->
               snd p = ycol \/ snd p = mcol \/ snd p = NumCol rs).
    { intros [c x] Hp Hc. cbn [fst snd] in *.
      apply Task3_prep.in_labels_In in Hc as [<-|[<-|[<-|[]]]].
      - left. exact (Task2_facts.label_unique df _ _ _ Hnd Hp Hy).
      - right. left. exact (Task2_facts.label_unique df _ _ _ Hnd Hp Hm).
      - right. right. exact (Task2_facts.label_unique df _ _ _ Hnd Hp Hr). }
    rewrite complete_rows_fold_some.
    + f_equal. rewrite andb_true_l. apply eq_iff_eq_true.
      rewrite forallb_forall. split.
      * intros Hall.
        assert (Hfy1 : fy = true).
        { specialize (Hall _ Hy). cbn [fst snd] in Hall. rewrite Hpy in Hall.
          replace (in_labels ["Year"; "Month"; col] "Year") with true in Hall
            by reflexivity.
          exact Hall. }
        assert (Hfm1 : fm = true).
        { specialize (Hall _ Hm). cbn [fst snd] in Hall. rewrite Hpm in Hall.
          replace (in_labels ["Year"; "Month"; col] "Month") with true in Hall
            by reflexivity.
          exact Hall. }
        assert (Hr1 : holds_value r = true).
        { specialize (Hall _ Hr). cbn [fst snd] in Hall. rewrite Hpr in Hall.
          replace (in_labels ["Year"; "Month"; col] col) with true in Hall.
          - exact Hall.
          - symmetry. apply Task3_prep.in_labels_In. right. right. now left. }
        subst fy fm. destruct r as [r'|]; [|discriminate Hr1].
        destruct (Hread i r' Hfy Hfm Hri) as (y' & m' & Hy' & Hm').
        rewrite Hyi in Hy'. rewrite Hmi in Hm'.
        injection Hy' as ->. injection Hm' as ->. reflexivity.
      * intros Hq.
        destruct (qualifies_present y m r Hq) as (y' & m' & r' & -> & -> & ->).
        pose proof (readings_filled ycol i y' Hyi) as Hfy'.
        pose proof (readings_filled mcol i m' Hmi) as Hfm'.
        rewrite Hfy in Hfy'. rewrite Hfm in Hfm'.
        injection Hfy' as ->. injection Hfm' as ->.
        intros p Hp.
        destruct (in_labels ["Year"; "Month"; col] (fst p)) eqn:Hc;
          [|reflexivity].
        destruct (Hcase p Hp Hc) as [-> |[-> | ->]];
          [rewrite Hpy|rewrite Hpm|rewrite Hpr]; reflexivity.
    + intros p Hp Hc.
      destruct (Hcase p Hp Hc) as [-> |[-> | ->]];
        [rewrite Hpy|rewrite Hpm|rewrite Hpr]; now eexists.
  - rewrite (proj1 (lookup_replicate_None (nrows df) true i)) by lia.
    rewrite complete_rows_fold_none.
    rewrite (lookup_ge_None_2 (readings ycol)); [reflexivity|].
    rewrite readings_length. lia.
Qed.

(** *** Assembling the month stamps *)

Lemma days_in_month_pos (y m : Z) : (1 <= days_in_month y m)%Z.
Proof.
  unfold days_in_month.
  destruct (m =? 2)%Z; [destruct (is_leap y); lia|].
  destruct ((m =? 4) || (m =? 6) || (m =? 9) || (m =? 11))%Z; lia.
Qed.

(** A calendar year and month assemble to the first day of that month. *)
Lemma assemble_calendar_month (y m : Q) (Y M : Z) :
  calendar_month y m Y M ->
  assemble_ymd y m 1 = Ok (Timestamp Y M 1 0).
Proof.
  intros (Hy & Hm & HY & HM). unfold assemble_ymd.
  assert (Hv : Qred (y * inject_Z 10000 + m * inject_Z 100 + 1)%Q
               = inject_Z (Y * 10000 + M * 100 + 1)).
  { assert (Hyq : (y == inject_Z Y)%Q).
    { rewrite <- Hy. symmetry. apply Qred_correct. }
    assert (Hmq : (m == inject_Z M)%Q).
    { rewrite <- Hm. symmetry. apply Qred_correct. }
    rewrite <- (Qcanon.Qred_identity (inject_Z (Y * 10000 + M * 100 + 1)))
      by apply Z.gcd_1_r.
    apply Qred_complete. rewrite Hyq, Hmq.
    rewrite !inject_Z_plus, !inject_Z_mult. reflexivity. }
  rewrite Hv. cbn [Qnum Qden inject_Z].
  set (n := (Y * 10000 + M * 100 + 1)%Z).
  assert (HYn : (n / 10000 = Y)%Z).
  { symmetry. apply (Z.div_unique n 10000 Y (M * 100 + 1)); unfold n; lia. }
  assert (HMn : ((n / 100) mod 100 = M)%Z).
  { assert (Hq : (n / 100 = Y * 100 + M)%Z).
    { symmetry. apply (Z.div_unique n 100 (Y * 100 + M) 1); unfold n; lia. }
    rewrite Hq. symmetry. apply (Z.mod_unique (Y * 100 + M) 100 Y M); lia. }
  assert (HDn : (n mod 100 = 1)%Z).
  { symmetry. apply (Z.mod_unique n 100 (Y * 100 + M) 1); unfold n; lia. }
  rewrite HYn, HMn, HDn.
  assert (Hok : ((1 =? 1)%positive
                 && (16770922 <=? n)%Z && (n <=? 22620411)%Z
                 && (1 <=? M)%Z && (M <=? 12)%Z
                 && (1 <=? 1)%Z && (1 <=? days_in_month Y M)%Z) = true).
  { pose proof (days_in_month_pos Y M).
    rewrite !andb_true_iff. unfold n.
    repeat split; try reflexivity; apply Z.leb_le; lia. }
  now rewrite Hok.
Qed.

Lemma assemble_rows_kept (kept : list (option Q * (option Q * option Q))) :
  (forall y m r, In (y, (m, r)) kept ->
     exists y' m' Y M, y = Some y' /\ m = Some m' /\ calendar_month y' m' Y M) ->
  assemble_rows (map fst kept) (map (fun row => fst (snd row)) kept)
                (replicate (length kept) (Some 1%Q))
  = Ok (map stamp_of kept).
Proof.
  induction kept as [|[y [m r]] kept IH]; intros Hall; [reflexivity|].
  destruct (Hall y m r (or_introl eq_refl))
    as (y' & m' & Y & M & -> & -> & Hcal).
  cbn [map length replicate assemble_rows fst snd stamp_of].
  rewrite (assemble_calendar_month y' m' Y M Hcal).
  cbn [mbind result_bind].
  rewrite IH by (intros y0 m0 r0 H0; apply (Hall y0 m0 r0); now right).
  destruct Hcal as (Hy & Hm & _). now rewrite Hy, Hm.
Qed.

(** *** Item assignment and removal *)

Lemma setitem_In_other (df : table) (name : string) (v : column)
  (c : string) (x : column) :
  c <> name -> In (c, x) (setitem df name v) <-> In (c, x) df.
Proof.
  intros Hne. unfold setitem. destruct (has_column df name).
  - rewrite in_map_iff. split.
    + intros ([c' x'] & Heq & Hin). cbn [fst] in Heq.
      destruct (String.eqb_spec name c') as [<-|_].
      * injection Heq as <- _. contradiction.
      * now injection Heq as <- <-.
    + intros Hin. exists (c, x). split; [|exact Hin]. cbn [fst].
      destruct (String.eqb_spec name c) as [<-|_]; [contradiction|reflexivity].
  - rewrite in_app_iff. split; [|now left].
    intros [Hin|[[= <- _]|[]]]; [exact Hin | contradiction].
Qed.

Lemma setitem_In_same (df : table) (name : string) (v : column) :
  In (name, v) (setitem df name v).
Proof.
  unfold setitem. destruct (has_column df name) eqn:Hc.
  - apply has_column_In, column_of_label in Hc as [old Hold].
    apply in_map_iff. exists (name, old). split; [|exact Hold].
    cbn [fst]. now rewrite String.eqb_refl.
  - apply in_or_app. right. now left.
Qed.

Lemma setitem_NoDup (df : table) (name : string) (v : column) :
  List.NoDup (columns df) -> List.NoDup (columns (setitem df name v)).
Proof.
  intros Hnd. unfold setitem. destruct (has_column df name) eqn:Hc.
  - replace (columns (map (fun p => if String.eqb name (fst p)
                                    then (fst p, v) else p) df))
      with (columns df); [exact Hnd|].
    unfold columns. rewrite map_map. apply map_ext. intros [c x]. cbn [fst].
    now destruct (String.eqb name c).
  - unfold columns. rewrite map_app. cbn [map fst].
    apply List.NoDup_app; [exact Hnd | repeat constructor; intros [] |].
    intros c Hin [<-|[]].
    apply has_column_In in Hin. congruence.
Qed.

Lemma drop_In (df : table) (labels : list string) (c : string) (x : column) :
  In (c, x) (drop df labels) <-> In (c, x) df /\ in_labels labels c = false.
Proof.
  unfold drop. rewrite filter_In. cbn [fst]. now rewrite negb_true_iff.
Qed.

Lemma drop_NoDup (df : table) (labels : list string) :
  List.NoDup (columns df) -> List.NoDup (columns (drop df labels)).
Proof.
  unfold drop, columns. induction df as [|[c x] df IH]; intros Hnd.
  - constructor.
  - apply List.NoDup_cons_iff in Hnd as [Hfresh Hnd]. cbn [List.filter fst].
    destruct (negb (in_labels labels c)); [|now apply IH].
    cbn [map fst]. constructor; [|now apply IH].
    intros Hin. apply Hfresh. apply in_map_iff in Hin as (p & Hp & Hin).
    apply filter_In in Hin as [Hin _]. apply in_map_iff. now exists p.
Qed.

Lemma numeric_values_unique (df : table) (c : string) (v : list (option Q)) :
  List.NoDup (columns df) -> In (c, NumCol v) df ->
  numeric_values df c = Ok v.
Proof.
  intros Hnd Hin. unfold numeric_values.
  now rewrite (getitem_unique df c (NumCol v) Hnd Hin).
Qed.

Lemma numeric_values_take (df : table) (c : string) (x : column)
  (mask : list bool) :
  List.NoDup (columns df) -> In (c, col_take mask x) df ->
  (forall i, mask !! i = Some true ->
     exists q, readings x !! i = Some (Some q)) ->
  numeric_values df c = Ok (take_mask mask (readings x)).
Proof.
  intros Hnd Hin Hread. unfold numeric_values.
  rewrite (getitem_unique df c (col_take mask x) Hnd Hin).
  cbn [mbind result_bind]. now apply to_numeric_take.
Qed.

(** *** The steps of [monthly_timeseries] *)

Lemma take_mask_length_eq {A B : Type} (mask : list bool) (v : list A)
  (w : list B) :
  length v = length w ->
  length (take_mask mask v) = length (take_mask mask w).
Proof.
  revert v w. induction mask as [|b mask IH]; intros [|x v] [|y w] Hl;
    try discriminate; try reflexivity.
  simpl in *. destruct b; simpl; rewrite (IH v w); lia.
Qed.

Lemma col_take_length_eq (mask : list bool) (c c' : column) :
  col_length c = col_length c' ->
  col_length (col_take mask c) = col_length (col_take mask c').
Proof.
  destruct c, c'; simpl; apply take_mask_length_eq.
Qed.

Lemma nrows_table_take (df : table) (mask : list bool) (c : string)
  (col : column) :
  rectangular df -> In (c, col) df ->
  nrows (table_take mask df) = col_length (col_take mask col).
Proof.
  intros Hrect Hin. destruct df as [|[c0 col0] df]; [destruct Hin|].
  cbn [table_take map nrows fst snd].
  apply col_take_length_eq. now rewrite (Hrect c col Hin).
Qed.

Lemma zip_map_same {A B C : Type} (f : A -> B) (g : A -> C) (l : list A) :
  zip (map f l) (map g l) = map (fun x => (f x, g x)) l.
Proof. induction l as [|x l IH]; simpl; [reflexivity | now rewrite IH]. Qed.

(** The rows of the readings that have all three values are rows of the
    table with all three cells filled. *)
Lemma rows_calendar (ycol mcol : column) (rs : list (option Q)) :
  (forall i r,
     filled ycol !! i = Some true -> filled mcol !! i = Some true ->
     rs !! i = Some (Some r) ->
     exists y m Y M,
       readings ycol !! i = Some (Some y)
       /\ readings mcol !! i = Some (Some m)
       /\ calendar_month y m Y M) ->
  forall y m r,
    In (Some y, (Some m, Some r)) (rows3 (readings ycol) (readings mcol) rs) ->
    exists Y M, calendar_month y m Y M.
Proof.
  intros Hread y m r Hin.
  apply list_elem_of_In, list_elem_of_lookup in Hin as [i Hi].
  rewrite rows3_lookup in Hi.
  destruct (readings ycol !! i) as [y0|] eqn:Hy; [|discriminate Hi].
  destruct (readings mcol !! i) as [m0|] eqn:Hm; [|discriminate Hi].
  destruct (rs !! i) as [r0|] eqn:Hr; [|discriminate Hi].
  cbn [mbind option_bind] in Hi. injection Hi as -> -> ->.
  destruct (Hread i r (readings_filled _ _ _ Hy) (readings_filled _ _ _ Hm) Hr)
    as (y' & m' & Y & M & Hy' & Hm' & Hcal).
  rewrite Hy in Hy'. rewrite Hm in Hm'.
  injection Hy' as <-. injection Hm' as <-. now exists Y, M.
Qed.

(** When the Year and Month of every row with all three cells filled read
    as a calendar month, [monthly_timeseries] resamples the stamped rates of
    those rows. *)
Lemma monthly_timeseries_unfold (df : table) (col : string)
  (ycol mcol : column) (rs : list (option Q)) :
  List.NoDup (columns df) -> rectangular df ->
  In ("Year", ycol) df -> In ("Month", mcol) df -> In (col, NumCol rs) df ->
  col <> "day" -> col <> "dt" ->
  (forall i r,
     filled ycol !! i = Some true -> filled mcol !! i = Some true ->
     rs !! i = Some (Some r) ->
     exists y m Y M,
       readings ycol !! i = Some (Some y)
       /\ readings mcol !! i = Some (Some m)
       /\ calendar_month y m Y M) ->
  monthly_timeseries df col
  = Ok (resample_MS_mean
          (map (fun row => (stamp_of row, snd (snd row)))
               (List.filter qualifies
                  (rows3 (readings ycol) (readings mcol) rs)))).
Proof.
  intros Hnd Hrect Hy Hm Hr Hday Hdt Hread.
  pose proof (rows_calendar ycol mcol rs Hread) as Hcal.
  assert (Hly : length (readings ycol) = nrows df)
    by (rewrite readings_length; exact (Hrect _ _ Hy)).
  assert (Hlm : length (readings mcol) = nrows df)
    by (rewrite readings_length; exact (Hrect _ _ Hm)).
  pose proof (num_col_length df _ rs Hrect Hr) as Hlr.
  destruct (rows3_columns (readings ycol) (readings mcol) rs)
    as (Hys & Hms & Hrs); [lia..|].
  set (rows := rows3 (readings ycol) (readings mcol) rs) in *.
  set (kept := List.filter qualifies rows).
  unfold monthly_timeseries, dropna.
  assert (Hcols : forallb (has_column df) ["Year"; "Month"; col] = true).
  { apply (in_map fst) in Hy as Hy', Hm as Hm', Hr as Hr'.
    cbn [forallb]. rewrite !andb_true_iff.
    repeat split; apply has_column_In; assumption. }
  rewrite Hcols, (complete_rows_three df col ycol mcol rs Hnd Hrect Hy Hm Hr).
  2:{ intros i r Hfy Hfm Hri.
      destruct (Hread i r Hfy Hfm Hri) as (y & m & _ & _ & Hyi & Hmi & _).
      now exists y, m. }
  fold rows. cbn [mbind result_bind].
  set (mask := map qualifies rows).
  assert (Hty : take_mask mask (readings ycol) = map fst kept).
  { rewrite <- Hys at 1. apply take_mask_map_filter. }
  assert (Htm : take_mask mask (readings mcol)
                = map (fun row => fst (snd row)) kept).
  { rewrite <- Hms at 1. apply take_mask_map_filter. }
  assert (Htr : take_mask mask rs = map (fun row => snd (snd row)) kept).
  { rewrite <- Hrs at 1. apply take_mask_map_filter. }
  set (temp := table_take mask df).
  assert (Hnd0 : List.NoDup (columns temp)).
  { unfold temp. now rewrite Task3_prep.table_take_columns. }
  assert (Hy0 : In ("Year", col_take mask ycol) temp).
  { apply Task3_prep.table_take_In. now exists ycol. }
  assert (Hm0 : In ("Month", col_take mask mcol) temp).
  { apply Task3_prep.table_take_In. now exists mcol. }
  assert (Hr0 : In (col, NumCol (map (fun row => snd (snd row)) kept)) temp).
  { apply Task3_prep.table_take_In. exists (NumCol rs). split; [exact Hr|].
    cbn [col_take]. now rewrite Htr. }
  assert (Hn0 : nrows temp = length kept).
  { unfold temp. rewrite (nrows_table_take df mask _ _ Hrect Hr).
    cbn [col_take col_length]. now rewrite Htr, length_map. }
  rewrite Hn0.
  set (temp1 := setitem temp "day" (NumCol (replicate (length kept) (Some 1%Q)))).
  assert (Hnd1 : List.NoDup (columns temp1)) by now apply setitem_NoDup.
  rewrite (numeric_values_take temp1 "Year" ycol mask Hnd1).
  2:{ apply setitem_In_other; [discriminate | exact Hy0]. }
  2:{ intros i Hi. apply mask_lookup in Hi as (y & _ & _ & Hyi & _).
      now exists y. }
  cbn [mbind result_bind].
  rewrite (numeric_values_take temp1 "Month" mcol mask Hnd1).
  2:{ apply setitem_In_other; [discriminate | exact Hm0]. }
  2:{ intros i Hi. apply mask_lookup in Hi as (_ & m & _ & _ & Hmi & _).
      now exists m. }
  cbn [mbind result_bind].
  rewrite (numeric_values_unique temp1 "day"
             (replicate (length kept) (Some 1%Q)) Hnd1)
    by apply setitem_In_same.
  cbn [mbind result_bind].
  rewrite Hty, Htm, assemble_rows_kept.
  - cbn [mbind result_bind].
    set (temp2 := setitem temp1 "dt" (DateCol (map stamp_of kept))).
    rewrite (getitem_unique (drop temp2 ["dt"]) col
               (NumCol (map (fun row => snd (snd row)) kept))).
    + cbn [mbind result_bind]. now rewrite zip_map_same.
    + apply drop_NoDup. now apply setitem_NoDup.
    + apply drop_In. split.
      * apply setitem_In_other; [exact Hdt|].
        apply setitem_In_other; [exact Hday | exact Hr0].
      * unfold in_labels. cbn [existsb]. rewrite orb_false_r.
        now apply String.eqb_neq.
  - intros y m r Hin. apply filter_In in Hin as [Hin Hq].
    destruct (qualifies_present y m r Hq) as (y' & m' & r' & -> & -> & ->).
    destruct (Hcal y' m' r' Hin) as (Y & M & HYM).
    now exists y', m', Y, M.
Qed.

(** *** Resampling by month *)

Lemma month_index_start (i : Z) : month_index (month_start i) = i.
Proof.
  unfold month_index, month_start. cbn [ts_year ts_month].
  pose proof (Z.div_mod i 12). lia.
Qed.



Lemma fold_min_max_bounds (i0 : Z) (rest : list Z) (i : Z) :
  In i (i0 :: rest) ->
  (fold_right Z.min i0 rest <= i <= fold_right Z.max i0 rest)%Z.
Proof.
  revert i. induction rest as [|j rest IH]; intros i; simpl.
  - intros [<-|[]]. lia.
  - pose proof (IH i0 (or_introl eq_refl)) as H0.
    intros [<-|[<-|Hin]]; [lia | lia |].
    specialize (IH i (or_intror Hin)). lia.
Qed.




(** The month of every stamped row has an entry. *)
Lemma resample_covers (rows : list (option timestamp * option Q))
  (t : timestamp) (x : option Q) :
  In (Some t, x) rows ->
  In (month_start (month_index t)) (map fst (resample_MS_mean rows)).
Proof.
  intros Hin. unfold resample_MS_mean.
  assert (Hidx : In (month_index t)
                    (omap (fun r => month_index <$> fst r) rows)).
  { apply list_elem_of_In, list_elem_of_omap. exists (Some t, x).
    split; [now apply list_elem_of_In | reflexivity]. }
  destruct (omap (fun r => month_index <$> fst r) rows) as [|i0 rest];
    [destruct Hidx|].
  rewrite map_map. cbn [fst].
  apply (in_map month_start). apply list_elem_of_In, elem_of_seqZ.
  pose proof (fold_min_max_bounds i0 rest _ Hidx). lia.
Qed.

Lemma calendar_value (y : Q) (Y Y' : Z) :
  Qred y = inject_Z Y -> Qeq_bool y (inject_Z Y') = true <-> Y = Y'.
Proof.
  intros Hy. rewrite Qeq_bool_iff.
  assert (Hyq : (y == inject_Z Y)%Q).
  { rewrite <- Hy. symmetry. apply Qred_correct. }
  rewrite Hyq. split.
  - apply inject_Z_injective.
  - now intros ->.
Qed.

(** The test of a bin against a stamp is the test of the year and month. *)
Lemma month_test (y m : Q) (Y M i : Z) :
  calendar_month y m Y M ->
  (month_index (Timestamp (Qnum (Qred y)) (Qnum (Qred m)) 1 0) =? i)%Z
  = Qeq_bool y (inject_Z (i / 12)) && Qeq_bool m (inject_Z (i mod 12 + 1)).
Proof.
  intros (Hy & Hm & _ & HM). apply eq_iff_eq_true.
  rewrite andb_true_iff, (calendar_value y Y _ Hy), (calendar_value m M _ Hm).
  rewrite Hy, Hm, Z.eqb_eq. unfold month_index. cbn [ts_year ts_month Qnum inject_Z].
  pose proof (Z.div_mod i 12). pose proof (Z.mod_pos_bound i 12). split.
  - intros <-. split.
    + apply (Z.div_unique _ 12 Y (M - 1)); lia.
    + assert ((Y * 12 + (M - 1)) mod 12 = M - 1)%Z; [|lia].
      symmetry. apply (Z.mod_unique _ 12 Y (M - 1)); lia.
  - intros [-> ->]. lia.
Qed.

(** The values of bin [i] are the rates of the qualifying rows of that
    month. *)
Lemma bin_values_month_rates (ys ms rs : list (option Q)) (i : Z) :
  (forall y m r, In (Some y, (Some m, Some r)) (rows3 ys ms rs) ->
     exists Y M, calendar_month y m Y M) ->
  bin_values i (map (fun row => (stamp_of row, snd (snd row)))
                    (List.filter qualifies (rows3 ys ms rs)))
  = month_rates ys ms rs (i / 12) (i mod 12 + 1).
Proof.
  unfold month_rates, bin_values. generalize (rows3 ys ms rs). intros rows.
  induction rows as [|[y [m r]] rows IH]; intros Hcal; [reflexivity|].
  assert (IH' := IH (fun y m r H => Hcal y m r (or_intror H))). clear IH.
  destruct y as [y|], m as [m|], r as [r|];
    cbn [List.filter qualifies missing fst snd negb andb map omap list_omap];
    try exact IH'.
  cbn [stamp_of fst snd].
  destruct (Hcal y m r (or_introl eq_refl)) as (Y & M & HYM).
  rewrite (month_test y m Y M i HYM).
  destruct (Qeq_bool y (inject_Z (i / 12))
            && Qeq_bool m (inject_Z (i mod 12 + 1)));
    [f_equal|]; exact IH'.
Qed.

(** *** The contract *)


End WithPandas.

Example monthly_timeseries_prepared :
  monthly_timeseries prepared "rate_clean"
  = Ok [(Timestamp 2020 1 1 0, Some (6 # 1)%Q);
        (Timestamp 2020 2 1 0, None);
        (Timestamp 2020 3 1 0, Some (71 # 10)%Q)].
Proof. vm_compute. reflexivity. Qed.

(** Years given as text are read as numbers. *)
Example monthly_timeseries_text_years :
  monthly_timeseries prepared_text "rate_clean"
  = Ok [(Timestamp 2020 1 1 0, Some (6 # 1)%Q);
        (Timestamp 2020 2 1 0, None);
        (Timestamp 2020 3 1 0, Some (71 # 10)%Q)].
Proof. vm_compute. reflexivity. Qed.



End Task2_series.

(** ** Further properties of the price-model script (Task3.py) *)

Module Task3_more.
Import Task3 Task3_spec Task3_facts Task3_prep.

Lemma last_with_key_In (k : string) (cols : list string) (c : string) :
  last_with_key k cols c -> In c cols.
Proof.
  intros (pre & post & -> & _). apply in_or_app. right. now left.
Qed.

Lemma first_alias_In (cols aliases : list string) (c : string) :
  first_alias (candidates cols) aliases = Some c -> In c cols.
Proof.
  induction aliases as [|a aliases IH]; simpl; [discriminate|].
  destruct (candidates cols !! normalise a) as [c'|] eqn:Hl; [|exact IH].
  intros [= <-]. apply candidates_some in Hl. exact (last_with_key_In _ _ _ Hl).
Qed.

Lemma requested_match_In (df : table) (requested : option string)
  (c : string) :
  requested_match df requested = Some c -> In c (columns df).
Proof.
  unfold requested_match.
  destruct requested as [r|]; [|discriminate].
  destruct (Py.truthy (Some r)); [|discriminate].
  destruct (candidates (columns df) !! normalise r) as [c'|] eqn:Hl.
  - intros [= <-]. apply candidates_some in Hl.
    exact (last_with_key_In _ _ _ Hl).
  - destruct (has_column df r) eqn:Hr; [|discriminate].
    intros [= <-]. now apply has_column_In.
Qed.

(** X1: whatever is requested, the resolved target is a label of the
    table. *)
Theorem find_target_column_is_column (df : table) (requested : option string)
  (c : string) :
  find_target_column df requested = Some c -> In c (columns df).
Proof.
  unfold find_target_column.
  destruct (requested_match df requested) as [c'|] eqn:Hreq;
    [|apply first_alias_In].
  intros [= <-]. exact (requested_match_In _ _ _ Hreq).
Qed.

Lemma find_target_column_is_column_witness :
  In "Selling_Price"
     (columns [("Car_Name", ObjCol [Some "ritz"]);
               ("Selling_Price", NumCol [Some 3.35%Q])]).
Proof.
  apply (find_target_column_is_column _ None). vm_compute. reflexivity.
Defined.

(** X2: when the requested name labels a column, the lookup by normalised
    name already succeeds, so the exact-match test that follows it never
    decides; the result is the column stored under that normalised name. *)
Theorem requested_column_found_by_key (df : table) (r : string) :
  In r (columns df) -> r <> EmptyString ->
  exists c,
    candidates (columns df) !! normalise r = Some c
    /\ normalise c = normalise r
    /\ find_target_column df (Some r) = Some c.
Proof.
  intros Hin Hr.
  destruct (candidates (columns df) !! normalise r) as [c|] eqn:Hl.
  - exists c. split; [reflexivity|].
    pose proof (candidates_some _ _ _ Hl) as (pre & post & _ & Hk & _).
    split; [exact Hk|].
    unfold find_target_column, requested_match.
    now rewrite (truthy_of_nonempty r Hr), Hl.
  - exfalso. apply candidates_none in Hl. now apply (Hl r).
Qed.

Lemma requested_column_found_by_key_witness :
  exists c,
    candidates (columns [("Price", NumCol []); ("price", NumCol [])])
      !! normalise "Price" = Some c
    /\ normalise c = normalise "Price"
    /\ find_target_column [("Price", NumCol []); ("price", NumCol [])]
         (Some "Price") = Some c.
Proof.
  apply requested_column_found_by_key; [now left | discriminate].
Defined.

(** X3: without the target label the preprocessing raises [KeyError]. *)
Theorem basic_preprocess_missing_target (df : table) (target_col : string) :
  ~ In target_col (columns df) ->
  basic_preprocess df target_col = Raise KeyError.
Proof.
  intros Hn. unfold basic_preprocess, dropna. cbn [forallb].
  now rewrite (has_column_false df target_col Hn).
Qed.

Lemma basic_preprocess_missing_target_witness :
  basic_preprocess lone_year "price" = Raise KeyError.
Proof.
  apply basic_preprocess_missing_target. intros [H|[]]. discriminate H.
Defined.

(** X4: on a table whose labels do not repeat, the target that
    [find_target_column] resolves is always accepted by the preprocessing. *)
Theorem resolved_target_preprocesses (df : table) (requested : option string)
  (target_col : string) :
  List.NoDup (columns df) ->
  find_target_column df requested = Some target_col ->
  exists df_proc, basic_preprocess df target_col = Ok df_proc.
Proof.
  intros Hnd Hfind.
  assert (Hin : In target_col (columns df)).
  { unfold find_target_column in Hfind.
    destruct (requested_match df requested) as [c|] eqn:Hreq.
    - injection Hfind as <-. exact (requested_match_In _ _ _ Hreq).
    - exact (first_alias_In _ _ _ Hfind). }
  rewrite (basic_preprocess_unfold df target_col Hnd Hin). now eexists.
Qed.

Lemma resolved_target_preprocesses_witness :
  exists df_proc, basic_preprocess lone_price "price" = Ok df_proc.
Proof.
  apply (resolved_target_preprocesses lone_price None).
  - repeat constructor; simpl; intuition discriminate.
  - vm_compute. reflexivity.
Defined.

Lemma take_mask_present {A : Type} (v : list (option A)) :
  forallb (fun x => negb (missing x))
          (take_mask (map negb (map missing v)) v) = true.
Proof.
  induction v as [|[x|] v IH]; simpl; [reflexivity | exact IH | exact IH].
Qed.

Lemma forallb_negb_map {A : Type} (f : A -> bool) (l : list A) :
  forallb negb (map f l) = forallb (fun x => negb (f x)) l.
Proof.
  induction l as [|x l IH]; simpl; [reflexivity | now rewrite IH].
Qed.

(** After [dropna] on a column, that column has no missing value. *)
Lemma col_take_present (c : column) :
  forallb negb (isna (col_take (map negb (isna c)) c)) = true.
Proof.
  destruct c as [v|v|v|cats v|v]; cbn [isna col_take];
    rewrite forallb_negb_map; try apply take_mask_present.
  apply forallb_forall. reflexivity.
Qed.

(** X5: a target that is not text keeps its label through the
    preprocessing, holds the values of the rows where it was present, and
    has no missing value left. *)
Theorem numeric_target_survives (df : table) (target_col : string)
  (tcol : column) :
  List.NoDup (columns df) -> rectangular df ->
  In (target_col, tcol) df -> is_text tcol = false ->
  exists df_proc,
    basic_preprocess df target_col = Ok df_proc
    /\ In (target_col, col_take (map negb (isna tcol)) tcol) df_proc
    /\ forallb negb (isna (col_take (map negb (isna tcol)) tcol)) = true.
Proof.
  intros Hnd Hrect Hin Htext.
  assert (Hcol : In target_col (columns df)).
  { apply (in_map fst) in Hin. exact Hin. }
  rewrite (basic_preprocess_unfold df target_col Hnd Hcol).
  rewrite (complete_rows_target df target_col tcol Hnd Hrect Hin).
  eexists. split; [reflexivity|]. split; [|apply col_take_present].
  apply get_dummies_In. left. rewrite is_text_take. split; [|exact Htext].
  apply filter_In. split.
  - apply table_take_In. now exists tcol.
  - rewrite negb_true_iff, identifier_like_take.
    now apply identifier_like_plain.
Qed.

Lemma numeric_target_survives_witness :
  exists df_proc,
    basic_preprocess
      [("Year", NumCol [Some 2014%Q; Some 2013%Q]);
       ("Selling_Price", NumCol [Some 3.35%Q; None])] "Selling_Price"
    = Ok df_proc
    /\ In ("Selling_Price",
           col_take (map negb (isna (NumCol [Some 3.35%Q; None])))
                    (NumCol [Some 3.35%Q; None])) df_proc
    /\ forallb negb
         (isna (col_take (map negb (isna (NumCol [Some 3.35%Q; None])))
                         (NumCol [Some 3.35%Q; None]))) = true.
Proof.
  apply numeric_target_survives.
  - repeat constructor; simpl; intuition discriminate.
  - intros c col [[= <- <-]|[[= <- <-]|[]]]; reflexivity.
  - right. now left.
  - reflexivity.
Defined.

End Task3_more.

Module Task3_shape.
Import Task3 Task3_spec Task3_prep.

Lemma take_mask_length {A : Type} (mask : list bool) (v : list A) :
  length v = length mask ->
  length (take_mask mask v) = length (List.filter (fun b => b) mask).
Proof.
  revert v. induction mask as [|b mask IH]; intros [|x v] Hl;
    try discriminate; [reflexivity|].
  simpl in *. destruct b; simpl; rewrite IH; lia.
Qed.

Lemma col_take_length (mask : list bool) (c : column) :
  col_length c = length mask ->
  col_length (col_take mask c) = length (List.filter (fun b => b) mask).
Proof. destruct c; simpl; apply take_mask_length. Qed.

Lemma text_values_length (c : column) :
  is_text c = true -> length (text_values c) = col_length c.
Proof. destruct c; simpl; try discriminate; reflexivity. Qed.

(** X6: the preprocessed table is rectangular: every column it holds,
    kept or indicator, has one row per row of the input whose target is
    present. *)
Theorem basic_preprocess_rows (df : table) (target_col : string)
  (tcol : column) :
  List.NoDup (columns df) -> rectangular df -> In (target_col, tcol) df ->
  exists df_proc,
    basic_preprocess df target_col = Ok df_proc
    /\ forall label x,
         In (label, x) df_proc ->
         col_length x
         = length (List.filter (fun b => b) (map negb (isna tcol))).
Proof.
  intros Hnd Hrect Hin.
  assert (Hcol : In target_col (columns df)).
  { apply (in_map fst) in Hin. exact Hin. }
  rewrite (basic_preprocess_unfold df target_col Hnd Hcol).
  rewrite (complete_rows_target df target_col tcol Hnd Hrect Hin).
  set (kept := map negb (isna tcol)).
  assert (Hkept : length kept = nrows df).
  { unfold kept. rewrite length_map, isna_length. exact (Hrect _ _ Hin). }
  eexists. split; [reflexivity|]. intros label x Hx.
  apply get_dummies_In in Hx as [[Hx _]|(c & y & Hy & Htext & Hd)].
  - apply filter_In in Hx as [Hx _].
    apply table_take_In in Hx as (col & Hcolin & ->).
    apply col_take_length. rewrite Hkept. exact (Hrect _ _ Hcolin).
  - apply filter_In in Hy as [Hy _].
    apply table_take_In in Hy as (col & Hcolin & ->).
    apply dummies_1d_In in Hd as (l & _ & _ & ->).
    unfold indicator. cbn [col_length]. rewrite length_map.
    rewrite (text_values_length _ Htext).
    apply col_take_length. rewrite Hkept. exact (Hrect _ _ Hcolin).
Qed.

Lemma basic_preprocess_rows_witness :
  exists df_proc,
    basic_preprocess
      [("Fuel_Type", ObjCol [Some "Petrol"; Some "Diesel"; Some "CNG"]);
       ("Selling_Price", NumCol [Some 3.35%Q; None; Some 7.25%Q])]
      "Selling_Price" = Ok df_proc
    /\ forall label x,
         In (label, x) df_proc ->
         col_length x
         = length (List.filter (fun b => b)
                     (map negb (isna (NumCol [Some 3.35%Q; None; Some 7.25%Q])))).
Proof.
  apply basic_preprocess_rows.
  - repeat constructor; simpl; intuition discriminate.
  - intros c col [[= <- <-]|[[= <- <-]|[]]]; reflexivity.
  - right. now left.
Defined.

End Task3_shape.

(** ** What a run may touch *)

Module Run_facts.

Lemma bind_run {A B : Type} (m : io A) (k : A -> io B) (w : world) :
  (m ≫= k) w
  = match m w with
    | (inl a, w1) => k a w1
    | (inr h, w1) => (inr h, w1)
    end.
Proof. reflexivity. Qed.

Lemma writes_within_bind {A B : Type} (paths : list string) (m : io A)
  (k : A -> io B) :
  writes_within paths m -> (forall a, writes_within paths (k a)) ->
  writes_within paths (m ≫= k).
Proof.
  intros Hm Hk w p Hp. rewrite bind_run. specialize (Hm w p Hp).
  destruct (m w) as [[a|h] w1]; cbn [snd] in *.
  - now rewrite (Hk a w1 p Hp).
  - exact Hm.
Qed.

Lemma writes_within_ret {A : Type} (paths : list string) (a : A) :
  writes_within paths (mret a).
Proof. intros w p _. reflexivity. Qed.

Lemma writes_within_lift {A : Type} (paths : list string) (r : result A) :
  writes_within paths (lift r).
Proof. intros w p _. now destruct r. Qed.

Lemma writes_within_sys_exit {A : Type} (paths : list string) (code : Z) :
  writes_within paths (@sys_exit A code).
Proof. intros w p _. reflexivity. Qed.

Lemma writes_within_print (paths : list string) (line : string) :
  writes_within paths (print line).
Proof. intros w p _. reflexivity. Qed.

Lemma writes_within_eprint (paths : list string) (line : string) :
  writes_within paths (eprint line).
Proof. intros w p _. reflexivity. Qed.

Lemma writes_within_print_each (paths : list string) (lines : list string) :
  writes_within paths (print_each lines).
Proof.
  induction lines as [|l lines IH]; [apply writes_within_ret|].
  apply writes_within_bind; [apply writes_within_print | intros _; exact IH].
Qed.

Lemma writes_within_path_exists (paths : list string) (path : string) :
  writes_within paths (path_exists path).
Proof. intros w p _. reflexivity. Qed.

Lemma writes_within_read_csv (paths : list string) (path : string) :
  writes_within paths (read_csv path).
Proof.
  intros w p _. unfold read_csv.
  now destruct (fs w !! path) as [[]|].
Qed.

(** What [make_above] leaves: every path as it was, but for the missing
    directories of the list, which it creates. *)
Lemma make_above_frame (above : list string) (files files' : gmap string file) :
  make_above above files = Some files' ->
  forall p,
    files' !! p = files !! p
    \/ (In p above /\ files !! p = None /\ files' !! p = Some Directory).
Proof.
  revert files'. induction above as [|head rest IH]; intros files'.
  - intros [= <-] p. now left.
  - cbn [make_above].
    destruct (files !! head) as [[]|] eqn:Hhead;
      try (intros Hx; discriminate Hx);
      try (intros [= <-] p; now left).
    destruct (make_above rest files) as [files1|] eqn:Hrest;
      [|intros Hx; discriminate Hx].
    cbn [mbind option_bind]. intros [= <-] p.
    destruct (String.eqb_spec head p) as [<-|Hne].
    + right. split; [now left|]. split; [exact Hhead | apply lookup_insert_eq].
    + rewrite lookup_insert_ne by exact Hne.
      destruct (IH files1 eq_refl p) as [Heq|(Hin & Hnone & Hdir)];
        [now left|].
      right. split; [now right|]. now split.
Qed.


(** What a successful [makedirs] and [write_file] leave. *)
Lemma makedirs_done (path : string) (w w1 : world) :
  makedirs path w = (inl tt, w1) ->
  fs w1 !! path = Some Directory
  /\ stdout w1 = stdout w /\ stderr w1 = stderr w
  /\ forall p, p <> path ->
       fs w1 !! p = fs w !! p
       \/ (In p (ancestors path) /\ fs w !! p = None
           /\ fs w1 !! p = Some Directory).
Proof.
  unfold makedirs.
  destruct (fs w !! path) as [[]|] eqn:Hl; try (intros Hx; discriminate Hx).
  - intros [= <-]. split; [exact Hl|]. split; [reflexivity|].
    split; [reflexivity|]. intros p _. now left.
  - destruct (String.eqb path EmptyString); [intros Hx; discriminate Hx|].
    destruct (make_above (rev (ancestors path)) (fs w)) as [files|] eqn:Hab;
      [|intros Hx; discriminate Hx].
    intros [= <-]. cbn [fs stdout stderr].
    split; [apply lookup_insert_eq|]. split; [reflexivity|].
    split; [reflexivity|]. intros p Hp.
    rewrite lookup_insert_ne by congruence.
    destruct (make_above_frame _ _ _ Hab p) as [Heq|(Hin & Hnone & Hdir)];
      [now left|].
    right. split; [now apply in_rev|]. now split.
Qed.

Lemma makedirs_failed (path : string) (w w1 : world) (h : halt) :
  makedirs path w = (inr h, w1) -> h = Uncaught OSError /\ w1 = w.
Proof.
  unfold makedirs.
  destruct (fs w !! path) as [[]|]; try (intros Hx; discriminate Hx);
    try (intros [= <- <-]; now split).
  destruct (String.eqb path EmptyString); [intros [= <- <-]; now split|].
  destruct (make_above (rev (ancestors path)) (fs w));
    [intros Hx; discriminate Hx | intros [= <- <-]; now split].
Qed.

Lemma write_file_done (path : string) (f : file) (w w1 : world) :
  write_file path f w = (inl tt, w1) ->
  w1 = World (<[path := f]> (fs w)) (stdout w) (stderr w)
  /\ fs w !! path <> Some Directory.
Proof.
  unfold write_file.
  destruct (fs w !! path) as [[]|]; try (intros Hx; discriminate Hx);
    intros [= <-]; (split; [reflexivity | discriminate]).
Qed.

Lemma writes_within_makedirs (paths : list string) (path : string) :
  In path paths -> (forall a, In a (ancestors path) -> In a paths) ->
  writes_within paths (makedirs path).
Proof.
  intros Hin Habove w p Hp.
  destruct (makedirs path w) as [[[]|h] w1] eqn:Hmk; cbn [snd].
  - apply makedirs_done in Hmk as (_ & _ & _ & Hother).
    destruct (Hother p) as [Heq|(Ha & _)];
      [intros ->; contradiction | exact Heq |].
    exfalso. apply Hp. now apply Habove.
  - now apply makedirs_failed in Hmk as [_ ->].
Qed.

Lemma writes_within_write_file (paths : list string) (path : string)
  (f : file) :
  In path paths -> writes_within paths (write_file path f).
Proof.
  intros Hin w p Hp. unfold write_file.
  assert (Hne : path <> p) by (intros <-; contradiction).
  destruct (fs w !! path) as [[]|]; try reflexivity;
    cbn [snd fs]; now apply lookup_insert_ne.
Qed.

Lemma never_exits_bind {A B : Type} (m : io A) (k : A -> io B) :
  never_exits m -> (forall a, never_exits (k a)) -> never_exits (m ≫= k).
Proof.
  intros Hm Hk w code. rewrite bind_run. specialize (Hm w code).
  destruct (m w) as [[a|h] w1]; cbn [fst] in *.
  - apply Hk.
  - intros [= ->]. now apply Hm.
Qed.

Lemma never_exits_ret {A : Type} (a : A) : never_exits (mret a : io A).
Proof. intros w code. discriminate. Qed.

Lemma never_exits_lift {A : Type} (r : result A) : never_exits (lift r).
Proof. intros w code. destruct r; discriminate. Qed.

Lemma never_exits_print (line : string) : never_exits (print line).
Proof. intros w code. discriminate. Qed.

Lemma never_exits_makedirs (path : string) : never_exits (makedirs path).
Proof.
  intros w code. destruct (makedirs path w) as [[[]|h] w1] eqn:Hmk; cbn [fst].
  - discriminate.
  - apply makedirs_failed in Hmk as [-> _]. discriminate.
Qed.

Lemma never_exits_write_file (path : string) (f : file) :
  never_exits (write_file path f).
Proof.
  intros w code. unfold write_file.
  destruct (fs w !! path) as [[]|]; discriminate.
Qed.

Lemma never_exits_read_csv (path : string) : never_exits (read_csv path).
Proof.
  intros w code. unfold read_csv.
  destruct (fs w !! path) as [[]|]; discriminate.
Qed.

End Run_facts.

(** ** Runs of the price-model script (Task3.py) *)

Module Task3_runs.
Import Task3 Run_facts.

Section WithSklearn.
Context `{Sklearn}.

Ltac frame_step :=
  first
    [ apply writes_within_bind; [|intros ?]
    | apply writes_within_print
    | apply writes_within_eprint
    | apply writes_within_print_each
    | apply writes_within_lift
    | apply writes_within_sys_exit
    | apply writes_within_path_exists
    | apply writes_within_read_csv
    | apply writes_within_ret
    | apply writes_within_makedirs;
        [now left | intros ? ?; right; apply in_or_app; now left]
    | apply writes_within_write_file;
        right; apply in_or_app; right; simpl; tauto ].



Ltac exit_step :=
  first
    [ apply never_exits_bind; [|intros ?]
    | apply never_exits_print
    | apply never_exits_lift
    | apply never_exits_ret
    | apply never_exits_makedirs
    | apply never_exits_write_file ].

Lemma train_and_save_never_exits (args : namespace) (df_proc : table)
  (target_col : string) :
  never_exits (train_and_save args df_proc target_col).
Proof.
  unfold train_and_save. exit_step; [exit_step|].
  exit_step; [exit_step|].
  match goal with a : (_ * _ * _ * _)%type |- _ =>
    destruct a as [[[X_train X_test] y_train] y_test] end.
  repeat exit_step.
Qed.

Lemma possible_none (df_proc : table) (target_col : string) :
  possible df_proc target_col = [] ->
  forall c, In c (columns df_proc) ->
    Py.startswith (Py.lower c) (normalise target_col) = false.
Proof.
  unfold possible. intros Hnil c Hc.
  destruct (Py.startswith (Py.lower c) (normalise target_col)) eqn:Hs;
    [|reflexivity].
  assert (Hin : In c (List.filter
                        (fun c => Py.startswith (Py.lower c)
                                                (normalise target_col))
                        (columns df_proc))) by now apply filter_In.
  rewrite Hnil in Hin. destruct Hin.
Qed.

(** The exit codes of the body of [main] and their causes. *)
Lemma main_exit_causes (args : namespace) (w : world) (code : Z) :
  fst (main args w) = inr (SysExit code) ->
  (code = 1%Z /\ fs w !! input args = None)
  \/ (code = 2%Z
      /\ exists df, fs w !! input args = Some (CsvFile df)
                    /\ find_target_column df (target args) = None)
  \/ (code = 3%Z
      /\ exists df target_col df_proc,
           fs w !! input args = Some (CsvFile df)
           /\ find_target_column df (target args) = Some target_col
           /\ basic_preprocess df target_col = Ok df_proc
           /\ ~ In target_col (columns df_proc)
           /\ forall c, In c (columns df_proc) ->
                Py.startswith (Py.lower c) (normalise target_col) = false).
Proof.
  unfold main. rewrite path_exists_bind.
  destruct (fs w !! input args) as [f|] eqn:Hf; cbn [negb].
  - rewrite print_bind, bind_run. unfold read_csv at 1. cbn [fs].
    rewrite Hf.
    destruct f as [df| | | | |]; try (intros Hx; discriminate Hx).
    rewrite print_bind.
    destruct (find_target_column df (target args)) as [target_col|] eqn:Hfind.
    + rewrite print_bind, bind_run. unfold lift at 1.
      destruct (basic_preprocess df target_col) as [df_proc|e] eqn:Hpre;
        [|intros Hx; discriminate Hx].
      destruct (has_column df_proc target_col) eqn:Hcol.
      * intros Hx. exfalso.
        exact (train_and_save_never_exits args df_proc target_col _ _ Hx).
      * destruct (possible df_proc target_col) as [|adjusted rest] eqn:Hposs.
        -- rewrite eprint_bind. intros [= <-]. right. right.
           split; [reflexivity|]. exists df, target_col, df_proc.
           split; [reflexivity|]. split; [exact Hfind|].
           split; [exact Hpre|]. split.
           ++ intros Hin. apply has_column_In in Hin. congruence.
           ++ now apply possible_none.
        -- rewrite print_bind. intros Hx. exfalso.
           exact (train_and_save_never_exits args df_proc adjusted _ _ Hx).
    + rewrite print_each_bind. intros [= <-]. right. left.
      split; [reflexivity|]. now exists df.
  - rewrite eprint_bind. intros [= <-]. left. now split.
Qed.

Context `{Argparse namespace}.

(** X8: a run that stops through [sys.exit] stops either in the argument
    parser, with the status the parser gives, or after it with code 1, 2
    or 3, and then each code tells its cause: 1 the input path does not
    exist, 2 the table was read and no target column was found, 3 the
    target label is not among the preprocessed columns and none of them
    starts, lowercased, with its normalised form.  Failures of reading,
    preprocessing, training or saving are uncaught exceptions, never exit
    codes. *)
Theorem run_exit_meaning (argv : list string) (w : world) (code : Z) :
  fst (run argv w) = inr (SysExit code) ->
  (exists e, parse_args (namespace := namespace) argv = inr e
             /\ exit_code e = code)
  \/ (exists args,
        parse_args (namespace := namespace) argv = inl args
        /\ ((code = 1%Z /\ fs w !! input args = None)
            \/ (code = 2%Z
                /\ exists df, fs w !! input args = Some (CsvFile df)
                              /\ find_target_column df (target args) = None)
            \/ (code = 3%Z
                /\ exists df target_col df_proc,
                     fs w !! input args = Some (CsvFile df)
                     /\ find_target_column df (target args) = Some target_col
                     /\ basic_preprocess df target_col = Ok df_proc
                     /\ ~ In target_col (columns df_proc)
                     /\ forall c, In c (columns df_proc) ->
                          Py.startswith (Py.lower c) (normalise target_col)
                          = false))).
Proof.
  unfold run. rewrite bind_run. unfold run_parser.
  destruct (parse_args (namespace := namespace) argv) as [args|e] eqn:Hparse.
  - intros Hexit. right. exists args. split; [reflexivity|].
    now apply main_exit_causes.
  - intros [= <-]. left. now exists e.
Qed.

End WithSklearn.


Lemma run_exit_meaning_witness :
  (exists e, parse_args (namespace := namespace)
                        ["-i"; "cars.csv"; "-o"; "out"] = inr e
             /\ exit_code e = 2%Z)
  \/ (exists args,
        parse_args (namespace := namespace) ["-i"; "cars.csv"; "-o"; "out"]
        = inl args
        /\ ((2 = 1 /\ fs (World {["cars.csv" := CsvFile lone_year]} [] [])
                        !! input args = None)%Z
            \/ (2 = 2
                /\ exists df,
                     fs (World {["cars.csv" := CsvFile lone_year]} [] [])
                        !! input args = Some (CsvFile df)
                     /\ find_target_column df (target args) = None)%Z
            \/ (2 = 3
                /\ exists df target_col df_proc,
                     fs (World {["cars.csv" := CsvFile lone_year]} [] [])
                        !! input args = Some (CsvFile df)
                     /\ find_target_column df (target args) = Some target_col
                     /\ basic_preprocess df target_col = Ok df_proc
                     /\ ~ In target_col (columns df_proc)
                     /\ forall c, In c (columns df_proc) ->
                          Py.startswith (Py.lower c) (normalise target_col)
                          = false)%Z)).
Proof.
  apply (run_exit_meaning (H := Reference.sklearn)
           (H0 := Reference.task3_parser)
           ["-i"; "cars.csv"; "-o"; "out"]
           (World {["cars.csv" := CsvFile lone_year]} [] [])).
  vm_compute. reflexivity.
Defined.

End Task3_runs.

(** ** What a completed run of the price-model script leaves *)

Module Task3_artifacts.
Import Task3 Run_facts.

Lemma append_inj_r (a x y : string) : a +:+ x = a +:+ y -> x = y.
Proof.
  induction a as [|c a IH]; simpl; [trivial|].
  intros [= Heq]. now apply IH.
Qed.

(** Different file names give different paths in one directory. *)
Lemma path_join_inj (dir x y : string) :
  path_join dir x = path_join dir y -> x = y.
Proof.
  unfold path_join. destruct (String.eqb dir EmptyString); [trivial|].
  destruct (Py.endswith dir "/"); intros Heq.
  - now apply append_inj_r in Heq.
  - now apply append_inj_r, append_inj_r in Heq.
Qed.

Section WithSklearn.
Context `{Sklearn}.

Ltac lift_ok :=
  rewrite bind_run; unfold lift at 1;
  match goal with
  | |- context [match ?r with Ok _ => _ | Raise _ => _ end] =>
      destruct r eqn:?; [|intros Hx; discriminate Hx]
  end.

Lemma train_and_save_artifacts (args : namespace) (df_proc : table)
  (target_col : string) (w w' : world) :
  train_and_save args df_proc target_col w = (inl tt, w') ->
  fs w' !! outdir args = Some Directory
  /\ (exists X_train y_train,
        fs w' !! path_join (outdir args) "rf_model.joblib"
        = Some (JoblibFile (Forest 100 (random_state args)
                                   (Some (X_train, y_train)))))
  /\ (exists text,
        fs w' !! path_join (outdir args) "metrics.txt" = Some (TextFile text)).
Proof.
  unfold train_and_save. lift_ok. lift_ok.
  match goal with a : (_ * _ * _ * _)%type |- _ =>
    destruct a as [[[X_train X_test] y_train] y_test] end.
  rewrite !print_bind. lift_ok. lift_ok. lift_ok. lift_ok.
  rewrite print_bind, bind_run.
  set (w1 := World _ _ _).
  assert (Hfs1 : fs w1 = fs w) by reflexivity.
  destruct (makedirs (outdir args) w1) as [[[]|h] w2] eqn:Hmk;
    [|intros Hx; discriminate Hx].
  assert (Hdir : fs w2 !! outdir args = Some Directory)
    by now apply makedirs_done in Hmk.
  rewrite bind_run.
  set (model_path := path_join (outdir args) "rf_model.joblib").
  set (metrics_path := path_join (outdir args) "metrics.txt").
  set (model := Forest 100 (random_state args) (Some (X_train, y_train))).
  destruct (write_file model_path (JoblibFile model) w2) as [[[]|h] w3] eqn:Hw3;
    [|intros Hx; discriminate Hx].
  assert (H3 : fs w3 = <[model_path := JoblibFile model]> (fs w2)
               /\ model_path <> outdir args).
  { unfold write_file in Hw3.
    destruct (fs w2 !! model_path) as [[]|] eqn:Hl; try discriminate Hw3;
      injection Hw3 as <-; (split; [reflexivity|]); intros Heq;
      rewrite Heq, Hdir in Hl; discriminate Hl. }
  destruct H3 as [Hfs3 Hne3].
  rewrite print_bind, bind_run.
  set (w4 := World (fs w3) _ _).
  match goal with
  | |- context [write_file metrics_path ?f w4] =>
      destruct (write_file metrics_path f w4) as [[[]|h] w5] eqn:Hw5;
        [|intros Hx; discriminate Hx]
  end.
  match type of Hw5 with
  | write_file _ ?f _ = _ =>
      assert (H5 : fs w5 = <[metrics_path := f]> (fs w3)
                   /\ metrics_path <> outdir args)
  end.
  { unfold write_file in Hw5.
    assert (Hd4 : fs w4 !! outdir args = Some Directory).
    { cbn [fs w4]. rewrite Hfs3, lookup_insert_ne by exact Hne3. exact Hdir. }
    destruct (fs w4 !! metrics_path) as [[]|] eqn:Hl; try discriminate Hw5;
      injection Hw5 as <-; (split; [reflexivity|]); intros Heq;
      rewrite Heq, Hd4 in Hl; discriminate Hl. }
  destruct H5 as [Hfs5 Hne5].
  intros [= <-]. cbn [fs]. rewrite Hfs5, Hfs3.
  assert (Hpaths : metrics_path <> model_path).
  { intros Heq. apply path_join_inj in Heq. discriminate Heq. }
  split; [|split].
  - now rewrite !lookup_insert_ne by assumption.
  - exists X_train, y_train.
    rewrite lookup_insert_ne by exact Hpaths. apply lookup_insert_eq.
  - eexists. apply lookup_insert_eq.
Qed.

(** X9: a run that completes had a readable input table and leaves the
    output directory, the fitted model of 100 trees with the given random
    state under rf_model.joblib, and a text file under metrics.txt. *)
Theorem main_completion (args : namespace) (w w' : world) :
  main args w = (inl tt, w') ->
  (exists df, fs w !! input args = Some (CsvFile df))
  /\ fs w' !! outdir args = Some Directory
  /\ (exists X_train y_train,
        fs w' !! path_join (outdir args) "rf_model.joblib"
        = Some (JoblibFile (Forest 100 (random_state args)
                                   (Some (X_train, y_train)))))
  /\ (exists text,
        fs w' !! path_join (outdir args) "metrics.txt" = Some (TextFile text)).
Proof.
  unfold main. rewrite path_exists_bind.
  destruct (fs w !! input args) as [f|] eqn:Hf; cbn [negb];
    [|rewrite eprint_bind; intros Hx; discriminate Hx].
  rewrite print_bind, bind_run. unfold read_csv at 1. cbn [fs]. rewrite Hf.
  destruct f as [df| | | | |]; try (intros Hx; discriminate Hx).
  rewrite print_bind.
  destruct (find_target_column df (target args)) as [target_col|];
    [|rewrite print_each_bind; intros Hx; discriminate Hx].
  rewrite print_bind. lift_ok.
  destruct (has_column _ target_col).
  - intros Hrun. split; [now exists df|].
    exact (train_and_save_artifacts _ _ _ _ _ Hrun).
  - destruct (possible _ target_col) as [|adjusted rest].
    + rewrite eprint_bind. intros Hx. discriminate Hx.
    + rewrite print_bind. intros Hrun. split; [now exists df|].
      exact (train_and_save_artifacts _ _ _ _ _ Hrun).
Qed.

End WithSklearn.

Lemma main_completion_witness :
  (exists df,
      fs (World {["cars.csv" := CsvFile cars]} [] []) !! "cars.csv"
      = Some (CsvFile df))
  /\ fs (snd (main (Namespace "cars.csv" "out" None 0.2%Q 42)
                   (World {["cars.csv" := CsvFile cars]} [] [])))
        !! "out" = Some Directory
  /\ (exists X_train y_train,
        fs (snd (main (Namespace "cars.csv" "out" None 0.2%Q 42)
                      (World {["cars.csv" := CsvFile cars]} [] [])))
           !! path_join "out" "rf_model.joblib"
        = Some (JoblibFile (Forest 100 42 (Some (X_train, y_train)))))
  /\ (exists text,
        fs (snd (main (Namespace "cars.csv" "out" None 0.2%Q 42)
                      (World {["cars.csv" := CsvFile cars]} [] [])))
           !! path_join "out" "metrics.txt" = Some (TextFile text)).
Proof.
  apply (main_completion (Namespace "cars.csv" "out" None 0.2%Q 42)
                         (World {["cars.csv" := CsvFile cars]} [] [])).
  vm_compute. reflexivity.
Defined.

End Task3_artifacts.

(** ** Further properties of the labour-series script (Task2.py) *)

Module Task2_more.
Import Task2 Task2_spec Task2_facts.

Local Arguments String.append !s1 s2 : simpl nomatch.

(** *** The cleaner, on text *)

Lemma remove_chars_length (cs : list ascii) (s : string) :
  (String.length (remove_chars cs s) <= String.length s)%nat.
Proof.
  induction s as [|c s IH]; simpl; [lia|].
  destruct (existsb (Ascii.eqb c) cs); simpl; lia.
Qed.

Lemma remove_chars_again (cs : list ascii) (s : string) :
  remove_chars cs (remove_chars cs s) = remove_chars cs s.
Proof.
  induction s as [|c s IH]; [reflexivity|]. simpl.
  destruct (existsb (Ascii.eqb c) cs) eqn:Hc; [exact IH|].
  simpl. now rewrite Hc, IH.
Qed.

Lemma remove_chars_app (cs : list ascii) (a b : string) :
  remove_chars cs (a +:+ b) = remove_chars cs a +:+ remove_chars cs b.
Proof.
  induction a as [|c a IH]; [reflexivity|]. simpl.
  destruct (existsb (Ascii.eqb c) cs); simpl; now rewrite IH.
Qed.

Lemma append_length (a b : string) :
  String.length (a +:+ b) = (String.length a + String.length b)%nat.
Proof. induction a as [|c a IH]; simpl; [reflexivity | now rewrite IH]. Qed.

Lemma remove_chars_same_length (cs : list ascii) (s : string) :
  String.length (remove_chars cs s) = String.length s ->
  remove_chars cs s = s.
Proof.
  induction s as [|c s IH]; [reflexivity|]. simpl.
  destruct (existsb (Ascii.eqb c) cs); simpl.
  - pose proof (remove_chars_length cs s). lia.
  - intros [= Hl]. now rewrite IH.
Qed.

(** A part of a text free of the characters is free of them. *)
Lemma remove_chars_part (cs : list ascii) (l y r : string) :
  remove_chars cs (l +:+ y +:+ r) = l +:+ y +:+ r -> remove_chars cs y = y.
Proof.
  intros Heq. apply remove_chars_same_length.
  apply (f_equal String.length) in Heq.
  rewrite !remove_chars_app, !append_length in Heq.
  pose proof (remove_chars_length cs l).
  pose proof (remove_chars_length cs y).
  pose proof (remove_chars_length cs r). lia.
Qed.

(** X10: cleaning the text of a cell a second time changes nothing: the
    cleaned text holds no "%" and no ",", and neither starts nor ends with
    whitespace. *)
Theorem clean_cell_idempotent (x : string) :
  clean_cell (clean_cell x) = clean_cell x.
Proof.
  symmetry. apply stripped_of_unique.
  destruct (clean_cell_stripped x) as (l & r & Heq & _ & _ & Htight).
  exists EmptyString, EmptyString. rewrite append_empty_r.
  split; [|split; [exact I | split; [exact I | exact Htight]]].
  cbn [String.append].
  apply (remove_chars_part _ l _ r). rewrite <- Heq.
  apply remove_chars_again.
Qed.

(** *** The detectors answer with a label of the table *)

Lemma first_containing_In (key : string) (cols : list string) (c : string) :
  first_containing key cols = Some c ->
  In c cols /\ Py.contains key (Py.lower c) = true.
Proof.
  induction cols as [|x cols IH]; simpl; [discriminate|].
  destruct (Py.contains key (Py.lower x)) eqn:Hx.
  - intros [= <-]. split; [now left | exact Hx].
  - intros Hc. destruct (IH Hc). split; [now right | assumption].
Qed.

Lemma scan_keywords_In (keys cols : list string) (c : string) :
  scan_keywords keys cols = Some c ->
  In c cols /\ exists key, In key keys /\ Py.contains key (Py.lower c) = true.
Proof.
  induction keys as [|k keys IH]; simpl; [discriminate|].
  destruct (first_containing k cols) as [c'|] eqn:Hk.
  - intros [= <-]. apply first_containing_In in Hk as [Hin Hc].
    split; [exact Hin|]. exists k. split; [now left | exact Hc].
  - intros Hc. destruct (IH Hc) as (Hin & key & Hkey & Hcont).
    split; [exact Hin|]. exists key. split; [now right | exact Hcont].
Qed.

Section WithPandas.
Context `{Pandas}.

Lemma scan_candidates_In (df : table) (cands : list string) (c : string) :
  scan_candidates df cands = Some c -> In c cands /\ In c (columns df).
Proof.
  induction cands as [|x cands IH]; [discriminate|].
  cbn [scan_candidates].
  destruct (has_column df x) eqn:Hx;
    [|intros Hc; destruct (IH Hc); split; [now right | assumption]].
  destruct (sel ← getitem df x; to_datetime sel) as [parsed|e];
    [|intros Hc; destruct (IH Hc); split; [now right | assumption]].
  destruct (nrows df <? 4 * notna_sum parsed)%nat;
    [|intros Hc; destruct (IH Hc); split; [now right | assumption]].
  intros [= <-]. split; [now left | now apply has_column_In].
Qed.

Lemma scan_fallback_In (df : table) (names : list string) (c : string) :
  scan_fallback df names = Ok c -> In c names.
Proof.
  induction names as [|x names IH]; [discriminate|].
  cbn [scan_fallback].
  destruct (getitem df x) as [sel|e]; [|discriminate].
  cbn [mbind result_bind].
  destruct (is_numeric_dtype sel); [intros Hc; right; now apply IH|].
  destruct (to_datetime sel) as [parsed|e]; [|discriminate].
  cbn [mbind result_bind].
  destruct (nrows df <? 2 * notna_sum parsed)%nat.
  - intros [= <-]. now left.
  - intros Hc. right. now apply IH.
Qed.

Lemma scan_numeric_In (df : table) (names : list string) (c : string) :
  scan_numeric df names = Ok c -> In c names.
Proof.
  induction names as [|x names IH]; [discriminate|].
  cbn [scan_numeric].
  destruct (sel ← getitem df x; to_numeric_ignore sel) as [s|e].
  - intros [= <-]. now left.
  - intros Hc. right. now apply IH.
Qed.

Lemma provided_present_In (df : table) (p : string) :
  provided_present df (Some p) = true -> In p (columns df).
Proof.
  unfold provided_present. rewrite andb_true_iff.
  intros [_ Hc]. now apply has_column_In.
Qed.

(** The test of the provided name, which both detectors start with. *)
Lemma override_label (df : table) (provided : option string)
  (auto : result string) (c : string) :
  match provided with
  | Some p => if provided_present df provided then Ok p else auto
  | None => auto
  end = Ok c ->
  (auto = Ok c -> In c (columns df)) -> In c (columns df).
Proof.
  intros Hd Hauto. destruct provided as [p|]; [|now apply Hauto].
  destruct (provided_present df (Some p)) eqn:Hp; [|now apply Hauto].
  injection Hd as <-. now apply provided_present_In.
Qed.

Lemma detect_date_auto_In (df : table) (c : string) :
  detect_date_auto df = Ok c -> In c (columns df).
Proof.
  unfold detect_date_auto.
  destruct (scan_candidates df DATE_CANDIDATES) as [c'|] eqn:Hs.
  - intros [= <-]. now apply scan_candidates_In in Hs.
  - apply scan_fallback_In.
Qed.

Lemma detect_rate_auto_In (df : table) (c : string) :
  detect_rate_auto df = Ok c -> In c (columns df).
Proof.
  unfold detect_rate_auto.
  destruct (scan_keywords RATE_KEYWORDS (columns df)) as [c'|] eqn:Hs.
  - intros [= <-]. now apply scan_keywords_In in Hs.
  - apply scan_numeric_In.
Qed.

(** X11: a date column that the detector returns is a label of the table,
    whether it comes from the provided name, the candidate names or the
    scan of all columns. *)
Theorem detect_date_column_is_column (df : table) (provided : option string)
  (c : string) :
  detect_date_column df provided = Ok c -> In c (columns df).
Proof.
  intros Hd. exact (override_label _ _ _ _ Hd (detect_date_auto_In df c)).
Qed.

(** X12: a rate column that the detector returns is a label of the table,
    whether it comes from the provided name, a keyword or the numeric
    fallback. *)
Theorem detect_rate_column_is_column (df : table) (provided : option string)
  (c : string) :
  detect_rate_column df provided = Ok c -> In c (columns df).
Proof.
  intros Hd. exact (override_label _ _ _ _ Hd (detect_rate_auto_In df c)).
Qed.

(** X13: when the coercion under [errors="ignore"] raises on no series,
    the numeric fallback tests nothing: on a table whose labels do not
    repeat, with no usable provided name and no keyword in any label, the
    detector returns the first column, whatever it holds. *)
Theorem detect_rate_column_fallback_first (df : table)
  (provided : option string) (c : string) (rest : list string) :
  (forall col, exists s, to_numeric_ignore (Series col) = Ok s) ->
  List.NoDup (columns df) ->
  ~ override_applies provided (columns df) ->
  (forall k, In k RATE_KEYWORDS -> keyword_absent k (columns df)) ->
  columns df = c :: rest ->
  detect_rate_column df provided = Ok c.
Proof.
  intros Hlib Hnd Hno Hkeys Hcols.
  assert (Hauto : detect_rate_auto df = Ok c).
  { unfold detect_rate_auto.
    rewrite (proj1 (scan_keywords_none RATE_KEYWORDS (columns df)) Hkeys).
    rewrite Hcols. cbn [scan_numeric].
    assert (Hin : In c (columns df)) by (rewrite Hcols; now left).
    apply column_of_label in Hin as [col Hin].
    rewrite (getitem_unique df c col Hnd Hin). cbn [mbind result_bind].
    now destruct (Hlib col) as [s ->]. }
  unfold detect_rate_column. destruct provided as [p|]; [|exact Hauto].
  now rewrite (provided_present_not df (Some p) Hno).
Qed.

End WithPandas.

Lemma detect_date_column_is_column_witness :
  In "Date" (columns labour).
Proof.
  apply (detect_date_column_is_column (H := Reference.pandas) labour None).
  vm_compute. reflexivity.
Defined.

Lemma detect_rate_column_is_column_witness :
  In " Estimated Unemployment Rate (%)" (columns labour).
Proof.
  apply (detect_rate_column_is_column (H := Reference.pandas) labour None).
  vm_compute. reflexivity.
Defined.

Lemma detect_rate_column_fallback_first_witness :
  detect_rate_column (H := Reference.pandas)
    [("Region", ObjCol [Some "North"; Some "South"]);
     ("Jobless", NumCol [Some 5.5%Q; Some 7.1%Q])]
    None = Ok "Region".
Proof.
  apply (detect_rate_column_fallback_first (H := Reference.pandas)
           [("Region", ObjCol [Some "North"; Some "South"]);
            ("Jobless", NumCol [Some 5.5%Q; Some 7.1%Q])]
           None "Region" ["Jobless"]).
  - intros col. now exists (Series col).
  - repeat constructor; simpl; intuition discriminate.
  - intros (p & Hp & _). discriminate Hp.
  - intros k Hk c Hc.
    destruct Hk as [<-|[<-|[<-|[]]]];
      destruct Hc as [<-|[<-|[]]]; vm_compute; reflexivity.
  - reflexivity.
Defined.

End Task2_more.

(** ** The prepared table (Task2.py, [prepare_dataframe]) *)

Module Task2_prepare.
Import Task2 Task2_spec Task2_facts Task2_series Task2_more Run_facts.

Local Arguments String.append !s1 s2 : simpl nomatch.

Lemma endswith_append (a p : string) : Py.endswith (a +:+ p) p = true.
Proof.
  induction a as [|c a IH]; simpl.
  - destruct p as [|c p]; simpl; [reflexivity|].
    now rewrite String.eqb_refl, Ascii.eqb_refl.
  - rewrite IH. apply orb_true_r.
Qed.

Lemma setitem_columns (df : table) (name : string) (v : column) :
  columns (setitem df name v)
  = if has_column df name then columns df else columns df ++ [name].
Proof.
  unfold setitem. destruct (has_column df name); unfold columns.
  - rewrite map_map. apply map_ext. intros [c x]. cbn [fst].
    now destruct (String.eqb name c).
  - now rewrite map_app.
Qed.

Lemma setitem_columns_In (df : table) (name : string) (v : column)
  (c : string) :
  In c (columns (setitem df name v)) <-> In c (columns df) \/ c = name.
Proof.
  rewrite setitem_columns. destruct (has_column df name) eqn:Hc.
  - apply has_column_In in Hc. split; [now left|].
    intros [Hin| ->]; assumption.
  - rewrite in_app_iff. simpl. intuition.
Qed.

Lemma strip_columns_labels (df0 : table) :
  columns (strip_columns df0) = map Py.strip (columns df0).
Proof. unfold strip_columns, columns. now rewrite !map_map. Qed.

Local Arguments String.append : simpl never.

Section WithPandas.
Context `{Pandas}.

Ltac lift_ok :=
  rewrite bind_run; unfold lift at 1;
  match goal with
  | |- context [match ?r with Ok _ => _ | Raise _ => _ end] =>
      destruct r eqn:?; [|intros Hx; discriminate Hx]
  end.

(** The steps of a call that returns, as [main] makes it: the table read,
    the two detections and the four assignments. *)
Lemma prepare_dataframe_steps (path : string) (dc rc : option string)
  (w w' : world) (df : table) :
  prepare_dataframe path dc None None rc w = (inl df, w') ->
  w' = w
  /\ exists df0 dcol parsed year month rcol cleaned,
       fs w !! path = Some (CsvFile df0)
       /\ detect_date_column (strip_columns df0) dc = Ok dcol
       /\ detect_rate_column
            (setitem (setitem (setitem (strip_columns df0) dcol parsed)
                              "Year" (NumCol year)) "Month" (NumCol month))
            rc = Ok rcol
       /\ df = setitem
                 (setitem (setitem (setitem (strip_columns df0) dcol parsed)
                                   "Year" (NumCol year)) "Month" (NumCol month))
                 (rcol +:+ "_clean") (NumCol cleaned).
Proof.
  unfold prepare_dataframe. rewrite bind_run. unfold read_csv at 1.
  destruct (fs w !! path) as [[df0| | | | |]|] eqn:Hf;
    try (intros Hx; discriminate Hx).
  cbn [opt_in_columns andb].
  lift_ok. lift_ok. lift_ok. lift_ok. lift_ok.
  unfold lift.
  match goal with
  | |- context [add_clean_column ?d ?r] =>
      destruct (add_clean_column d r) as [out|e] eqn:Hadd;
        [|intros Hx; discriminate Hx]
  end.
  intros [= <- <-]. split; [reflexivity|].
  unfold add_clean_column in Hadd.
  match type of Hadd with
  | context [getitem ?d ?r] => destruct (getitem d r) as [sel|e]; [|discriminate Hadd]
  end.
  cbn [mbind result_bind] in Hadd.
  destruct sel as [col|cs]; [|discriminate Hadd].
  cbn [clean_rate_series mbind result_bind] in Hadd.
  injection Hadd as <-.
  repeat match goal with
  | Hd : (sel ← getitem ?d ?c; dt_field ?f sel) = Ok ?x |- _ =>
      let s := fresh "s" in
      destruct (getitem d c) as [s|] eqn:?; [|discriminate Hd];
      cbn [mbind result_bind] in Hd;
      destruct s as [[]|]; try discriminate Hd;
      cbn [dt_field] in Hd; injection Hd as <-
  end.
  do 7 eexists. split; [reflexivity|]. split; [eassumption|].
  split; [eassumption | reflexivity].
Qed.

(** X14: a call that returns has only read: the files and both output
    streams are as before; the table it returns has a Year and a Month
    column and, under the label of the rate column followed by _clean, the
    cleaned rates, so that the search of [main] for a label ending in
    _clean finds one. *)
Theorem prepare_dataframe_adds_columns (path : string) (dc rc : option string)
  (w w' : world) (df : table) :
  prepare_dataframe path dc None None rc w = (inl df, w') ->
  w' = w
  /\ In "Year" (columns df) /\ In "Month" (columns df)
  /\ exists rcol,
       In rcol (columns df)
       /\ In (rcol +:+ "_clean")
             (List.filter (fun c => Py.endswith c "_clean") (columns df)).
Proof.
  intros Hrun. apply prepare_dataframe_steps in Hrun
    as (-> & df0 & dcol & parsed & year & month & rcol & cleaned
        & _ & _ & Hrate & ->).
  split; [reflexivity|].
  apply override_label in Hrate; [|apply detect_rate_auto_In].
  split; [|split].
  - apply setitem_columns_In. left. apply setitem_columns_In. left.
    apply setitem_columns_In. now right.
  - apply setitem_columns_In. left. apply setitem_columns_In. now right.
  - exists rcol. split.
    + apply setitem_columns_In. now left.
    + apply filter_In. split; [|apply endswith_append].
      apply setitem_columns_In. now right.
Qed.

(** X15: the table returned carries the stripped labels of the table read
    and besides them at most Year, Month and the cleaned-rate label; a
    column under any other label than the date column and these three holds
    the cells it held in the file. *)
Theorem prepare_dataframe_keeps_columns (path : string)
  (dc rc : option string) (w w' : world) (df : table) :
  prepare_dataframe path dc None None rc w = (inl df, w') ->
  exists df0 dcol rcol,
    fs w !! path = Some (CsvFile df0)
    /\ In dcol (map Py.strip (columns df0))
    /\ (forall c,
          In c (columns df)
          <-> In c (map Py.strip (columns df0)) \/ c = "Year" \/ c = "Month"
              \/ c = rcol +:+ "_clean")
    /\ (forall c col,
          c <> dcol -> c <> "Year" -> c <> "Month" -> c <> rcol +:+ "_clean" ->
          In (c, col) df <-> In (c, col) (strip_columns df0)).
Proof.
  intros Hrun. apply prepare_dataframe_steps in Hrun
    as (-> & df0 & dcol & parsed & year & month & rcol & cleaned
        & Hfile & Hdate & Hrate & ->).
  exists df0, dcol, rcol. split; [exact Hfile|].
  apply override_label in Hdate; [|apply detect_date_auto_In].
  rewrite <- strip_columns_labels.
  split; [exact Hdate|]. split.
  - intros c. rewrite !setitem_columns_In. split.
    + intros [[[[Hc| ->]| ->]| ->]| ->]; auto.
    + intros [Hc|[->|[->| ->]]]; auto.
  - intros c col Hd Hy Hm Hr.
    now rewrite !setitem_In_other by assumption.
Qed.

(** X16: when the column taken as the date column is labelled Year, the
    call ends in an AttributeError: the years written under that label
    replace the parsed dates, and the months are then asked of numbers. *)
Theorem prepare_dataframe_date_column_year (path : string)
  (dc rc : option string) (w : world) (df0 : table) :
  fs w !! path = Some (CsvFile df0) ->
  List.NoDup (columns (strip_columns df0)) ->
  detect_date_column (strip_columns df0) dc = Ok "Year" ->
  prepare_dataframe path dc None None rc w = (inr (Uncaught AttributeError), w).
Proof.
  intros Hfile Hnd Hdate. unfold prepare_dataframe.
  rewrite (read_csv_bind _ df0) by exact Hfile.
  cbn [opt_in_columns andb].
  rewrite (lift_bind _ "Year") by exact Hdate.
  pose proof (override_label _ _ _ _ Hdate (detect_date_auto_In _ _)) as Hlab.
  apply column_of_label in Hlab as [col Hin].
  set (df := strip_columns df0) in *.
  set (parsed := DateCol (to_datetime_coerce col)).
  rewrite (lift_bind _ parsed)
    by now rewrite (getitem_unique df "Year" col Hnd Hin).
  set (df1 := setitem df "Year" parsed).
  assert (Hnd1 : List.NoDup (columns df1)) by now apply setitem_NoDup.
  rewrite (lift_bind _ (NumCol (map (fun x => match x with
                                             | Some t => Some (inject_Z (ts_year t))
                                             | None => None
                                             end) (to_datetime_coerce col))))
    by now rewrite (getitem_unique df1 "Year" parsed Hnd1
                      (setitem_In_same df "Year" parsed)).
  match goal with
  | |- context [setitem df1 "Year" ?y] => set (year := y)
  end.
  apply lift_bind_raise.
  rewrite (getitem_unique (setitem df1 "Year" year) "Year" year
             (setitem_NoDup df1 "Year" year Hnd1)
             (setitem_In_same df1 "Year" year)).
  reflexivity.
Qed.

End WithPandas.

Lemma prepare_dataframe_adds_columns_witness :
  World {["u.csv" := CsvFile labour]} [] []
  = World {["u.csv" := CsvFile labour]} [] []
  /\ In "Year" (columns labour_prepared)
  /\ In "Month" (columns labour_prepared)
  /\ exists rcol,
       In rcol (columns labour_prepared)
       /\ In (rcol +:+ "_clean")
             (List.filter (fun c => Py.endswith c "_clean")
                          (columns labour_prepared)).
Proof.
  apply (prepare_dataframe_adds_columns (H := Reference.pandas)
           "u.csv" None None
           (World {["u.csv" := CsvFile labour]} [] [])
           (World {["u.csv" := CsvFile labour]} [] []) labour_prepared).
  vm_compute. reflexivity.
Defined.

Lemma prepare_dataframe_keeps_columns_witness :
  exists df0 dcol rcol,
    fs (World {["u.csv" := CsvFile labour]} [] []) !! "u.csv"
    = Some (CsvFile df0)
    /\ In dcol (map Py.strip (columns df0))
    /\ (forall c,
          In c (columns labour_prepared)
          <-> In c (map Py.strip (columns df0)) \/ c = "Year" \/ c = "Month"
              \/ c = rcol +:+ "_clean")
    /\ (forall c col,
          c <> dcol -> c <> "Year" -> c <> "Month" -> c <> rcol +:+ "_clean" ->
          In (c, col) labour_prepared <-> In (c, col) (strip_columns df0)).
Proof.
  apply (prepare_dataframe_keeps_columns (H := Reference.pandas)
           "u.csv" None None
           (World {["u.csv" := CsvFile labour]} [] [])
           (World {["u.csv" := CsvFile labour]} [] []) labour_prepared).
  vm_compute. reflexivity.
Defined.

Lemma prepare_dataframe_date_column_year_witness :
  prepare_dataframe (H := Reference.pandas) "u.csv" (Some "Year") None None None
    (World {["u.csv" := CsvFile prepared]} [] [])
  = (inr (Uncaught AttributeError),
     World {["u.csv" := CsvFile prepared]} [] []).
Proof.
  apply (prepare_dataframe_date_column_year (H := Reference.pandas)
           "u.csv" (Some "Year") None
           (World {["u.csv" := CsvFile prepared]} [] []) prepared).
  - reflexivity.
  - repeat constructor; simpl; intuition discriminate.
  - vm_compute. reflexivity.
Defined.

End Task2_prepare.

(** ** The ends of the monthly series (Task2.py, [monthly_timeseries]) *)

Module Task2_gaps.
Import Task2 Task2_spec Task2_series.

Section WithPandas.
Context `{Pandas}.

Lemma fold_min_In (i0 : Z) (rest : list Z) :
  In (fold_right Z.min i0 rest) (i0 :: rest).
Proof.
  induction rest as [|j rest IH]; cbn [fold_right]; [now left|].
  destruct (Z.min_spec j (fold_right Z.min i0 rest)) as [[_ ->]|[_ ->]].
  - right. now left.
  - destruct IH as [<-|Hin]; [now left | right; now right].
Qed.

Lemma fold_max_In (i0 : Z) (rest : list Z) :
  In (fold_right Z.max i0 rest) (i0 :: rest).
Proof.
  induction rest as [|j rest IH]; cbn [fold_right]; [now left|].
  destruct (Z.max_spec j (fold_right Z.max i0 rest)) as [[_ ->]|[_ ->]].
  - destruct IH as [<-|Hin]; [now left | right; now right].
  - right. now left.
Qed.

(** Every month counted comes from a stamped row. *)
Lemma index_row (rows : list (option timestamp * option Q)) (i : Z) :
  In i (omap (fun r => month_index <$> fst r) rows) ->
  exists t x, In (Some t, x) rows /\ month_index t = i.
Proof.
  intros Hin.
  apply list_elem_of_In, list_elem_of_omap in Hin as ([[t|] x] & Hrow & Hi);
    [|discriminate Hi].
  cbn in Hi. injection Hi as <-. exists t, x.
  split; [now apply list_elem_of_In | reflexivity].
Qed.

(** The month of a row with a stamp and a value has values. *)
Lemma bin_value (rows : list (option timestamp * option Q)) (t : timestamp)
  (r : Q) :
  In (Some t, Some r) rows -> bin_values (month_index t) rows <> [].
Proof.
  intros Hin.
  assert (Hr : In r (bin_values (month_index t) rows)).
  { apply list_elem_of_In, list_elem_of_omap. exists (Some t, Some r).
    split; [now apply list_elem_of_In|]. cbn [fst snd].
    now rewrite Z.eqb_refl. }
  intros Hnil. rewrite Hnil in Hr. destruct Hr.
Qed.

(** When every row has a value, the resampled series starts and ends with
    a month that has values. *)
Lemma resample_ends (rows : list (option timestamp * option Q)) :
  (forall t x, In (t, x) rows -> x <> None) ->
  forall t v,
    head (resample_MS_mean rows) = Some (t, v)
    \/ last (resample_MS_mean rows) = Some (t, v) ->
    t = month_start (month_index t)
    /\ bin_values (month_index t) rows <> [].
Proof.
  intros Hfull t v. unfold resample_MS_mean.
  destruct (omap (fun r => month_index <$> fst r) rows) as [|i0 rest] eqn:Hidx;
    [intros [Hx|Hx]; discriminate Hx|].
  pose proof (fold_min_In i0 rest) as Hlo.
  pose proof (fold_max_In i0 rest) as Hhi.
  pose proof (fold_min_max_bounds i0 rest i0 (or_introl eq_refl)) as Hle.
  set (lo := fold_right Z.min i0 rest) in *.
  set (hi := fold_right Z.max i0 rest) in *.
  assert (Hval : forall i, In i (i0 :: rest) -> bin_values i rows <> []).
  { intros i Hi. rewrite <- Hidx in Hi.
    apply index_row in Hi as (t' & x & Hin & <-).
    destruct x as [r|]; [now apply (bin_value rows t' r)|].
    exfalso. now apply (Hfull _ _ Hin). }
  intros [Hh|Hl].
  - rewrite seqZ_cons in Hh by lia. cbn [map head] in Hh.
    injection Hh as <- _. rewrite month_index_start.
    split; [reflexivity | now apply Hval].
  - rewrite last_lookup in Hl.
    change (map ?f ?l) with (f <$> l) in Hl.
    rewrite list_lookup_fmap, length_fmap, length_seqZ in Hl.
    rewrite lookup_seqZ_lt in Hl by lia.
    cbn [fmap option_fmap option_map] in Hl. injection Hl as <- _.
    replace (lo + Z.of_nat (Init.Nat.pred (Z.to_nat (hi - lo + 1))))%Z
      with hi by lia.
    rewrite month_index_start. split; [reflexivity | now apply Hval].
Qed.

(** X17: without a Year column, a Month column or the rate column the
    aggregation raises a KeyError. *)
Theorem monthly_timeseries_missing_label (df : table) (col : string) :
  ~ (In "Year" (columns df) /\ In "Month" (columns df) /\ In col (columns df)) ->
  monthly_timeseries df col = Raise KeyError.
Proof.
  intros Hn. unfold monthly_timeseries, dropna.
  destruct (forallb (has_column df) ["Year"; "Month"; col]) eqn:Hall;
    [|reflexivity].
  exfalso. apply Hn. cbn [forallb] in Hall.
  rewrite !andb_true_iff in Hall. destruct Hall as (Hy & Hm & Hc & _).
  rewrite <- !has_column_In. now repeat split.
Qed.

(** X18: under the conditions of the contract of the aggregation, the
    series is empty exactly when no row has a value in all three cells;
    otherwise its first and its last entry are months in which such rows
    fall, so that months without rows lie only between months that have
    them. *)
Theorem monthly_timeseries_ends (df : table) (col : string)
  (ycol mcol : column) (rs : list (option Q)) :
  List.NoDup (columns df) -> rectangular df ->
  In ("Year", ycol) df -> In ("Month", mcol) df -> In (col, NumCol rs) df ->
  col <> "day" -> col <> "dt" ->
  (forall i r,
     filled ycol !! i = Some true -> filled mcol !! i = Some true ->
     rs !! i = Some (Some r) ->
     exists y m Y M,
       readings ycol !! i = Some (Some y)
       /\ readings mcol !! i = Some (Some m)
       /\ calendar_month y m Y M) ->
  exists s,
    monthly_timeseries df col = Ok s
    /\ (s = [] <->
        forall i r,
          ~ (filled ycol !! i = Some true /\ filled mcol !! i = Some true
             /\ rs !! i = Some (Some r)))
    /\ (forall t v, head s = Some (t, v) \/ last s = Some (t, v) ->
          month_rates (readings ycol) (readings mcol) rs
                      (ts_year t) (ts_month t) <> []).
Proof.
  intros Hnd Hrect Hy Hm Hr Hday Hdt Hread.
  pose proof (rows_calendar ycol mcol rs Hread) as Hcal.
  rewrite (monthly_timeseries_unfold df col ycol mcol rs Hnd Hrect Hy Hm Hr
             Hday Hdt Hread).
  set (ys := readings ycol) in *. set (ms := readings mcol) in *.
  set (kept := List.filter qualifies (rows3 ys ms rs)).
  set (stamped := map (fun row => (stamp_of row, snd (snd row))) kept).
  eexists. split; [reflexivity|]. split; [split|].
  - intros Hempty i r (Hfy & Hfm & Hri).
    destruct (Hread i r Hfy Hfm Hri) as (y & m & _ & _ & Hyi & Hmi & _).
    assert (Hin : In (Some y, (Some m, Some r)) (rows3 ys ms rs)).
    { apply list_elem_of_In, list_elem_of_lookup. exists i.
      rewrite rows3_lookup. now rewrite Hyi, Hmi, Hri. }
    assert (Hst : In (stamp_of (Some y, (Some m, Some r)), Some r) stamped).
    { unfold stamped. apply in_map_iff. exists (Some y, (Some m, Some r)).
      split; [reflexivity|]. apply filter_In. now split. }
    cbn [stamp_of] in Hst. apply resample_covers in Hst.
    rewrite Hempty in Hst. destruct Hst.
  - intros Hnone. unfold stamped.
    destruct kept as [|[y [m r]] kept'] eqn:Hkept; [reflexivity|].
    exfalso.
    assert (Hin : In (y, (m, r)) kept) by (rewrite Hkept; now left).
    apply filter_In in Hin as [Hin Hq].
    destruct (qualifies_present y m r Hq) as (y' & m' & r' & -> & -> & ->).
    apply list_elem_of_In, list_elem_of_lookup in Hin as [i Hi].
    rewrite rows3_lookup in Hi.
    destruct (ys !! i) as [y0|] eqn:Hyi; [|discriminate Hi].
    destruct (ms !! i) as [m0|] eqn:Hmi; [|discriminate Hi].
    destruct (rs !! i) as [r0|] eqn:Hri; [|discriminate Hi].
    cbn [mbind option_bind] in Hi. injection Hi as -> -> ->.
    apply (Hnone i r'). split; [exact (readings_filled ycol i y' Hyi)|].
    split; [exact (readings_filled mcol i m' Hmi) | exact Hri].
  - intros t v Hends. apply resample_ends in Hends as [Ht Hbin].
    + remember (month_index t) as i eqn:Hi. clear Hi. subst t.
      fold stamped in Hbin. unfold stamped, kept in Hbin.
      rewrite (bin_values_month_rates ys ms rs i Hcal) in Hbin. exact Hbin.
    + intros t' x Hin.
      apply in_map_iff in Hin as ([y [m r]] & [= _ <-] & Hin).
      apply filter_In in Hin as [_ Hq].
      destruct (qualifies_present y m r Hq) as (y' & m' & r' & _ & _ & ->).
      discriminate.
Qed.

End WithPandas.

Lemma monthly_timeseries_missing_label_witness :
  monthly_timeseries lone_year "rate_clean" = Raise KeyError.
Proof.
  apply monthly_timeseries_missing_label.
  intros (_ & [Hm|[]] & _). discriminate Hm.
Defined.

Lemma monthly_timeseries_ends_witness :
  exists s,
    monthly_timeseries prepared "rate_clean" = Ok s
    /\ (s = [] <->
        forall i r,
          ~ (filled (NumCol [Some 2020%Q; Some 2020%Q; Some 2020%Q; None]) !! i
             = Some true
             /\ filled (NumCol [Some 1%Q; Some 1%Q; Some 3%Q; None]) !! i
                = Some true
             /\ [Some (11 # 2)%Q; Some (13 # 2)%Q; Some (71 # 10)%Q; Some 8%Q]
                  !! i = Some (Some r)))
    /\ (forall t v, head s = Some (t, v) \/ last s = Some (t, v) ->
          month_rates
            (readings (NumCol [Some 2020%Q; Some 2020%Q; Some 2020%Q; None]))
            (readings (NumCol [Some 1%Q; Some 1%Q; Some 3%Q; None]))
            [Some (11 # 2)%Q; Some (13 # 2)%Q; Some (71 # 10)%Q; Some 8%Q]
            (ts_year t) (ts_month t) <> []).
Proof.
  apply (monthly_timeseries_ends (H := Reference.pandas) prepared "rate_clean").
  - repeat constructor; simpl; intuition discriminate.
  - intros c col [[= <- <-]|[[= <- <-]|[[= <- <-]|[]]]]; reflexivity.
  - now left.
  - right. now left.
  - right. right. now left.
  - discriminate.
  - discriminate.
  - intros [|[|[|[|i]]]] r Hfy Hfm Hr; try discriminate Hfy.
    + exists 2020%Q, 1%Q, 2020%Z, 1%Z.
      split; [reflexivity|]. split; [reflexivity|].
      repeat split; try reflexivity; lia.
    + exists 2020%Q, 1%Q, 2020%Z, 1%Z.
      split; [reflexivity|]. split; [reflexivity|].
      repeat split; try reflexivity; lia.
    + exists 2020%Q, 3%Q, 2020%Z, 3%Z.
      split; [reflexivity|]. split; [reflexivity|].
      repeat split; try reflexivity; lia.
Defined.

End Task2_gaps.

(** ** Runs of the labour-series script (Task2.py) *)

Module Task2_runs.
Import Task2 Run_facts Task3_artifacts Task2_prepare.

Local Arguments String.append : simpl never.

Section WithPandas.
Context `{Pandas}.

Ltac frame_step :=
  first
    [ apply writes_within_bind; [|intros ?]
    | apply writes_within_print
    | apply writes_within_lift
    | apply writes_within_read_csv
    | apply writes_within_ret
    | apply writes_within_makedirs;
        [now left | intros ? ?; right; apply in_or_app; now left]
    | apply writes_within_write_file;
        right; apply in_or_app; right; simpl; tauto ].

Ltac exit_step :=
  first
    [ apply never_exits_bind; [|intros ?]
    | apply never_exits_print
    | apply never_exits_lift
    | apply never_exits_ret
    | apply never_exits_read_csv
    | apply never_exits_makedirs
    | apply never_exits_write_file ].


Lemma prepare_dataframe_never_exits (path : string)
  (dc yc mc rc : option string) :
  never_exits (prepare_dataframe path dc yc mc rc).
Proof.
  unfold prepare_dataframe. exit_step; [exit_step|].
  match goal with |- never_exits (if ?b then _ else _) => destruct b end.
  - destruct rc as [r|]; [|exit_step].
    match goal with |- never_exits (if ?b then _ else _) => destruct b end;
      exit_step.
  - repeat exit_step.
Qed.


Lemma main_never_exits (args : namespace) : never_exits (main args).
Proof.
  unfold main, plot_monthly. exit_step; [exit_step|].
  exit_step; [apply prepare_dataframe_never_exits|].
  repeat exit_step.
Qed.

(** X20: the only [sys.exit] of a run is that of the argument parser: a
    run whose arguments parse completes, with status 0, or stops on an
    uncaught exception, with status 1; otherwise the run ends with the
    status the parser gives. *)
Theorem run_exit_status `{Argparse namespace} (argv : list string)
  (w : world) :
  (exists args, parse_args (namespace := namespace) argv = inl args
                /\ ((fst (run argv w) = inl tt
                     /\ exit_status (run argv w) = 0%Z)
                    \/ (exists e, fst (run argv w) = inr (Uncaught e)
                                  /\ exit_status (run argv w) = 1%Z)))
  \/ (exists e, parse_args (namespace := namespace) argv = inr e
                /\ fst (run argv w) = inr (SysExit (exit_code e))
                /\ exit_status (run argv w) = exit_code e).
Proof.
  unfold exit_status, run. rewrite bind_run. unfold run_parser.
  destruct (parse_args (namespace := namespace) argv) as [args|e].
  - left. exists args. split; [reflexivity|].
    pose proof (main_never_exits args w) as Hne.
    destruct (main args w) as [[[]|[code|e]] w1]; cbn [fst] in *.
    + left. now split.
    + now destruct (Hne code).
    + right. exists e. now split.
  - right. exists e. now repeat split.
Qed.


(** X22: a run that completes leaves the output directory and in it the
    prepared table, the monthly series computed from that table and its
    first label ending in _clean, under the column name rate, and the plot
    of that same series; it prints the two paths and Done. *)
Theorem main_outputs (args : namespace) (w w' : world) :
  main args w = (inl tt, w') ->
  exists df rate_clean rest monthly,
    List.filter (fun c => Py.endswith c "_clean") (columns df)
    = rate_clean :: rest
    /\ monthly_timeseries df rate_clean = Ok monthly
    /\ fs w' !! outdir args = Some Directory
    /\ fs w' !! path_join (outdir args) "preprocessed_input.csv"
       = Some (CsvFile df)
    /\ fs w' !! path_join (outdir args) "monthly_timeseries.csv"
       = Some (SeriesFile "rate" monthly)
    /\ fs w' !! path_join (outdir args) "monthly_timeseries.png"
       = Some (PngFile (Figure "Monthly Unemployment Rate (aggregated)"
                               "Date" "Unemployment rate" monthly))
    /\ stdout w'
       = stdout w
         ++ [ "Saved preprocessed CSV to: "
              +:+ path_join (outdir args) "preprocessed_input.csv";
              "Saved monthly timeseries CSV to: "
              +:+ path_join (outdir args) "monthly_timeseries.csv";
              "Done." ].
Proof.
  unfold main, plot_monthly. rewrite bind_run.
  destruct (makedirs (outdir args) w) as [[[]|h] w1] eqn:Hmk;
    [|intros Hx; discriminate Hx].
  apply makedirs_done in Hmk as (Hdir & Hout & _ & _).
  rewrite bind_run.
  destruct (prepare_dataframe _ _ _ _ _ w1) as [[df|h] w1'] eqn:Hprep;
    [|intros Hx; discriminate Hx].
  apply prepare_dataframe_steps in Hprep as [-> _].
  rewrite bind_run. unfold lift at 1.
  destruct (List.filter (fun c => Py.endswith c "_clean") (columns df))
    as [|rate_clean rest] eqn:Hclean; [intros Hx; discriminate Hx|].
  rewrite bind_run.
  set (p1 := path_join (outdir args) "preprocessed_input.csv").
  set (p2 := path_join (outdir args) "monthly_timeseries.csv").
  set (p3 := path_join (outdir args) "monthly_timeseries.png").
  destruct (write_file p1 (CsvFile df) w1) as [[[]|h] w2] eqn:Hw2;
    [|intros Hx; discriminate Hx].
  apply write_file_done in Hw2 as [-> Hp1].
  rewrite print_bind, bind_run. unfold lift at 1.
  destruct (monthly_timeseries df rate_clean) as [monthly|e] eqn:Hmonthly;
    [|intros Hx; discriminate Hx].
  rewrite bind_run.
  match goal with
  | |- context [write_file p2 ?f ?w0] =>
      destruct (write_file p2 f w0) as [[[]|h] w3] eqn:Hw3;
        [|intros Hx; discriminate Hx]
  end.
  apply write_file_done in Hw3 as [-> Hp2].
  rewrite print_bind, bind_run.
  match goal with
  | |- context [write_file p3 ?f ?w0] =>
      destruct (write_file p3 f w0) as [[[]|h] w4] eqn:Hw4;
        [|intros Hx; discriminate Hx]
  end.
  apply write_file_done in Hw4 as [-> Hp3].
  cbn [fs stdout stderr] in *.
  intros [= <-]. cbn [fs stdout].
  assert (H1d : p1 <> outdir args) by (intros Heq; now rewrite Heq in Hp1).
  assert (H12 : p1 <> p2).
  { intros Heq. apply path_join_inj in Heq. discriminate Heq. }
  assert (H13 : p1 <> p3).
  { intros Heq. apply path_join_inj in Heq. discriminate Heq. }
  assert (H23 : p2 <> p3).
  { intros Heq. apply path_join_inj in Heq. discriminate Heq. }
  assert (H2d : p2 <> outdir args).
  { intros Heq. apply Hp2. rewrite Heq.
    rewrite lookup_insert_ne by (rewrite <- Heq; exact H12). exact Hdir. }
  assert (H3d : p3 <> outdir args).
  { intros Heq. apply Hp3. rewrite Heq.
    rewrite !lookup_insert_ne
      by (rewrite <- Heq; first [exact H23 | exact H13]).
    exact Hdir. }
  exists df, rate_clean, rest, monthly.
  split; [exact Hclean|]. split; [exact Hmonthly|]. split.
  { now rewrite !lookup_insert_ne by assumption. }
  split.
  { rewrite !lookup_insert_ne by congruence. apply lookup_insert_eq. }
  split.
  { rewrite lookup_insert_ne by congruence. apply lookup_insert_eq. }
  split; [apply lookup_insert_eq|].
  rewrite Hout, <- !app_assoc. reflexivity.
Qed.

End WithPandas.



Lemma main_outputs_witness :
  exists df rate_clean rest monthly,
    List.filter (fun c => Py.endswith c "_clean") (columns df)
    = rate_clean :: rest
    /\ monthly_timeseries df rate_clean = Ok monthly
    /\ fs (snd (main (H := Reference.pandas)
                  (Namespace "u.csv" "out" None None 12)
                  (World {["u.csv" := CsvFile labour]} [] [])))
          !! "out" = Some Directory
    /\ fs (snd (main (H := Reference.pandas)
                  (Namespace "u.csv" "out" None None 12)
                  (World {["u.csv" := CsvFile labour]} [] [])))
          !! path_join "out" "preprocessed_input.csv"
       = Some (CsvFile df)
    /\ fs (snd (main (H := Reference.pandas)
                  (Namespace "u.csv" "out" None None 12)
                  (World {["u.csv" := CsvFile labour]} [] [])))
          !! path_join "out" "monthly_timeseries.csv"
       = Some (SeriesFile "rate" monthly)
    /\ fs (snd (main (H := Reference.pandas)
                  (Namespace "u.csv" "out" None None 12)
                  (World {["u.csv" := CsvFile labour]} [] [])))
          !! path_join "out" "monthly_timeseries.png"
       = Some (PngFile (Figure "Monthly Unemployment Rate (aggregated)"
                               "Date" "Unemployment rate" monthly))
    /\ stdout (snd (main (H := Reference.pandas)
                      (Namespace "u.csv" "out" None None 12)
                      (World {["u.csv" := CsvFile labour]} [] [])))
       = stdout (World {["u.csv" := CsvFile labour]} [] [])
         ++ [ "Saved preprocessed CSV to: "
              +:+ path_join "out" "preprocessed_input.csv";
              "Saved monthly timeseries CSV to: "
              +:+ path_join "out" "monthly_timeseries.csv";
              "Done." ].
Proof.
  apply (main_outputs (H := Reference.pandas)
           (Namespace "u.csv" "out" None None 12)
           (World {["u.csv" := CsvFile labour]} [] [])).
  vm_compute. reflexivity.
Defined.

End Task2_runs.

(** ** What the model is trained and scored on (Task3.py) *)

Module Task3_training.
Import Task3 Run_facts Task3_artifacts Task2_runs.

Local Arguments String.append : simpl never.

(** X23: whenever the preprocessing returns, no column of its result is
    text: what is left is numeric, boolean or dates, the indicators
    included. *)
Theorem basic_preprocess_no_text (df df_proc : table) (target_col : string) :
  basic_preprocess df target_col = Ok df_proc ->
  forall label x, In (label, x) df_proc -> is_text x = false.
Proof.
  unfold basic_preprocess.
  destruct (dropna df [target_col]) as [df1|e]; [|discriminate].
  cbn [mbind result_bind].
  destruct (drop_cols_loop df1 target_col (columns df1)) as [drop_cols|e];
    [|discriminate].
  cbn [mbind result_bind]. intros [= <-] label x Hin.
  unfold get_dummies in Hin. apply in_app_iff in Hin as [Hin|Hin].
  - apply filter_In in Hin as [_ Hx]. cbn [snd] in Hx.
    now apply negb_true_iff in Hx.
  - apply in_flat_map in Hin as ([c col] & _ & Hin).
    unfold dummies_1d in Hin. apply in_map_iff in Hin as (l & [= _ <-] & _).
    reflexivity.
Qed.

Section WithSklearn.
Context `{Sklearn}.

Ltac lift_ok :=
  rewrite bind_run; unfold lift at 1;
  match goal with
  | |- context [match ?r with Ok _ => _ | Raise _ => _ end] =>
      destruct r eqn:?; [|intros Hx; discriminate Hx]
  end.

(** The steps of the part of [main] that trains and saves, when it
    completes. *)
Lemma train_and_save_trace (args : namespace) (df_proc : table)
  (target_col : string) (w w' : world) :
  train_and_save args df_proc target_col w = (inl tt, w') ->
  exists y X_train X_test y_train y_test preds mse r2,
    getitem df_proc target_col = Ok y
    /\ train_test_split (drop df_proc [target_col]) y (test_size args)
                        (random_state args)
       = Ok (X_train, X_test, y_train, y_test)
    /\ predict (Forest 100 (random_state args) (Some (X_train, y_train))) X_test
       = Ok preds
    /\ mean_squared_error y_test preds = Ok mse
    /\ r2_score y_test preds = Ok r2
    /\ fs w' !! path_join (outdir args) "rf_model.joblib"
       = Some (JoblibFile (Forest 100 (random_state args)
                                  (Some (X_train, y_train))))
    /\ fs w' !! path_join (outdir args) "metrics.txt"
       = Some (TextFile ("mse: " +:+ format_float mse +:+ String "010" EmptyString
                         +:+ "r2: " +:+ format_float r2
                         +:+ String "010" EmptyString)).
Proof.
  unfold train_and_save. lift_ok. lift_ok.
  match goal with a : (_ * _ * _ * _)%type |- _ =>
    destruct a as [[[X_train X_test] y_train] y_test] end.
  rewrite !print_bind. lift_ok. lift_ok. lift_ok. lift_ok.
  rewrite print_bind, bind_run.
  match goal with
  | |- context [makedirs ?d ?w0] =>
      destruct (makedirs d w0) as [[[]|h] w2] eqn:Hmk;
        [|intros Hx; discriminate Hx]
  end.
  apply makedirs_done in Hmk as (Hdir & _ & _ & _).
  rewrite bind_run.
  set (p1 := path_join (outdir args) "rf_model.joblib").
  set (p2 := path_join (outdir args) "metrics.txt").
  match goal with
  | |- context [write_file p1 ?f ?w0] =>
      destruct (write_file p1 f w0) as [[[]|h] w3] eqn:Hw3;
        [|intros Hx; discriminate Hx]
  end.
  apply write_file_done in Hw3 as [-> _].
  rewrite print_bind, bind_run.
  match goal with
  | |- context [write_file p2 ?f ?w0] =>
      destruct (write_file p2 f w0) as [[[]|h] w4] eqn:Hw4;
        [|intros Hx; discriminate Hx]
  end.
  apply write_file_done in Hw4 as [-> _].
  intros [= <-]. cbn [fs].
  assert (H12 : p2 <> p1).
  { intros Heq. apply path_join_inj in Heq. discriminate Heq. }
  do 8 eexists. split; [reflexivity|]. split; [eassumption|].
  split; [eassumption|]. split; [eassumption|]. split; [eassumption|].
  split.
  - rewrite lookup_insert_ne by exact H12. apply lookup_insert_eq.
  - apply lookup_insert_eq.
Qed.

(** X24: in a run that completes, the column taken as target is a label
    of the preprocessed table, the resolved one or else the first label
    that the re-match accepts; the features that are split are the
    preprocessed columns without it; the model saved is the forest fitted
    on the training part, and the two lines of metrics.txt are the mean
    squared error and the coefficient of determination of its predictions
    on the test part. *)
Theorem main_trains_on_features (args : namespace) (w w' : world) :
  main args w = (inl tt, w') ->
  exists df resolved df_proc target_col y X_train X_test y_train y_test
         preds mse r2,
    fs w !! input args = Some (CsvFile df)
    /\ find_target_column df (target args) = Some resolved
    /\ basic_preprocess df resolved = Ok df_proc
    /\ (In resolved (columns df_proc) /\ target_col = resolved
        \/ ~ In resolved (columns df_proc)
           /\ exists rest, possible df_proc resolved = target_col :: rest)
    /\ getitem df_proc target_col = Ok y
    /\ ~ In target_col (columns (drop df_proc [target_col]))
    /\ train_test_split (drop df_proc [target_col]) y (test_size args)
                        (random_state args)
       = Ok (X_train, X_test, y_train, y_test)
    /\ predict (Forest 100 (random_state args) (Some (X_train, y_train))) X_test
       = Ok preds
    /\ mean_squared_error y_test preds = Ok mse
    /\ r2_score y_test preds = Ok r2
    /\ fs w' !! path_join (outdir args) "rf_model.joblib"
       = Some (JoblibFile (Forest 100 (random_state args)
                                  (Some (X_train, y_train))))
    /\ fs w' !! path_join (outdir args) "metrics.txt"
       = Some (TextFile ("mse: " +:+ format_float mse +:+ String "010" EmptyString
                         +:+ "r2: " +:+ format_float r2
                         +:+ String "010" EmptyString)).
Proof.
  assert (Hdrop : forall (d : table) (c : string),
             ~ In c (columns (drop d [c]))).
  { intros d c Hin. apply column_of_label in Hin as [x Hin].
    apply Task2_series.drop_In in Hin as [_ Hl].
    unfold in_labels in Hl. cbn [existsb] in Hl.
    now rewrite String.eqb_refl in Hl. }
  unfold main. rewrite path_exists_bind.
  destruct (fs w !! input args) as [f|] eqn:Hf; cbn [negb];
    [|rewrite eprint_bind; intros Hx; discriminate Hx].
  rewrite print_bind, bind_run. unfold read_csv at 1. cbn [fs]. rewrite Hf.
  destruct f as [df| | | | |]; try (intros Hx; discriminate Hx).
  rewrite print_bind.
  destruct (find_target_column df (target args)) as [resolved|] eqn:Hfind;
    [|rewrite print_each_bind; intros Hx; discriminate Hx].
  rewrite print_bind. lift_ok.
  match goal with
  | Hp : basic_preprocess df resolved = Ok ?d |- _ => rename d into df_proc
  end.
  destruct (has_column df_proc resolved) eqn:Hcol.
  - intros Hrun. apply train_and_save_trace in Hrun
      as (y & X_train & X_test & y_train & y_test & preds & mse & r2
          & Hy & Hsplit & Hpred & Hmse & Hr2 & Hmodel & Hmetrics).
    exists df, resolved, df_proc, resolved, y, X_train, X_test, y_train,
      y_test, preds, mse, r2.
    split; [reflexivity|]. split; [exact Hfind|]. split; [assumption|].
    split; [left; split; [now apply has_column_In | reflexivity]|].
    split; [exact Hy|]. split; [apply Hdrop|].
    repeat (split; [assumption|]). exact Hmetrics.
  - destruct (possible df_proc resolved) as [|adjusted rest] eqn:Hposs.
    + rewrite eprint_bind. intros Hx. discriminate Hx.
    + rewrite print_bind. intros Hrun. apply train_and_save_trace in Hrun
        as (y & X_train & X_test & y_train & y_test & preds & mse & r2
            & Hy & Hsplit & Hpred & Hmse & Hr2 & Hmodel & Hmetrics).
      exists df, resolved, df_proc, adjusted, y, X_train, X_test, y_train,
        y_test, preds, mse, r2.
      split; [reflexivity|]. split; [exact Hfind|]. split; [assumption|].
      split.
      { right. split; [|now exists rest].
        intros Hin. apply has_column_In in Hin. congruence. }
      split; [exact Hy|]. split; [apply Hdrop|].
      repeat (split; [assumption|]). exact Hmetrics.
Qed.

End WithSklearn.

Lemma basic_preprocess_no_text_witness :
  is_text (BoolCol [true; false; true]) = false.
Proof.
  refine (basic_preprocess_no_text cars
            [("Year", NumCol [Some 2014%Q; Some 2013%Q; Some 2017%Q]);
             ("Selling_Price", NumCol [Some 3.35%Q; Some 4.75%Q; Some 7.25%Q]);
             ("Fuel_Type_Petrol", BoolCol [true; false; true])]
            "Selling_Price" _ "Fuel_Type_Petrol" _ _).
  - vm_compute. reflexivity.
  - right. right. now left.
Defined.

Lemma main_trains_on_features_witness :
  exists df resolved df_proc target_col y X_train X_test y_train y_test
         preds mse r2,
    fs (World {["cars.csv" := CsvFile cars]} [] []) !! "cars.csv"
    = Some (CsvFile df)
    /\ find_target_column df None = Some resolved
    /\ basic_preprocess df resolved = Ok df_proc
    /\ (In resolved (columns df_proc) /\ target_col = resolved
        \/ ~ In resolved (columns df_proc)
           /\ exists rest, possible df_proc resolved = target_col :: rest)
    /\ getitem df_proc target_col = Ok y
    /\ ~ In target_col (columns (drop df_proc [target_col]))
    /\ train_test_split (Sklearn := Reference.sklearn)
         (drop df_proc [target_col]) y 0.2%Q 42
       = Ok (X_train, X_test, y_train, y_test)
    /\ predict (Forest 100 42 (Some (X_train, y_train))) X_test = Ok preds
    /\ mean_squared_error y_test preds = Ok mse
    /\ r2_score y_test preds = Ok r2
    /\ fs (snd (main (Namespace "cars.csv" "out" None 0.2%Q 42)
                     (World {["cars.csv" := CsvFile cars]} [] [])))
          !! path_join "out" "rf_model.joblib"
       = Some (JoblibFile (Forest 100 42 (Some (X_train, y_train))))
    /\ fs (snd (main (Namespace "cars.csv" "out" None 0.2%Q 42)
                     (World {["cars.csv" := CsvFile cars]} [] [])))
          !! path_join "out" "metrics.txt"
       = Some (TextFile ("mse: " +:+ format_float mse +:+ String "010" EmptyString
                         +:+ "r2: " +:+ format_float r2
                         +:+ String "010" EmptyString)).
Proof.
  apply (main_trains_on_features (H := Reference.sklearn)
           (Namespace "cars.csv" "out" None 0.2%Q 42)
           (World {["cars.csv" := CsvFile cars]} [] [])).
  vm_compute. reflexivity.
Defined.

End Task3_training.

(** ** When the re-match of the target is reached (Task3.py) *)

Module Task3_rematch.
Import Task3 Task3_spec Task3_prep Run_facts.

Local Arguments String.append : simpl never.

(** A target that is not text keeps its label through the preprocessing. *)
Lemma plain_target_kept (df : table) (target_col : string) (tcol : column) :
  List.NoDup (columns df) -> In (target_col, tcol) df -> is_text tcol = false ->
  exists df_proc,
    basic_preprocess df target_col = Ok df_proc
    /\ has_column df_proc target_col = true.
Proof.
  intros Hnd Hin Htext.
  assert (Hcol : In target_col (columns df)).
  { apply (in_map fst) in Hin. exact Hin. }
  rewrite (basic_preprocess_unfold df target_col Hnd Hcol).
  eexists. split; [reflexivity|].
  apply has_column_In.
  apply (in_map fst _ (target_col,
                       col_take (complete_rows df [target_col]) tcol)).
  apply get_dummies_In. left. rewrite is_text_take. split; [|exact Htext].
  apply filter_In. split.
  - apply table_take_In. now exists tcol.
  - rewrite negb_true_iff, identifier_like_take.
    now apply identifier_like_plain.
Qed.

Section WithSklearn.
Context `{Sklearn}.

(** X25: with a readable table whose labels do not repeat and a resolved
    target that is not text, the run goes from the preprocessing straight
    to the training on that target: the re-match is not tried, and the run
    ends with no exit code but 0 or that of an uncaught exception. *)
Theorem main_plain_target_trains (args : namespace) (w : world) (df : table)
  (target_col : string) (tcol : column) :
  fs w !! input args = Some (CsvFile df) ->
  List.NoDup (columns df) ->
  find_target_column df (target args) = Some target_col ->
  In (target_col, tcol) df -> is_text tcol = false ->
  exists df_proc,
    basic_preprocess df target_col = Ok df_proc
    /\ In target_col (columns df_proc)
    /\ main args w
       = train_and_save args df_proc target_col
           (World (fs w)
                  (stdout w ++ [ "Loading data... " +:+ input args;
                                 "Rows/cols: " +:+ shape_str df;
                                 "Using target column: " +:+ target_col ])
                  (stderr w))
    /\ forall code, fst (main args w) <> inr (SysExit code).
Proof.
  intros Hfile Hnd Hfind Hin Htext.
  destruct (plain_target_kept df target_col tcol Hnd Hin Htext)
    as (df_proc & Hpre & Hcol).
  exists df_proc. split; [exact Hpre|].
  split; [now apply has_column_In|].
  assert (Hmain : main args w
       = train_and_save args df_proc target_col
           (World (fs w)
                  (stdout w ++ [ "Loading data... " +:+ input args;
                                 "Rows/cols: " +:+ shape_str df;
                                 "Using target column: " +:+ target_col ])
                  (stderr w))).
  { unfold main. rewrite path_exists_bind, Hfile. cbn [negb].
    rewrite print_bind, (read_csv_bind _ df) by exact Hfile.
    rewrite print_bind, Hfind, print_bind.
    rewrite (lift_bind _ df_proc) by exact Hpre.
    rewrite Hcol. cbn [fs stdout stderr].
    now rewrite <- !app_assoc. }
  split; [exact Hmain|].
  intros code. rewrite Hmain.
  apply Task3_runs.train_and_save_never_exits.
Qed.

End WithSklearn.

Lemma main_plain_target_trains_witness :
  exists df_proc,
    basic_preprocess cars "Selling_Price" = Ok df_proc
    /\ In "Selling_Price" (columns df_proc)
    /\ main (Namespace "cars.csv" "out" None 0.2%Q 42)
            (World {["cars.csv" := CsvFile cars]} [] [])
       = train_and_save (Namespace "cars.csv" "out" None 0.2%Q 42)
           df_proc "Selling_Price"
           (World (fs (World {["cars.csv" := CsvFile cars]} [] []))
                  (stdout (World {["cars.csv" := CsvFile cars]} [] [])
                   ++ [ "Loading data... " +:+ "cars.csv";
                        "Rows/cols: " +:+ shape_str cars;
                        "Using target column: " +:+ "Selling_Price" ])
                  (stderr (World {["cars.csv" := CsvFile cars]} [] [])))
    /\ forall code,
         fst (main (Namespace "cars.csv" "out" None 0.2%Q 42)
                   (World {["cars.csv" := CsvFile cars]} [] []))
         <> inr (SysExit code).
Proof.
  apply (main_plain_target_trains (H := Reference.sklearn)
           (Namespace "cars.csv" "out" None 0.2%Q 42)
           (World {["cars.csv" := CsvFile cars]} [] []) cars "Selling_Price"
           (NumCol [Some 3.35%Q; Some 4.75%Q; Some 7.25%Q; None])).
  - reflexivity.
  - repeat constructor; simpl; intuition discriminate.
  - vm_compute. reflexivity.
  - right. right. now left.
  - reflexivity.
Defined.

End Task3_rematch.
